(** * PowerBook keyboard / ADB mouse to USB HID bridge

    A shallow embedding of the firmware's matrix scanner
    (KeyboardSwitchMatrix.c), ADB mouse poller (ADBMouse.c) and HID report
    tasks (KeyboardMouse.c), with the properties of the specification stated
    and settled against it.

    Conventions.  C integers are [Z] with their wrap-around written out
    ([u8], [u16], [s16], [s8]); array indices are [nat]; arrays are lists
    read with [!!!] and written with [<[i:=v]>].  A C array has a fixed
    size, which the well-formedness predicates below record; on a
    well-formed state no access of the code is out of range.  Hardware
    inputs (a column pin level, the outcome of a timed wait on the ADB line,
    the readiness of a USB endpoint) are parameters of the function that
    reads them.  Writes to pin direction and level registers and busy-wait
    delays touch no variable of the program and are left out of the
    scanner, the poller and the tasks; they are modelled on their own: the
    registers as a register file [gpio] (Util.c), the waits on streams of
    timer and pin readings, the ADB writer as the sequence of its calls. *)

From Stdlib Require Import ZArith Lia Bool List.
From stdpp Require Import base numbers list.

Local Open Scope Z_scope.

(** ** Machine integers *)

Module Int.

Definition u8 (x : Z) : Z := x mod 256.
Definition u16 (x : Z) : Z := x mod 65536.
(** Conversion to a signed type keeps the value modulo 2^w (avr-gcc). *)
Definition s16 (x : Z) : Z := (x + 32768) mod 65536 - 32768.
Definition s8 (x : Z) : Z := (x + 128) mod 256 - 128.

(** C truth value of an integer. *)
Definition truthy (x : Z) : bool := negb (x =? 0).

End Int.
Import Int.

(** ** HID constants *)

(** Modelled from the spec: the [HID_KEYBOARD_SC_*] scan codes and
    [HID_KEYBOARD_MODIFIER_*] masks are declared in the LUFA HID class
    header, which is not part of the sources.  The values are those of the
    USB HID Usage Tables the glossary refers to; the modifier bits are the
    ones of the boot keyboard report (bit 0 = L-Ctrl ... bit 7 = R-GUI) and
    the rollover code is [0x01]. *)
Module HID.

Definition HID_KEYBOARD_SC_ERROR_ROLLOVER : Z := 0x01.
Definition HID_KEYBOARD_SC_A : Z := 0x04.
Definition HID_KEYBOARD_SC_B : Z := 0x05.
Definition HID_KEYBOARD_SC_C : Z := 0x06.
Definition HID_KEYBOARD_SC_D : Z := 0x07.
Definition HID_KEYBOARD_SC_E : Z := 0x08.
Definition HID_KEYBOARD_SC_F : Z := 0x09.
Definition HID_KEYBOARD_SC_G : Z := 0x0A.
Definition HID_KEYBOARD_SC_H : Z := 0x0B.
Definition HID_KEYBOARD_SC_I : Z := 0x0C.
Definition HID_KEYBOARD_SC_J : Z := 0x0D.
Definition HID_KEYBOARD_SC_K : Z := 0x0E.
Definition HID_KEYBOARD_SC_L : Z := 0x0F.
Definition HID_KEYBOARD_SC_M : Z := 0x10.
Definition HID_KEYBOARD_SC_N : Z := 0x11.
Definition HID_KEYBOARD_SC_O : Z := 0x12.
Definition HID_KEYBOARD_SC_P : Z := 0x13.
Definition HID_KEYBOARD_SC_Q : Z := 0x14.
Definition HID_KEYBOARD_SC_R : Z := 0x15.
Definition HID_KEYBOARD_SC_S : Z := 0x16.
Definition HID_KEYBOARD_SC_T : Z := 0x17.
Definition HID_KEYBOARD_SC_U : Z := 0x18.
Definition HID_KEYBOARD_SC_V : Z := 0x19.
Definition HID_KEYBOARD_SC_W : Z := 0x1A.
Definition HID_KEYBOARD_SC_X : Z := 0x1B.
Definition HID_KEYBOARD_SC_Y : Z := 0x1C.
Definition HID_KEYBOARD_SC_Z : Z := 0x1D.
Definition HID_KEYBOARD_SC_1_AND_EXCLAMATION : Z := 0x1E.
Definition HID_KEYBOARD_SC_2_AND_AT : Z := 0x1F.
Definition HID_KEYBOARD_SC_3_AND_HASHMARK : Z := 0x20.
Definition HID_KEYBOARD_SC_4_AND_DOLLAR : Z := 0x21.
Definition HID_KEYBOARD_SC_5_AND_PERCENTAGE : Z := 0x22.
Definition HID_KEYBOARD_SC_6_AND_CARET : Z := 0x23.
Definition HID_KEYBOARD_SC_7_AND_AMPERSAND : Z := 0x24.
Definition HID_KEYBOARD_SC_8_AND_ASTERISK : Z := 0x25.
Definition HID_KEYBOARD_SC_9_AND_OPENING_PARENTHESIS : Z := 0x26.
Definition HID_KEYBOARD_SC_0_AND_CLOSING_PARENTHESIS : Z := 0x27.
Definition HID_KEYBOARD_SC_ENTER : Z := 0x28.
Definition HID_KEYBOARD_SC_ESCAPE : Z := 0x29.
Definition HID_KEYBOARD_SC_BACKSPACE : Z := 0x2A.
Definition HID_KEYBOARD_SC_TAB : Z := 0x2B.
Definition HID_KEYBOARD_SC_SPACE : Z := 0x2C.
Definition HID_KEYBOARD_SC_MINUS_AND_UNDERSCORE : Z := 0x2D.
Definition HID_KEYBOARD_SC_EQUAL_AND_PLUS : Z := 0x2E.
Definition HID_KEYBOARD_SC_OPENING_BRACKET_AND_OPENING_BRACE : Z := 0x2F.
Definition HID_KEYBOARD_SC_CLOSING_BRACKET_AND_CLOSING_BRACE : Z := 0x30.
Definition HID_KEYBOARD_SC_BACKSLASH_AND_PIPE : Z := 0x31.
Definition HID_KEYBOARD_SC_SEMICOLON_AND_COLON : Z := 0x33.
Definition HID_KEYBOARD_SC_APOSTROPHE_AND_QUOTE : Z := 0x34.
Definition HID_KEYBOARD_SC_GRAVE_ACCENT_AND_TILDE : Z := 0x35.
Definition HID_KEYBOARD_SC_COMMA_AND_LESS_THAN_SIGN : Z := 0x36.
Definition HID_KEYBOARD_SC_DOT_AND_GREATER_THAN_SIGN : Z := 0x37.
Definition HID_KEYBOARD_SC_SLASH_AND_QUESTION_MARK : Z := 0x38.
Definition HID_KEYBOARD_SC_CAPS_LOCK : Z := 0x39.
Definition HID_KEYBOARD_SC_RIGHT_ARROW : Z := 0x4F.
Definition HID_KEYBOARD_SC_LEFT_ARROW : Z := 0x50.
Definition HID_KEYBOARD_SC_DOWN_ARROW : Z := 0x51.
Definition HID_KEYBOARD_SC_UP_ARROW : Z := 0x52.
Definition HID_KEYBOARD_SC_RETURN : Z := 0x9E.
Definition HID_KEYBOARD_SC_LEFT_CONTROL : Z := 0xE0.
Definition HID_KEYBOARD_SC_LEFT_SHIFT : Z := 0xE1.
Definition HID_KEYBOARD_SC_LEFT_ALT : Z := 0xE2.
Definition HID_KEYBOARD_SC_LEFT_GUI : Z := 0xE3.
Definition HID_KEYBOARD_SC_RIGHT_CONTROL : Z := 0xE4.
Definition HID_KEYBOARD_SC_RIGHT_SHIFT : Z := 0xE5.
Definition HID_KEYBOARD_SC_RIGHT_ALT : Z := 0xE6.
Definition HID_KEYBOARD_SC_RIGHT_GUI : Z := 0xE7.

Definition HID_KEYBOARD_MODIFIER_LEFTCTRL : Z := Z.shiftl 1 0.
Definition HID_KEYBOARD_MODIFIER_LEFTSHIFT : Z := Z.shiftl 1 1.
Definition HID_KEYBOARD_MODIFIER_LEFTALT : Z := Z.shiftl 1 2.
Definition HID_KEYBOARD_MODIFIER_LEFTGUI : Z := Z.shiftl 1 3.
Definition HID_KEYBOARD_MODIFIER_RIGHTCTRL : Z := Z.shiftl 1 4.
Definition HID_KEYBOARD_MODIFIER_RIGHTSHIFT : Z := Z.shiftl 1 5.
Definition HID_KEYBOARD_MODIFIER_RIGHTALT : Z := Z.shiftl 1 6.
Definition HID_KEYBOARD_MODIFIER_RIGHTGUI : Z := Z.shiftl 1 7.

End HID.
Import HID.

(** ** KeyboardSwitchMatrix.c *)

Definition MATRIX_ROWS : nat := 8.
Definition MATRIX_COLUMNS : nat := 16.
Definition ROWS_PER_REPORT : nat := 2.

Definition KeyboardMatrix : list (list Z) :=
  [ (* Row 1 *)
    [ 0x00; HID_KEYBOARD_SC_EQUAL_AND_PLUS; HID_KEYBOARD_SC_5_AND_PERCENTAGE; HID_KEYBOARD_SC_4_AND_DOLLAR;
      0x00; 0x00; 0x00; 0x00;
      0x00; HID_KEYBOARD_SC_LEFT_GUI; HID_KEYBOARD_SC_CAPS_LOCK; HID_KEYBOARD_SC_ESCAPE;
      HID_KEYBOARD_SC_LEFT_SHIFT; HID_KEYBOARD_SC_LEFT_ALT; HID_KEYBOARD_SC_LEFT_CONTROL; HID_KEYBOARD_SC_6_AND_CARET ];
    (* Row 2 *)
    [ HID_KEYBOARD_SC_U; HID_KEYBOARD_SC_RETURN; HID_KEYBOARD_SC_SEMICOLON_AND_COLON; HID_KEYBOARD_SC_L;
      HID_KEYBOARD_SC_RIGHT_ARROW; HID_KEYBOARD_SC_D; HID_KEYBOARD_SC_UP_ARROW; 0x00;
      HID_KEYBOARD_SC_LEFT_ARROW; HID_KEYBOARD_SC_LEFT_GUI; HID_KEYBOARD_SC_CAPS_LOCK; HID_KEYBOARD_SC_BACKSPACE;
      HID_KEYBOARD_SC_LEFT_SHIFT; HID_KEYBOARD_SC_LEFT_ALT; HID_KEYBOARD_SC_LEFT_CONTROL; HID_KEYBOARD_SC_APOSTROPHE_AND_QUOTE ];
    (* Row 3 *)
    [ 0x00; HID_KEYBOARD_SC_O; HID_KEYBOARD_SC_OPENING_BRACKET_AND_OPENING_BRACE; HID_KEYBOARD_SC_BACKSLASH_AND_PIPE;
      0x00; 0x00; 0x00; 0x00;
      0x00; HID_KEYBOARD_SC_LEFT_GUI; HID_KEYBOARD_SC_CAPS_LOCK; HID_KEYBOARD_SC_3_AND_HASHMARK;
      HID_KEYBOARD_SC_LEFT_SHIFT; HID_KEYBOARD_SC_LEFT_ALT; HID_KEYBOARD_SC_LEFT_CONTROL; HID_KEYBOARD_SC_9_AND_OPENING_PARENTHESIS ];
    (* Row 4 *)
    [ HID_KEYBOARD_SC_B; HID_KEYBOARD_SC_DOT_AND_GREATER_THAN_SIGN; HID_KEYBOARD_SC_COMMA_AND_LESS_THAN_SIGN; HID_KEYBOARD_SC_J;
      HID_KEYBOARD_SC_F; 0x00; HID_KEYBOARD_SC_DOWN_ARROW; HID_KEYBOARD_SC_S;
      HID_KEYBOARD_SC_A; HID_KEYBOARD_SC_LEFT_GUI; HID_KEYBOARD_SC_CAPS_LOCK; HID_KEYBOARD_SC_H;
      HID_KEYBOARD_SC_LEFT_SHIFT; HID_KEYBOARD_SC_LEFT_ALT; HID_KEYBOARD_SC_LEFT_CONTROL; HID_KEYBOARD_SC_SLASH_AND_QUESTION_MARK ];
    (* Row 5 *)
    [ HID_KEYBOARD_SC_ENTER; 0x00; HID_KEYBOARD_SC_P; HID_KEYBOARD_SC_K;
      HID_KEYBOARD_SC_R; HID_KEYBOARD_SC_E; HID_KEYBOARD_SC_W; HID_KEYBOARD_SC_Q;
      HID_KEYBOARD_SC_TAB; HID_KEYBOARD_SC_LEFT_GUI; HID_KEYBOARD_SC_CAPS_LOCK; HID_KEYBOARD_SC_I;
      HID_KEYBOARD_SC_LEFT_SHIFT; HID_KEYBOARD_SC_LEFT_ALT; HID_KEYBOARD_SC_LEFT_CONTROL; HID_KEYBOARD_SC_CLOSING_BRACKET_AND_CLOSING_BRACE ];
    (* Row 6 *)
    [ 0x00; HID_KEYBOARD_SC_0_AND_CLOSING_PARENTHESIS; HID_KEYBOARD_SC_Y; HID_KEYBOARD_SC_G;
      0x00; 0x00; 0x00; 0x00;
      0x00; HID_KEYBOARD_SC_LEFT_GUI; HID_KEYBOARD_SC_CAPS_LOCK; HID_KEYBOARD_SC_2_AND_AT;
      HID_KEYBOARD_SC_LEFT_SHIFT; HID_KEYBOARD_SC_LEFT_ALT; HID_KEYBOARD_SC_LEFT_CONTROL; HID_KEYBOARD_SC_8_AND_ASTERISK ];
    (* Row 7 *)
    [ 0x00; HID_KEYBOARD_SC_MINUS_AND_UNDERSCORE; HID_KEYBOARD_SC_T; HID_KEYBOARD_SC_GRAVE_ACCENT_AND_TILDE;
      0x00; 0x00; 0x00; 0x00;
      0x00; HID_KEYBOARD_SC_LEFT_GUI; HID_KEYBOARD_SC_CAPS_LOCK; HID_KEYBOARD_SC_1_AND_EXCLAMATION;
      HID_KEYBOARD_SC_LEFT_SHIFT; HID_KEYBOARD_SC_LEFT_ALT; HID_KEYBOARD_SC_LEFT_CONTROL; HID_KEYBOARD_SC_7_AND_AMPERSAND ];
    (* Row 8 *)
    [ HID_KEYBOARD_SC_SPACE; 0x00; HID_KEYBOARD_SC_M; HID_KEYBOARD_SC_N;
      HID_KEYBOARD_SC_V; HID_KEYBOARD_SC_C; HID_KEYBOARD_SC_X; HID_KEYBOARD_SC_Z;
      0x00; HID_KEYBOARD_SC_LEFT_GUI; HID_KEYBOARD_SC_CAPS_LOCK; 0x00;
      HID_KEYBOARD_SC_LEFT_SHIFT; HID_KEYBOARD_SC_LEFT_ALT; HID_KEYBOARD_SC_LEFT_CONTROL; 0x00 ] ].

Definition IS_GHOST_FREE_COLUMN (x : nat) : bool :=
  (x =? 9)%nat || (x =? 10)%nat || (x =? 12)%nat || (x =? 13)%nat || (x =? 14)%nat.

(** The file-scope variables of the scanner. *)
Record matrix_state : Type := MatrixState {
  RawSwitchPressed : list (list Z);   (* uint8_t [MATRIX_ROWS][MATRIX_COLUMNS] *)
  TotalInRow : list Z;                (* uint8_t [MATRIX_ROWS] *)
  TotalInColumn : list Z;             (* uint8_t [MATRIX_COLUMNS] *)
  RowHasGhost : list Z;               (* uint8_t [MATRIX_ROWS] *)
  ColumnHasGhost : list Z;            (* uint8_t [MATRIX_COLUMNS] *)
  KeyPressed : list Z;                (* uint8_t [256] *)
  CurrentRow : nat                    (* uint8_t *)
}.

(** [a[r][c]] of a two-dimensional array. *)
Definition cell (a : list (list Z)) (r c : nat) : Z := (a !!! r) !!! c.

(** [a[r][c] = v]. *)
Definition set_cell (a : list (list Z)) (r c : nat) (v : Z) : list (list Z) :=
  <[r := <[c := v]> (a !!! r)]> a.

(** Static storage is zero-initialised. *)
Definition matrix_reset : matrix_state :=
  {| RawSwitchPressed := replicate MATRIX_ROWS (replicate MATRIX_COLUMNS 0);
     TotalInRow := replicate MATRIX_ROWS 0;
     TotalInColumn := replicate MATRIX_COLUMNS 0;
     RowHasGhost := replicate MATRIX_ROWS 0;
     ColumnHasGhost := replicate MATRIX_COLUMNS 0;
     KeyPressed := replicate 256 0;
     CurrentRow := 0 |}.

(** *** CheckForGhosts *)

(** Inner loop over [i]: every row with a press in [Column] is flagged. *)
Definition mark_rows (raw : list (list Z)) (Column : nat) (rg : list Z) : list Z :=
  foldl (fun rg i => if truthy (cell raw i Column) then <[i := 1]> rg else rg)
        rg (seq 0 MATRIX_ROWS).

(** Inner loop over [j]: every column, ghost-free ones apart, with a press
    in [Row] is flagged. *)
Definition mark_columns (raw : list (list Z)) (Row : nat) (cg : list Z) : list Z :=
  foldl (fun cg j =>
           if IS_GHOST_FREE_COLUMN j then cg
           else if truthy (cell raw Row j) then <[j := 1]> cg else cg)
        cg (seq 0 MATRIX_COLUMNS).

(** The corner test of the source. *)
Definition is_corner (raw : list (list Z)) (tr tc : list Z) (Row Column : nat) : bool :=
  truthy (cell raw Row Column) && (2 <=? tr !!! Row) && (2 <=? tc !!! Column).

(** Body of the double loop at one [(Row, Column)]. *)
Definition ghost_cell (raw : list (list Z)) (tr tc : list Z) (Row Column : nat)
    (g : list Z * list Z) : list Z * list Z :=
  if IS_GHOST_FREE_COLUMN Column then g
  else if is_corner raw tr tc Row Column
       then (mark_rows raw Column (fst g), mark_columns raw Row (snd g))
       else g.

Definition ghost_row (raw : list (list Z)) (tr tc : list Z) (g : list Z * list Z)
    (Row : nat) : list Z * list Z :=
  foldl (fun g Column => ghost_cell raw tr tc Row Column g) g (seq 0 MATRIX_COLUMNS).

Definition ghost_flags (raw : list (list Z)) (tr tc : list Z) : list Z * list Z :=
  foldl (ghost_row raw tr tc)
        (replicate MATRIX_ROWS 0, replicate MATRIX_COLUMNS 0)
        (seq 0 MATRIX_ROWS).

Definition CheckForGhosts (st : matrix_state) : matrix_state :=
  let g := ghost_flags (RawSwitchPressed st) (TotalInRow st) (TotalInColumn st) in
  {| RawSwitchPressed := RawSwitchPressed st;
     TotalInRow := TotalInRow st;
     TotalInColumn := TotalInColumn st;
     RowHasGhost := fst g;
     ColumnHasGhost := snd g;
     KeyPressed := KeyPressed st;
     CurrentRow := CurrentRow st |}.

(** *** KeyboardScanMatrix *)

(** Lines 262-272: the value of [SwitchPressed] once the column pin has been
    read.  [pin] is what [ReadPortPin] returned; [ScanCode] is whatever the
    local variable holds when the [else if] tests it (it is assigned only
    further down, so this is the value of the previous iteration, or an
    indeterminate one on the first). *)
Definition switch_pressed (pin ScanCode : Z) : Z :=
  if pin =? 0 then 1
  else if negb (ScanCode =? 0) then 0
  else 0.

Definition set_counts (tr tc : list Z) (st : matrix_state) : matrix_state :=
  {| RawSwitchPressed := RawSwitchPressed st; TotalInRow := tr; TotalInColumn := tc;
     RowHasGhost := RowHasGhost st; ColumnHasGhost := ColumnHasGhost st;
     KeyPressed := KeyPressed st; CurrentRow := CurrentRow st |}.

Definition set_raw (raw : list (list Z)) (st : matrix_state) : matrix_state :=
  {| RawSwitchPressed := raw; TotalInRow := TotalInRow st; TotalInColumn := TotalInColumn st;
     RowHasGhost := RowHasGhost st; ColumnHasGhost := ColumnHasGhost st;
     KeyPressed := KeyPressed st; CurrentRow := CurrentRow st |}.

Definition set_KeyPressed (kp : list Z) (st : matrix_state) : matrix_state :=
  {| RawSwitchPressed := RawSwitchPressed st; TotalInRow := TotalInRow st;
     TotalInColumn := TotalInColumn st;
     RowHasGhost := RowHasGhost st; ColumnHasGhost := ColumnHasGhost st;
     KeyPressed := kp; CurrentRow := CurrentRow st |}.

Definition set_CurrentRow (r : nat) (st : matrix_state) : matrix_state :=
  {| RawSwitchPressed := RawSwitchPressed st; TotalInRow := TotalInRow st;
     TotalInColumn := TotalInColumn st;
     RowHasGhost := RowHasGhost st; ColumnHasGhost := ColumnHasGhost st;
     KeyPressed := KeyPressed st; CurrentRow := r |}.

(** Lines 273-288: the transition tests, the counters and the raw cell.
    Returns the new state and [SwitchChanged]. *)
Definition update_raw (SwitchPressed : Z) (CurrentColumn : nat) (st : matrix_state)
    : matrix_state * Z :=
  let r := CurrentRow st in
  let was := truthy (cell (RawSwitchPressed st) r CurrentColumn) in
  let now := truthy SwitchPressed in
  (* unpressed -> pressed *)
  let '(st1, ch1) :=
    if negb was && now
    then (set_counts (<[r := u8 (TotalInRow st !!! r + 1)]> (TotalInRow st))
                     (<[CurrentColumn := u8 (TotalInColumn st !!! CurrentColumn + 1)]>
                        (TotalInColumn st)) st, 1)
    else (st, 0) in
  (* pressed -> unpressed *)
  let '(st2, ch2) :=
    if was && negb now
    then (set_counts (<[r := u8 (TotalInRow st1 !!! r - 1)]> (TotalInRow st1))
                     (<[CurrentColumn := u8 (TotalInColumn st1 !!! CurrentColumn - 1)]>
                        (TotalInColumn st1)) st1, 1)
    else (st1, ch1) in
  (set_raw (set_cell (RawSwitchPressed st2) r CurrentColumn SwitchPressed) st2, ch2).

(** Lines 293-299: the post-processed key state.  Returns the new state and
    the value left in the local [ScanCode]. *)
Definition update_cooked (SwitchPressed : Z) (CurrentColumn : nat) (st : matrix_state)
    : matrix_state * Z :=
  let r := CurrentRow st in
  let ScanCode := cell KeyboardMatrix r CurrentColumn in
  if negb (truthy SwitchPressed)
     || (negb (truthy (RowHasGhost st !!! r))
         && negb (truthy (ColumnHasGhost st !!! CurrentColumn)))
  then (set_KeyPressed (<[Z.to_nat ScanCode := SwitchPressed]> (KeyPressed st)) st, ScanCode)
  else (st, ScanCode).

(** Lines 273-299 for a given [SwitchPressed]. *)
Definition scan_cell_body (SwitchPressed : Z) (CurrentColumn : nat) (st : matrix_state)
    : matrix_state * Z :=
  let '(st1, SwitchChanged) := update_raw SwitchPressed CurrentColumn st in
  let st2 := if truthy SwitchChanged then CheckForGhosts st1 else st1 in
  update_cooked SwitchPressed CurrentColumn st2.

(** One iteration of the column loop. *)
Definition scan_cell (pin ScanCode : Z) (CurrentColumn : nat) (st : matrix_state)
    : matrix_state * Z :=
  scan_cell_body (switch_pressed pin ScanCode) CurrentColumn st.

(** The column loop, over the columns [cols], threading the state and the
    local [ScanCode]; [pins c] is the level read from column [c]. *)
Definition scan_columns (pins : nat -> Z) (cols : list nat) (s : matrix_state * Z)
    : matrix_state * Z :=
  foldl (fun s c => scan_cell (pins c) (snd s) c (fst s)) s cols.

(** Lines 306-310. *)
Definition next_row (st : matrix_state) : matrix_state :=
  let r := S (CurrentRow st) in
  set_CurrentRow (if (MATRIX_ROWS <=? r)%nat then 0%nat else r) st.

(** One iteration of the row loop. *)
Definition scan_row (pins : nat -> Z) (s : matrix_state * Z) : matrix_state * Z :=
  let s' := scan_columns pins (seq 0 MATRIX_COLUMNS) s in
  (next_row (fst s'), snd s').

(** [KeyboardScanMatrix].  [ScanCode0] is the indeterminate initial value of
    the local [ScanCode]; [pins i c] is the level read from column [c]
    during the [i]-th row of this call. *)
Definition KeyboardScanMatrix (ScanCode0 : Z) (pins : nat -> nat -> Z) (st : matrix_state)
    : matrix_state :=
  fst (foldl (fun s i => scan_row (pins i) s) (st, ScanCode0) (seq 0 ROWS_PER_REPORT)).

(** The state, and the value of the local [ScanCode], just after the
    iteration of the column loop for column [c] of the [i]-th row of one
    call of [KeyboardScanMatrix]. *)
Definition scan_upto (ScanCode0 : Z) (pins : nat -> nat -> Z) (st : matrix_state)
    (i c : nat) : matrix_state * Z :=
  scan_columns (pins i) (seq 0 (S c))
    (foldl (fun s i => scan_row (pins i) s) (st, ScanCode0) (seq 0 i)).

(** *** The scanner with the explicit test

    The reference for the refinement statement: the same scanner, except
    that the [!= 0] condition tests [KeyboardMatrix[CurrentRow][CurrentColumn]],
    as the specification recommends, and no value is carried over between
    iterations. *)
Definition scan_cell_explicit (pin : Z) (CurrentColumn : nat) (st : matrix_state)
    : matrix_state :=
  fst (scan_cell_body
         (switch_pressed pin (cell KeyboardMatrix (CurrentRow st) CurrentColumn))
         CurrentColumn st).

Definition scan_row_explicit (pins : nat -> Z) (st : matrix_state) : matrix_state :=
  next_row (foldl (fun st c => scan_cell_explicit (pins c) c st) st (seq 0 MATRIX_COLUMNS)).

Definition KeyboardScanMatrix_explicit (pins : nat -> nat -> Z) (st : matrix_state)
    : matrix_state :=
  foldl (fun st i => scan_row_explicit (pins i) st) st (seq 0 ROWS_PER_REPORT).

(** *** Predicates on the scanner state *)

(** The array dimensions of the declarations, and [CurrentRow] in range. *)
Record matrix_wf (st : matrix_state) : Prop := MatrixWf {
  wf_raw_rows : length (RawSwitchPressed st) = MATRIX_ROWS;
  wf_raw_cols : forall r row, RawSwitchPressed st !! r = Some row ->
                              length row = MATRIX_COLUMNS;
  wf_total_row : length (TotalInRow st) = MATRIX_ROWS;
  wf_total_col : length (TotalInColumn st) = MATRIX_COLUMNS;
  wf_row_ghost : length (RowHasGhost st) = MATRIX_ROWS;
  wf_col_ghost : length (ColumnHasGhost st) = MATRIX_COLUMNS;
  wf_key : length (KeyPressed st) = 256%nat;
  wf_current : (CurrentRow st < MATRIX_ROWS)%nat
}.

(** Number of set (non-zero) entries of an array. *)
Fixpoint popcount (l : list Z) : Z :=
  match l with
  | [] => 0
  | x :: l' => (if truthy x then 1 else 0) + popcount l'
  end.

(** 1 for a set entry, 0 for a clear one. *)
Definition bit_of (x : Z) : Z := if truthy x then 1 else 0.

(** Column [c] of a two-dimensional array: [a[*][c]]. *)
Definition column (a : list (list Z)) (c : nat) : list Z :=
  (fun row => row !!! c) <$> a.

Definition counts_exact (st : matrix_state) : Prop :=
  (forall r, (r < MATRIX_ROWS)%nat ->
             TotalInRow st !!! r = popcount (RawSwitchPressed st !!! r))
  /\ (forall c, (c < MATRIX_COLUMNS)%nat ->
                TotalInColumn st !!! c = popcount (column (RawSwitchPressed st) c)).

(** A press at [(r, c)] is suppressed when its row or its column is flagged
    (the negation of the test that guards the write of [KeyPressed]). *)
Definition ghosted (st : matrix_state) (r c : nat) : Prop :=
  RowHasGhost st !!! r <> 0 \/ ColumnHasGhost st !!! c <> 0.

(** A flag of a ghost table is set. *)
Definition flag_set (l : list Z) (i : nat) : Prop := l !!! i <> 0.

(** The pair of ghost tables has the dimensions of the declarations. *)
Definition flags_sized (g : list Z * list Z) : Prop :=
  length (fst g) = MATRIX_ROWS /\ length (snd g) = MATRIX_COLUMNS.

(** Rows [r1], [r2] and columns [c1], [c2] are all flagged. *)
Definition all_flagged (r1 r2 c1 c2 : nat) (g : list Z * list Z) : Prop :=
  flag_set (fst g) r1 /\ flag_set (fst g) r2
  /\ flag_set (snd g) c1 /\ flag_set (snd g) c2.

(** A raw matrix in which exactly the cells of [ps] are pressed. *)
Definition pressed_exactly (raw : list (list Z)) (ps : list (nat * nat)) : Prop :=
  forall r c, (r < MATRIX_ROWS)%nat -> (c < MATRIX_COLUMNS)%nat ->
              (cell raw r c <> 0 <-> In (r, c) ps).

(** Two raw states with three presses in an L: [(0, 0)], [(0, 2)], [(1, 2)],
    outside the ghost-free columns, and [(0, 9)], [(0, 12)], [(1, 12)],
    inside them; each is what one call of the scanner leaves after reset
    when those switches read closed. *)
Definition three_presses (c1 c2 : nat) : matrix_state :=
  KeyboardScanMatrix 0
    (fun i c => if ((i =? 0) && ((c =? c1) || (c =? c2)) || (i =? 1) && (c =? c2))%nat
                then 0 else 1)
    matrix_reset.

(** ** ADBMouse.c *)

Definition ADB_TIMEOUT : Z := 255.
Definition ADB_THRESHOLD : Z := 50.
Definition ACCUMULATED_MIN : Z := -127.
Definition ACCUMULATED_MAX : Z := 127.

(** The exported variables of the poller. *)
Record mouse_state : Type := MouseState {
  AccumulatedX : Z;    (* int16_t *)
  AccumulatedY : Z;    (* int16_t *)
  Button1State : Z;    (* uint8_t *)
  Button2State : Z     (* uint8_t *)
}.

Definition mouse_reset : mouse_state :=
  {| AccumulatedX := 0; AccumulatedY := 0; Button1State := 0; Button2State := 0 |}.

(** *** ADBRead16

    The line is observed through [ADBWait], whose successive return values
    are the input: [wait k] is what the [k]-th call made by one [ADBRead16]
    returns (a duration in microseconds, or [ADB_TIMEOUT]). *)

(** The measuring loop, for [n] more bits, the next call of [ADBWait] being
    the [k]-th.  [None] is the early [return 0]. *)
Fixpoint measure_low (wait : nat -> Z) (k n : nat) : option (list Z) :=
  match n with
  | O => Some []
  | S n' =>
      if wait k =? ADB_TIMEOUT then None
      else
        let d := wait (S k) in
        if d =? ADB_TIMEOUT then None
        else match measure_low wait (S (S k)) n' with
             | None => None
             | Some ds => Some (d :: ds)
             end
  end.

(** The decoding loop: sixteen bits, most significant first, the start bit
    skipped. *)
Definition decode_durations (LowDuration : list Z) : Z :=
  foldl (fun RegisterValue i =>
           let RegisterValue := u16 (Z.shiftl RegisterValue 1) in
           if LowDuration !!! (i + 1)%nat <? ADB_THRESHOLD
           then Z.lor RegisterValue 0x01
           else RegisterValue)
        0 (seq 0 16).

(** [Some v]: returns 1 with [*OutRegisterValue = v]; [None]: returns 0 and
    leaves [*OutRegisterValue] alone. *)
Definition ADBRead16 (wait : nat -> Z) : option Z :=
  match measure_low wait 0 18 with
  | None => None
  | Some LowDuration => Some (decode_durations LowDuration)
  end.

(** *** ADBPollMouse *)

(** What a 7-bit field contributes to an accumulator: the summand of
    line 247 for a field below [0x40], that of line 254 otherwise. *)
Definition adb_delta (F : Z) : Z :=
  if F <? 0x40 then F else s16 F - s16 0x80.

(** Lines 244-257: add the field to the accumulator and clip on the side
    the sign of the field can reach. *)
Definition accumulate (Accumulated F : Z) : Z :=
  if F <? 0x40
  then (* Positive. *)
       let a := s16 (Accumulated + F) in
       if a >? ACCUMULATED_MAX then ACCUMULATED_MAX else a
  else (* Negative. *)
       let a := s16 (Accumulated + (s16 F - s16 0x80)) in
       if a <? ACCUMULATED_MIN then ACCUMULATED_MIN else a.

(** The body of [if (valid)]. *)
Definition parse_register (RegisterValue : Z) (st : mouse_state) : mouse_state :=
  let X := u8 (Z.land RegisterValue 0x007f) in
  let Y := u8 (Z.shiftr (Z.land RegisterValue 0x7f00) 8) in
  {| AccumulatedX := accumulate (AccumulatedX st) X;
     AccumulatedY := accumulate (AccumulatedY st) Y;
     Button1State := if Z.land RegisterValue 0x8000 =? 0 then 1 else 0;
     Button2State := if Z.land RegisterValue 0x0080 =? 0 then 1 else 0 |}.

(** Returns [valid] and the new state. *)
Definition ADBPollMouse (wait : nat -> Z) (st : mouse_state) : Z * mouse_state :=
  match ADBRead16 wait with
  | None => (0, st)
  | Some RegisterValue => (1, parse_register RegisterValue st)
  end.

(** *** The mouse's side of the line *)

(** The encoder of the round-trip law: the 7-bit field for a delta. *)
Definition adb_encode (d : Z) : Z := Z.land d 0x7F.

(** An ADB line on which the mouse answers with the register value [reg]:
    the line goes low 10 microseconds into each wait and stays low for 35
    microseconds for a 1 bit and 65 for a 0 bit; the start bit is a 1 and
    the stop bit a 0. *)
Definition line_sending (reg : Z) : nat -> Z :=
  fun k =>
    if Nat.even k then 10
    else let i := Nat.div2 k in
         if (i =? 0)%nat then 35
         else if (i =? 17)%nat then 65
         else if Z.testbit reg (Z.of_nat (16 - i)) then 35 else 65.

(** The integers [start, start + n). *)
Fixpoint zrange (start : Z) (n : nat) : list Z :=
  match n with
  | O => []
  | S n' => start :: zrange (start + 1) n'
  end.

(** ** KeyboardMouse.c *)

Definition MAX_KEYS_PRESSED : Z := 6.

(** Modelled from the spec: the report structures are LUFA's; the layout is
    the boot report's (modifier byte, reserved byte, six key codes; button
    byte, signed X, signed Y). *)
Record USB_KeyboardReport_Data_t : Type := KeyboardReport {
  Modifier : Z;        (* uint8_t *)
  Reserved : Z;        (* uint8_t *)
  KeyCode : list Z     (* uint8_t [6] *)
}.

Record USB_MouseReport_Data_t : Type := MouseReport {
  Button : Z;          (* uint8_t *)
  X : Z;               (* int8_t *)
  Y : Z                (* int8_t *)
}.

Definition keyboard_report_zero : USB_KeyboardReport_Data_t :=
  {| Modifier := 0; Reserved := 0; KeyCode := replicate 6 0 |}.

Definition mouse_report_zero : USB_MouseReport_Data_t :=
  {| Button := 0; X := 0; Y := 0 |}.

(** The [if ... else if] chain over the eight modifier codes: the mask to
    or into the modifier byte, or [None] for the final [else]. *)
Definition modifier_mask (ScanCode : Z) : option Z :=
  if ScanCode =? HID_KEYBOARD_SC_LEFT_CONTROL then Some HID_KEYBOARD_MODIFIER_LEFTCTRL
  else if ScanCode =? HID_KEYBOARD_SC_LEFT_SHIFT then Some HID_KEYBOARD_MODIFIER_LEFTSHIFT
  else if ScanCode =? HID_KEYBOARD_SC_LEFT_ALT then Some HID_KEYBOARD_MODIFIER_LEFTALT
  else if ScanCode =? HID_KEYBOARD_SC_LEFT_GUI then Some HID_KEYBOARD_MODIFIER_LEFTGUI
  else if ScanCode =? HID_KEYBOARD_SC_RIGHT_CONTROL then Some HID_KEYBOARD_MODIFIER_RIGHTCTRL
  else if ScanCode =? HID_KEYBOARD_SC_RIGHT_SHIFT then Some HID_KEYBOARD_MODIFIER_RIGHTSHIFT
  else if ScanCode =? HID_KEYBOARD_SC_RIGHT_ALT then Some HID_KEYBOARD_MODIFIER_RIGHTALT
  else if ScanCode =? HID_KEYBOARD_SC_RIGHT_GUI then Some HID_KEYBOARD_MODIFIER_RIGHTGUI
  else None.

(** Lines 283-286. *)
Definition fill_rollover (kc : list Z) : list Z :=
  foldl (fun kc i => <[i := HID_KEYBOARD_SC_ERROR_ROLLOVER]> kc) kc (seq 0 6).

Inductive loop_exit : Type := Continue | Break.

(** The state of the report loop: the report and [UsedKeyCodes]. *)
Definition report_acc : Type := USB_KeyboardReport_Data_t * Z.

(** Body of the loop over scan codes (lines 250-290). *)
Definition report_step (kp : list Z) (ScanCode : Z) (a : report_acc)
    : report_acc * loop_exit :=
  let '(rep, UsedKeyCodes) := a in
  if truthy (kp !!! Z.to_nat ScanCode)
  then match modifier_mask ScanCode with
       | Some m =>
           ({| Modifier := u8 (Z.lor (Modifier rep) m);
               Reserved := Reserved rep; KeyCode := KeyCode rep |}, UsedKeyCodes, Continue)
       | None =>
           if UsedKeyCodes <? MAX_KEYS_PRESSED
           then ({| Modifier := Modifier rep; Reserved := Reserved rep;
                    KeyCode := <[Z.to_nat UsedKeyCodes := u8 ScanCode]> (KeyCode rep) |},
                 u8 (UsedKeyCodes + 1), Continue)
           else ({| Modifier := Modifier rep; Reserved := Reserved rep;
                    KeyCode := fill_rollover (KeyCode rep) |}, UsedKeyCodes, Break)
       end
  else (a, Continue).

(** The loop over the scan codes [codes], left early on [Break]. *)
Fixpoint report_loop (kp : list Z) (codes : list Z) (a : report_acc) : report_acc :=
  match codes with
  | [] => a
  | ScanCode :: rest =>
      match report_step kp ScanCode a with
      | (a', Break) => a'
      | (a', Continue) => report_loop kp rest a'
      end
  end.

(** [ScanCode = 1 .. 255]. *)
Definition scan_codes : list Z := map Z.of_nat (seq 1 255).

(** Lines 247-291: the report built from [KeyPressed]. *)
Definition build_keyboard_report (kp : list Z) : USB_KeyboardReport_Data_t :=
  fst (report_loop kp scan_codes (keyboard_report_zero, 0)).

(** A scan code the report loop sends to the modifier byte. *)
Definition is_modifier (ScanCode : Z) : bool :=
  match modifier_mask ScanCode with Some _ => true | None => false end.

(** Number of scan codes among [codes] that are set in [kp] and are not
    modifiers. *)
Fixpoint count_keys (kp : list Z) (codes : list Z) : Z :=
  match codes with
  | [] => 0
  | ScanCode :: rest =>
      (if truthy (kp !!! Z.to_nat ScanCode) && negb (is_modifier ScanCode)
       then 1 else 0) + count_keys kp rest
  end.

(** The variables of the whole firmware. *)
Record firmware_state : Type := Firmware {
  matrix : matrix_state;
  mouse : mouse_state;
  KeyboardReportData : USB_KeyboardReport_Data_t;
  MouseReportData : USB_MouseReport_Data_t;
  KeyboardSuppressPolling : Z
}.

Definition firmware_reset : firmware_state :=
  {| matrix := matrix_reset; mouse := mouse_reset;
     KeyboardReportData := keyboard_report_zero;
     MouseReportData := mouse_report_zero;
     KeyboardSuppressPolling := 0 |}.

(** [Keyboard_HID_Task].  [configured] tells whether
    [USB_DeviceState == DEVICE_STATE_Configured]; [ScanCode0] and [pins] are
    the inputs of [KeyboardScanMatrix]; [in_ready] is what
    [Endpoint_IsReadWriteAllowed] answers for the keyboard IN endpoint.
    Returns the new state and the report written to the endpoint, if any.
    The LED byte read from the OUT endpoint is discarded by the source and
    has no counterpart here. *)
Definition Keyboard_HID_Task (configured : bool) (ScanCode0 : Z) (pins : nat -> nat -> Z)
    (in_ready : bool) (fs : firmware_state)
    : firmware_state * option USB_KeyboardReport_Data_t :=
  if negb configured then (fs, None)
  else
    let fs1 :=
      if KeyboardSuppressPolling fs =? 0
      then let m := KeyboardScanMatrix ScanCode0 pins (matrix fs) in
           {| matrix := m; mouse := mouse fs;
              KeyboardReportData := build_keyboard_report (KeyPressed m);
              MouseReportData := MouseReportData fs;
              KeyboardSuppressPolling := 1 |}
      else fs in
    if in_ready
    then ({| matrix := matrix fs1; mouse := mouse fs1;
             KeyboardReportData := KeyboardReportData fs1;
             MouseReportData := MouseReportData fs1;
             KeyboardSuppressPolling := 0 |},
          Some (KeyboardReportData fs1))
    else (fs1, None).

(** Lines 353-354. *)
Definition reset_accumulators (st : mouse_state) : mouse_state :=
  {| AccumulatedX := 0; AccumulatedY := 0;
     Button1State := Button1State st; Button2State := Button2State st |}.

(** Lines 347-350. *)
Definition build_mouse_report (st : mouse_state) : USB_MouseReport_Data_t :=
  {| Button := u8 (Z.lor (Button1State st) (Z.shiftl (Button2State st) 1));
     X := s8 (AccumulatedX st);
     Y := s8 (AccumulatedY st) |}.

(** [Mouse_HID_Task].  [wait] is the input of [ADBPollMouse], [in_ready]
    the answer of [Endpoint_IsReadWriteAllowed] for the mouse IN endpoint.
    Returns the new state and the report written to the endpoint, if any. *)
Definition Mouse_HID_Task (configured : bool) (wait : nat -> Z) (in_ready : bool)
    (fs : firmware_state) : firmware_state * option USB_MouseReport_Data_t :=
  if negb configured then (fs, None)
  else
    let ms := snd (ADBPollMouse wait (mouse fs)) in
    if in_ready
    then let rep := build_mouse_report ms in
         ({| matrix := matrix fs; mouse := reset_accumulators ms;
             KeyboardReportData := KeyboardReportData fs;
             MouseReportData := rep;
             KeyboardSuppressPolling := KeyboardSuppressPolling fs |},
          Some rep)
    else ({| matrix := matrix fs; mouse := ms;
             KeyboardReportData := KeyboardReportData fs;
             MouseReportData := MouseReportData fs;
             KeyboardSuppressPolling := KeyboardSuppressPolling fs |},
          None).

(** *** Histories of the mouse accumulators *)

(** What can happen to the accumulators: a poll, with the line behaving in
    any way, or the reset done when a report is emitted. *)
Inductive mouse_event : Type :=
| Poll (wait : nat -> Z)
| ResetAccumulators.

Definition mouse_step (st : mouse_state) (e : mouse_event) : mouse_state :=
  match e with
  | Poll wait => snd (ADBPollMouse wait st)
  | ResetAccumulators => reset_accumulators st
  end.

Definition mouse_run (es : list mouse_event) (st : mouse_state) : mouse_state :=
  foldl mouse_step st es.

Definition accumulators_in_range (st : mouse_state) : Prop :=
  ACCUMULATED_MIN <= AccumulatedX st <= ACCUMULATED_MAX
  /\ ACCUMULATED_MIN <= AccumulatedY st <= ACCUMULATED_MAX.

(** *** A keyboard held in one position

    The switch matrix as the scanner meets it when keys are held down:
    [sw r c] tells whether driving row [r] low pulls column [c] low. *)

Definition level (sw : nat -> nat -> bool) (r c : nat) : Z :=
  if sw r c then 0 else 1.

(** The pin levels one call of [KeyboardScanMatrix] reads, which starts at
    [CurrentRow] and moves on to the next row. *)
Definition pins_of (sw : nat -> nat -> bool) (st : matrix_state) : nat -> nat -> Z :=
  fun i c => level sw ((CurrentRow st + i) mod MATRIX_ROWS)%nat c.

(** [Keyboard_HID_Task] with the device configured, the keys held and the
    IN endpoint ready. *)
Definition task_holding (sw : nat -> nat -> bool) (ScanCode0 : Z) (fs : firmware_state)
    : firmware_state * option USB_KeyboardReport_Data_t :=
  Keyboard_HID_Task true ScanCode0 (pins_of sw (matrix fs)) true fs.

(** [n] invocations in a row; [junk k] is the indeterminate [ScanCode] of
    invocation [k], counted from 0.  The result is the state after the last
    one and the report it wrote. *)
Fixpoint tasks_holding (sw : nat -> nat -> bool) (junk : nat -> Z) (n : nat)
    (fs : firmware_state) : firmware_state * option USB_KeyboardReport_Data_t :=
  match n with
  | O => (fs, None)
  | S n' => task_holding sw (junk n') (fst (tasks_holding sw junk n' fs))
  end.

(** Four invocations, [MATRIX_ROWS / ROWS_PER_REPORT], sweep the whole
    matrix. *)
Definition sweep (sw : nat -> nat -> bool) (junk : nat -> Z) (fs : firmware_state)
    : firmware_state * option USB_KeyboardReport_Data_t :=
  tasks_holding sw junk 4 fs.

(** The switches closed when Left Shift and the keys at the cells [keys] are
    held.  Left Shift sits in column 12 of every row of [KeyboardMatrix];
    [shift r] tells in which rows it pulls the column low (all of them for
    the key as it is wired, according to the comment on
    [IS_GHOST_FREE_COLUMN]). *)
Definition closed (shift : nat -> bool) (keys : list (nat * nat)) (r c : nat) : bool :=
  ((c =? 12)%nat && shift r)
  || existsb (fun k => (fst k =? r)%nat && (snd k =? c)%nat) keys.

Definition is_letter (ScanCode : Z) : bool :=
  (HID_KEYBOARD_SC_A <=? ScanCode) && (ScanCode <=? HID_KEYBOARD_SC_Z).

(** A cell of the matrix that carries a letter key. *)
Definition letter_cell (k : nat * nat) : Prop :=
  (fst k < MATRIX_ROWS)%nat /\ (snd k < MATRIX_COLUMNS)%nat
  /\ is_letter (cell KeyboardMatrix (fst k) (snd k)) = true.

(** The scan code at [(r, c)] occurs nowhere else in [KeyboardMatrix]. *)
Definition unique_code (r c : nat) : Prop :=
  forall r' c', (r' < MATRIX_ROWS)%nat -> (c' < MATRIX_COLUMNS)%nat ->
                cell KeyboardMatrix r' c' = cell KeyboardMatrix r c -> r' = r /\ c' = c.

(** What the scenario expects of the report: the Left Shift bit set and
    every key code slot equal to the rollover code. *)
Definition shift_and_rollover (rep : USB_KeyboardReport_Data_t) : Prop :=
  Z.land (Modifier rep) HID_KEYBOARD_MODIFIER_LEFTSHIFT <> 0
  /\ KeyCode rep = replicate 6 HID_KEYBOARD_SC_ERROR_ROLLOVER.

(** While the keys [sw] are held: the raw state shows no press that is not
    held, the counts are exact and no ghost flag is set. *)
Record sweep_inv (sw : nat -> nat -> bool) (st : matrix_state) : Prop := SweepInv {
  si_wf : matrix_wf st;
  si_counts : counts_exact st;
  si_raw : forall r c, (r < MATRIX_ROWS)%nat -> (c < MATRIX_COLUMNS)%nat ->
                       cell (RawSwitchPressed st) r c <> 0 -> sw r c = true;
  si_rows : RowHasGhost st = replicate MATRIX_ROWS 0;
  si_cols : ColumnHasGhost st = replicate MATRIX_COLUMNS 0
}.

(** Every held key among the cells [D] whose scan code is its own is
    registered in [kp]. *)
Definition registered (sw : nat -> nat -> bool) (D : nat -> nat -> Prop) (kp : list Z)
    : Prop :=
  forall r c, D r c -> (r < MATRIX_ROWS)%nat -> (c < MATRIX_COLUMNS)%nat ->
              sw r c = true -> unique_code r c ->
              kp !!! Z.to_nat (cell KeyboardMatrix r c) = 1.

(** The state of the firmware after [k] invocations from reset with the keys
    [sw] held: scanning goes on, the scanner state is as [sweep_inv] says,
    and the rows scanned so far, all of them from the fourth invocation on,
    are registered. *)
Definition tasks_inv (sw : nat -> nat -> bool) (k : nat) (fs : firmware_state) : Prop :=
  KeyboardSuppressPolling fs = 0
  /\ sweep_inv sw (matrix fs)
  /\ (((k < 4)%nat /\ CurrentRow (matrix fs) = (2 * k)%nat
       /\ registered sw (fun r _ => (r < 2 * k)%nat) (KeyPressed (matrix fs)))
      \/ ((4 <= k)%nat
          /\ (exists j, (j < 4)%nat /\ CurrentRow (matrix fs) = (2 * j)%nat)
          /\ registered sw (fun _ _ => True) (KeyPressed (matrix fs)))).

(** Two ways of holding Left Shift and seven letter keys in distinct rows:
    D, O, A, I, Y, T, Z, where Y and T share column 2, and U, O, A, I, G, T,
    Z, which lie in seven different columns. *)
Definition ghosting_letters : list (nat * nat) :=
  [(1, 5); (2, 1); (3, 8); (4, 11); (5, 2); (6, 2); (7, 7)]%nat.

Definition spread_letters : list (nat * nat) :=
  [(1, 0); (2, 1); (3, 8); (4, 11); (5, 3); (6, 2); (7, 7)]%nat.

(** ** Util.c *)

(** The I/O registers the firmware touches: direction, output and input
    registers of the ports A to F (index 0 to 5), and [MCUCR]. *)
Record gpio : Type := Gpio {
  DDR : list Z;      (* DDRA .. DDRF *)
  PORT : list Z;     (* PORTA .. PORTF *)
  PIN : list Z;      (* PINA .. PINF *)
  MCUCR : Z
}.

Definition set_DDR (d : list Z) (g : gpio) : gpio :=
  {| DDR := d; PORT := PORT g; PIN := PIN g; MCUCR := MCUCR g |}.

Definition set_PORT (p : list Z) (g : gpio) : gpio :=
  {| DDR := DDR g; PORT := p; PIN := PIN g; MCUCR := MCUCR g |}.

Definition set_MCUCR (m : Z) (g : gpio) : gpio :=
  {| DDR := DDR g; PORT := PORT g; PIN := PIN g; MCUCR := m |}.

(** [uint8_t Mask = 1 << Num]. *)
Definition pin_mask (Num : nat) : Z := u8 (Z.shiftl 1 (Z.of_nat Num)).

(** [switch (Port)] has the cases 0 to 5 and no default: any other port is
    left alone. *)
Definition SetPortPinDirection (Port Num : nat) (IsOutput : Z) (g : gpio) : gpio :=
  let Mask := pin_mask Num in
  if (Port <? 6)%nat
  then if truthy IsOutput
       then set_DDR (<[Port := u8 (Z.lor (DDR g !!! Port) Mask)]> (DDR g)) g
       else let g1 :=
              set_DDR (<[Port := u8 (Z.land (DDR g !!! Port) (Z.lnot Mask))]> (DDR g)) g in
            set_PORT (<[Port := u8 (Z.lor (PORT g1 !!! Port) Mask)]> (PORT g1)) g1
  else g.

Definition WritePortPin (Port Num : nat) (Val : Z) (g : gpio) : gpio :=
  let Mask := pin_mask Num in
  if (Port <? 6)%nat
  then if truthy Val
       then set_PORT (<[Port := u8 (Z.lor (PORT g !!! Port) Mask)]> (PORT g)) g
       else set_PORT (<[Port := u8 (Z.land (PORT g !!! Port) (Z.lnot Mask))]> (PORT g)) g
  else g.


(** Six registers of each kind, each a byte. *)
Definition bytes (n : nat) (l : list Z) : Prop :=
  length l = n /\ forall i, (i < n)%nat -> 0 <= l !!! i < 256.

Record gpio_wf (g : gpio) : Prop := GpioWf {
  wf_DDR : bytes 6 (DDR g);
  wf_PORT : bytes 6 (PORT g);
  wf_PIN : bytes 6 (PIN g)
}.

(** Bit [i] of register [p] of a bank. *)
Definition reg_bit (regs : list Z) (p i : nat) : bool :=
  Z.testbit (regs !!! p) (Z.of_nat i).

(** A pin is an input with its pull-up on; an output driven low or high. *)
Definition pin_pulled_up (g : gpio) (p i : nat) : Prop :=
  reg_bit (DDR g) p i = false /\ reg_bit (PORT g) p i = true.

Definition pin_driven (g : gpio) (p i : nat) (high : bool) : Prop :=
  reg_bit (DDR g) p i = true /\ reg_bit (PORT g) p i = high.

(** *** The pins of the matrix (KeyboardSwitchMatrix.c) *)

(** [struct GPIOPin]: port and pin number. *)
Definition RowPins : list (nat * nat) :=
  [(2, 0); (2, 1); (2, 2); (2, 3); (2, 4); (2, 5); (2, 6); (2, 7)]%nat.

Definition ColumnPins : list (nat * nat) :=
  [(1, 5); (1, 4); (1, 3); (1, 2); (1, 1); (1, 0); (4, 7); (4, 6);
   (5, 0); (5, 1); (5, 2); (5, 3); (5, 4); (5, 5); (5, 6); (5, 7)]%nat.

(** A run of [SetPortPinDirection (..., 0)] over the pins [pins]. *)
Definition set_inputs (pins : list (nat * nat)) (g : gpio) : gpio :=
  foldl (fun g p => SetPortPinDirection (fst p) (snd p) 0 g) g pins.

Definition KeyboardInit (g : gpio) : gpio :=
  let g1 := foldl (fun g i => SetPortPinDirection (fst (RowPins !!! i)) (snd (RowPins !!! i)) 0 g)
                  g (seq 0 MATRIX_ROWS) in
  let g2 := set_MCUCR (u8 (Z.land (MCUCR g1) (Z.lnot 0x10))) g1 in
  foldl (fun g i => SetPortPinDirection (fst (ColumnPins !!! i)) (snd (ColumnPins !!! i)) 0 g)
        g2 (seq 0 MATRIX_COLUMNS).

(** Lines 255-256 of [KeyboardScanMatrix]: the row is driven low. *)
Definition row_activate (r : nat) (g : gpio) : gpio :=
  WritePortPin (fst (RowPins !!! r)) (snd (RowPins !!! r)) 0
    (SetPortPinDirection (fst (RowPins !!! r)) (snd (RowPins !!! r)) 1 g).

(** Lines 303-305: the row is driven high, then left to its pull-up. *)
Definition row_deactivate (r : nat) (g : gpio) : gpio :=
  SetPortPinDirection (fst (RowPins !!! r)) (snd (RowPins !!! r)) 0
    (WritePortPin (fst (RowPins !!! r)) (snd (RowPins !!! r)) 1 g).

(** What one call of [KeyboardScanMatrix] does to the registers: for each
    of the [ROWS_PER_REPORT] rows, starting at [CurrentRow], activation and
    deactivation (the column pins are read in between). *)
Definition KeyboardScanMatrix_gpio (st : matrix_state) (g : gpio) : gpio :=
  snd (foldl (fun s (_ : nat) =>
                (next_row (fst s),
                 row_deactivate (CurrentRow (fst s))
                   (row_activate (CurrentRow (fst s)) (snd s))))
             (st, g) (seq 0 ROWS_PER_REPORT)).

(** Registers all zero, as after a reset of the microcontroller. *)
Definition gpio_reset : gpio :=
  {| DDR := replicate 6 0; PORT := replicate 6 0; PIN := replicate 6 0; MCUCR := 0 |}.

(** A pin of the ports A..F. *)
Definition valid_pin (p : nat * nat) : Prop := (fst p < 6)%nat /\ (snd p < 8)%nat.

(** ** Waiting on the hardware *)

(** *** DelayMicroseconds

    Timer 1 runs freely at 2 MHz; [tcnt k] is what [TCNT1] holds the [k]-th
    time a function reads it, counted from 0 within one call.  The loops
    below wait on the hardware, so they take [fuel], a bound on the number
    of iterations; [None] means the bound was reached.  [uint16_t]
    arithmetic is unsigned 16-bit arithmetic ([int] has 16 bits on the
    AVR). *)

(** The [do ... while] loop; [k] is the index of the next read of [TCNT1].
    Returns the index of the read that ended the loop. *)
Fixpoint delay_loop (tcnt : nat -> Z) (StartTime DesiredCount : Z) (k fuel : nat)
    : option nat :=
  match fuel with
  | O => None
  | S fuel' =>
      let CurrentTime := u16 (tcnt k) in
      if u16 (CurrentTime - StartTime) <? DesiredCount
      then delay_loop tcnt StartTime DesiredCount (S k) fuel'
      else Some k
  end.

Definition DelayMicroseconds (MicroSeconds : Z) (tcnt : nat -> Z) (fuel : nat)
    : option nat :=
  let DesiredCount := u16 (MicroSeconds * 2) in
  let StartTime := u16 (tcnt 0%nat) in
  delay_loop tcnt StartTime DesiredCount 1 fuel.

(** Timer ticks between the first read of [TCNT1] and the [k]-th, as the
    code computes them. *)
Definition elapsed_ticks (tcnt : nat -> Z) (k : nat) : Z :=
  u16 (u16 (tcnt k) - u16 (tcnt 0%nat)).

(** A timer read at regular intervals: [d] ticks pass between two reads. *)
Definition steady_timer (start d : Z) : nat -> Z :=
  fun k => start + Z.of_nat k * d.

(** *** ADBWait (ADBMouse.c)

    [pind k] is what [PIND] holds at the [k]-th evaluation of
    [READ_ADB_PIN], [tcnt k] what [TCNT1] holds at its [k]-th read. *)

Definition READ_ADB_PIN (pind : Z) : Z := Z.land (Z.shiftr pind 1) 1.

(** The [while] loop; [k] is the index of the next evaluation of
    [READ_ADB_PIN], and the next read of [TCNT1] has index [k + 1]. *)
Fixpoint wait_loop (pind tcnt : nat -> Z) (DesiredLineState StartTime Microseconds : Z)
    (k fuel : nat) : option Z :=
  match fuel with
  | O => None
  | S fuel' =>
      if negb (READ_ADB_PIN (pind k) =? DesiredLineState)
      then let Microseconds := u16 (u16 (tcnt (S k)) - StartTime) / 2 in
           if Microseconds >=? ADB_TIMEOUT then Some ADB_TIMEOUT
           else wait_loop pind tcnt DesiredLineState StartTime Microseconds (S k) fuel'
      else Some Microseconds
  end.

Definition ADBWait (DesiredLineState : Z) (pind tcnt : nat -> Z) (fuel : nat) : option Z :=
  wait_loop pind tcnt DesiredLineState (u16 (tcnt 0%nat)) 0 0 fuel.

(** Microseconds between the first read of [TCNT1] and the [k]-th. *)
Definition elapsed_us (tcnt : nat -> Z) (k : nat) : Z := elapsed_ticks tcnt k / 2.

(** ** ADBMouse.c: the line and the poller *)

(** *** The line as the firmware drives it

    What the writing functions of ADBMouse.c do to the ADB data line is the
    sequence of their calls of [WritePortPin] and [SetPortPinDirection], all
    on the ADB pin, and of the delay functions. *)

Definition ADB_PORT : nat := 3.
Definition ADB_PIN : nat := 1.

Inductive line_op : Type :=
| Write (Val : Z)             (* WritePortPin(ADB_PORT, ADB_PIN, Val) *)
| Direction (IsOutput : Z)    (* SetPortPinDirection(ADB_PORT, ADB_PIN, IsOutput) *)
| Delay (MicroSeconds : Z).   (* DelayMicroseconds, or _delay_ms in microseconds *)

Definition ADBWriteZeroBit : list line_op := [Write 0; Delay 65; Write 1; Delay 35].

Definition ADBWriteOneBit : list line_op := [Write 0; Delay 35; Write 1; Delay 65].

(** The loop over the eight bits threads [Command], shifted left in
    [uint8_t], and the calls made so far. *)
Definition ADBWriteCommand (Command : Z) : list line_op :=
  let bits :=
    foldl (fun (s : Z * list line_op) (_ : nat) =>
             let '(Command, ops) := s in
             (u8 (Z.shiftl Command 1),
              ops ++ (if negb (Z.land Command 0x80 =? 0)
                      then ADBWriteOneBit else ADBWriteZeroBit)))
          (u8 Command, []) (seq 0 8) in
  [Write 0; Delay 800; Write 1; Delay 70] ++ snd bits ++ ADBWriteZeroBit.

(** What [ADBRead16] does to the pin: an input while it measures, an output
    again on each of its three ways out (lines 157, 166 and 171). *)
Definition ADBRead16_line (wait : nat -> Z) : list line_op :=
  [Direction 0; Delay 100]
  ++ match measure_low wait 0 18 with
     | None => [Direction 1]
     | Some _ => [Direction 1]
     end.

Definition ADBMouseInit : list line_op :=
  [Direction 1; Write 1; Delay 10000; Write 0; Delay 4000; Write 1].

(** [ADBPollMouse]: the command 0x3c, then the read. *)
Definition ADBPollMouse_line (wait : nat -> Z) : list line_op :=
  ADBWriteCommand 0x3c ++ ADBRead16_line wait.

Definition run_op (g : gpio) (o : line_op) : gpio :=
  match o with
  | Write Val => WritePortPin ADB_PORT ADB_PIN Val g
  | Direction IsOutput => SetPortPinDirection ADB_PORT ADB_PIN IsOutput g
  | Delay _ => g
  end.

Definition run_ops (ops : list line_op) (g : gpio) : gpio := foldl run_op g ops.

(** The bit cell written for a bit. *)
Definition bit_cell (b : bool) : list line_op :=
  if b then ADBWriteOneBit else ADBWriteZeroBit.

(** Total of the delays of a sequence of calls, in microseconds. *)
Definition duration (ops : list line_op) : Z :=
  foldr (fun o t => match o with Delay us => us + t | _ => t end) 0 ops.

(** The time the line is held low by each [Write 0], up to the next write. *)
Fixpoint low_times (ops : list line_op) : list Z :=
  match ops with
  | Write Val :: Delay us :: rest =>
      if Val =? 0 then us :: low_times rest else low_times rest
  | _ :: rest => low_times rest
  | [] => []
  end.

(** The clip of lines 244-257 seen as a function of the sum. *)
Definition clamp (x : Z) : Z := Z.max ACCUMULATED_MIN (Z.min ACCUMULATED_MAX x).

(** The mouse part of the main loop: one [Mouse_HID_Task] per entry, with
    what the line does and whether the endpoint is ready. *)
Definition mouse_tasks (es : list ((nat -> Z) * bool)) (fs : firmware_state)
    : firmware_state :=
  foldl (fun fs e => fst (Mouse_HID_Task true (fst e) (snd e) fs)) fs es.

(** ** KeyboardSwitchMatrix.c: what a scan keeps *)

(** *** More predicates on the scanner state *)

(** What the scanner stores for a column pin: 1 when it reads low. *)
Definition pin_bit (pin : Z) : Z := if pin =? 0 then 1 else 0.

(** Every raw cell holds 0 or 1. *)
Definition raw_binary (st : matrix_state) : Prop :=
  forall r c, (r < MATRIX_ROWS)%nat -> (c < MATRIX_COLUMNS)%nat ->
              cell (RawSwitchPressed st) r c = 0 \/ cell (RawSwitchPressed st) r c = 1.

(** The ghost tables are what [CheckForGhosts] would make them. *)
Definition ghosts_current (st : matrix_state) : Prop := CheckForGhosts st = st.

(** A corner, in the sense of line 209, outside the ghost-free columns. *)
Definition corner_at (raw : list (list Z)) (tr tc : list Z) (Row Column : nat) : Prop :=
  (Row < MATRIX_ROWS)%nat /\ (Column < MATRIX_COLUMNS)%nat
  /\ IS_GHOST_FREE_COLUMN Column = false
  /\ is_corner raw tr tc Row Column = true.

(** Why [CheckForGhosts] flags a row: it has a press in the column of a
    corner.  And a column: it is not ghost-free and has a press in the row
    of a corner. *)
Definition row_cause (raw : list (list Z)) (tr tc : list Z) (i : nat) : Prop :=
  exists Row Column, corner_at raw tr tc Row Column /\ cell raw i Column <> 0.

Definition column_cause (raw : list (list Z)) (tr tc : list Z) (j : nat) : Prop :=
  IS_GHOST_FREE_COLUMN j = false
  /\ exists Row Column, corner_at raw tr tc Row Column /\ cell raw Row j <> 0.

(** Every flag of a pair of ghost tables has its cause. *)
Definition flags_caused (raw : list (list Z)) (tr tc : list Z) (g : list Z * list Z)
    : Prop :=
  (forall i, (i < MATRIX_ROWS)%nat -> flag_set (fst g) i -> row_cause raw tr tc i)
  /\ (forall j, (j < MATRIX_COLUMNS)%nat -> flag_set (snd g) j -> column_cause raw tr tc j).

(** A scan code is marked in [kp] only if a closed switch carries it. *)
Definition phantom_free (sw : nat -> nat -> bool) (kp : list Z) : Prop :=
  forall k, (k < 256)%nat -> kp !!! k <> 0 ->
    exists r c, (r < MATRIX_ROWS)%nat /\ (c < MATRIX_COLUMNS)%nat
                /\ sw r c = true /\ Z.to_nat (cell KeyboardMatrix r c) = k.

(** A report that shows no key and no modifier that the key table [kp]
    does not hold: a slot is empty, holds the rollover code, or holds a scan
    code set in [kp]; bit [i] of the modifier byte stands for the scan code
    [0xE0 + i]. *)
Definition report_sound (kp : list Z) (rep : USB_KeyboardReport_Data_t) : Prop :=
  (forall k, In k (KeyCode rep) ->
     k = 0 \/ k = HID_KEYBOARD_SC_ERROR_ROLLOVER
     \/ (1 <= k < 256 /\ kp !!! Z.to_nat k <> 0))
  /\ (forall i, (i < 8)%nat -> Z.testbit (Modifier rep) (Z.of_nat i) = true ->
        kp !!! (224 + i)%nat <> 0).

(** Some closed switch carries the scan code [k]. *)
Definition held_code (sw : nat -> nat -> bool) (k : Z) : Prop :=
  exists r c, (r < MATRIX_ROWS)%nat /\ (c < MATRIX_COLUMNS)%nat
              /\ sw r c = true /\ cell KeyboardMatrix r c = k.

(** [n] calls of [KeyboardScanMatrix] in a row with the keyboard held in the
    position [sw]; [junk k] is the indeterminate [ScanCode] of call [k]. *)
Fixpoint scans_holding (sw : nat -> nat -> bool) (junk : nat -> Z) (n : nat)
    (st : matrix_state) : matrix_state :=
  match n with
  | O => st
  | S n' =>
      let st' := scans_holding sw junk n' st in
      KeyboardScanMatrix (junk n') (pins_of sw st') st'
  end.

(** ** KeyboardMouse.c: reports, requests and the main loop *)

(** *** More on the keyboard report *)

(** The scan codes set in [kp] that are not modifiers, in the order of the
    report loop, which is increasing. *)
Definition pressed_keys (kp : list Z) : list Z :=
  List.filter (fun c => truthy (kp !!! Z.to_nat c) && negb (is_modifier c)) scan_codes.

(** The scan codes below the first modifier, [0xE0]. *)
Definition low_codes : list Z := map Z.of_nat (seq 1 223).

(** *** EVENT_USB_Device_ControlRequest *)

(** The fields of [USB_ControlRequest] that the handler reads. *)
Record USB_Request_Header_t : Type := RequestHeader {
  bmRequestType : Z;   (* uint8_t *)
  bRequest : Z;        (* uint8_t *)
  wIndex : Z           (* uint16_t *)
}.

(** Modelled from the spec: the request codes and the request type bits are
    LUFA's, whose headers are not among the sources.  They are kept
    abstract, and the handler is modelled for any values of them. *)
Record lufa_requests : Type := LufaRequests {
  HID_REQ_GetReport : Z;
  HID_REQ_SetReport : Z;
  REQDIR_DEVICETOHOST : Z;
  REQDIR_HOSTTODEVICE : Z;
  REQTYPE_CLASS : Z;
  REQREC_INTERFACE : Z
}.

(** What [Endpoint_Write_Control_Stream_LE] is given to send. *)
Inductive control_data : Type :=
| KeyboardData (rep : USB_KeyboardReport_Data_t)
| MouseData (rep : USB_MouseReport_Data_t).

Definition set_KeyboardReportData (rep : USB_KeyboardReport_Data_t) (fs : firmware_state)
    : firmware_state :=
  {| matrix := matrix fs; mouse := mouse fs;
     KeyboardReportData := rep; MouseReportData := MouseReportData fs;
     KeyboardSuppressPolling := KeyboardSuppressPolling fs |}.

Definition set_MouseReportData (rep : USB_MouseReport_Data_t) (fs : firmware_state)
    : firmware_state :=
  {| matrix := matrix fs; mouse := mouse fs;
     KeyboardReportData := KeyboardReportData fs; MouseReportData := rep;
     KeyboardSuppressPolling := KeyboardSuppressPolling fs |}.

(** The wait of lines 195-199.  [received k] is what
    [Endpoint_IsOUTReceived()] answers at the [k]-th iteration and
    [unattached k] whether [USB_DeviceState == DEVICE_STATE_Unattached]
    then.  [Some true]: the LED report has arrived; [Some false]: the
    handler returns early; [None]: still waiting after [fuel] iterations. *)
Fixpoint wait_led_report (received unattached : nat -> bool) (k fuel : nat) : option bool :=
  match fuel with
  | O => None
  | S fuel' =>
      if received k then Some true
      else if unattached k then Some false
      else wait_led_report received unattached (S k) fuel'
  end.

(** The handler.  Returns the new state and what was sent on the control
    endpoint, if anything; [None] if the wait for the LED report has not
    ended after [fuel] iterations.  The LED byte is read and, the keyboard
    having no LEDs, dropped by [Keyboard_ProcessLEDReport]. *)
Definition EVENT_USB_Device_ControlRequest (L : lufa_requests)
    (USB_ControlRequest : USB_Request_Header_t) (received unattached : nat -> bool)
    (fuel : nat) (fs : firmware_state) : option (firmware_state * option control_data) :=
  if bRequest USB_ControlRequest =? HID_REQ_GetReport L then
    if bmRequestType USB_ControlRequest
       =? Z.lor (Z.lor (REQDIR_DEVICETOHOST L) (REQTYPE_CLASS L)) (REQREC_INTERFACE L)
    then
      if negb (truthy (wIndex USB_ControlRequest))
      then Some (set_KeyboardReportData keyboard_report_zero fs,
                 Some (KeyboardData (KeyboardReportData fs)))
      else Some (set_MouseReportData mouse_report_zero fs,
                 Some (MouseData (MouseReportData fs)))
    else Some (fs, None)
  else if bRequest USB_ControlRequest =? HID_REQ_SetReport L then
    if bmRequestType USB_ControlRequest
       =? Z.lor (Z.lor (REQDIR_HOSTTODEVICE L) (REQTYPE_CLASS L)) (REQREC_INTERFACE L)
    then match wait_led_report received unattached 0 fuel with
         | None => None
         | Some _ => Some (fs, None)
         end
    else Some (fs, None)
  else Some (fs, None).

(** *** main

    One turn of the loop of [main]: the two tasks, then [USB_USBTask], which
    is LUFA's and is represented by the control requests it hands to the
    handler.  A turn carries what the hardware and the host do during it. *)
Record turn : Type := Turn {
  t_keyboard_configured : bool;
  t_junk : Z;
  t_pins : nat -> nat -> Z;
  t_keyboard_ready : bool;
  t_mouse_configured : bool;
  t_line : nat -> Z;
  t_mouse_ready : bool;
  t_requests : list (USB_Request_Header_t * (nat -> bool) * (nat -> bool))
}.

Definition handle_requests (L : lufa_requests) (fuel : nat)
    (rqs : list (USB_Request_Header_t * (nat -> bool) * (nat -> bool)))
    (fs : firmware_state) : option firmware_state :=
  foldl (fun o rq =>
           match o with
           | None => None
           | Some fs =>
               match EVENT_USB_Device_ControlRequest L (fst (fst rq)) (snd (fst rq)) (snd rq)
                       fuel fs with
               | None => None
               | Some r => Some (fst r)
               end
           end)
        (Some fs) rqs.

Definition main_turn (L : lufa_requests) (fuel : nat) (t : turn) (fs : firmware_state)
    : option firmware_state :=
  let fs1 := fst (Keyboard_HID_Task (t_keyboard_configured t) (t_junk t) (t_pins t)
                    (t_keyboard_ready t) fs) in
  let fs2 := fst (Mouse_HID_Task (t_mouse_configured t) (t_line t) (t_mouse_ready t) fs1) in
  handle_requests L fuel (t_requests t) fs2.

Definition main_loop (L : lufa_requests) (fuel : nat) (turns : list turn)
    (fs : firmware_state) : option firmware_state :=
  foldl (fun o t => match o with None => None | Some fs => main_turn L fuel t fs end)
        (Some fs) turns.

(** What holds of the variables of the firmware at all times. *)
Record firmware_ok (fs : firmware_state) : Prop := FirmwareOk {
  ok_wf : matrix_wf (matrix fs);
  ok_counts : counts_exact (matrix fs);
  ok_raw : raw_binary (matrix fs);
  ok_ghosts : ghosts_current (matrix fs);
  ok_mouse : accumulators_in_range (mouse fs);
  ok_polling : KeyboardSuppressPolling fs = 0 \/ KeyboardSuppressPolling fs = 1;
  ok_report : length (KeyCode (KeyboardReportData fs)) = 6%nat
}.

(** Modelled from the spec: the values LUFA's headers give the request
    constants; only the examples use them. *)
Definition lufa_values : lufa_requests :=
  {| HID_REQ_GetReport := 0x01; HID_REQ_SetReport := 0x09;
     REQDIR_DEVICETOHOST := 0x80; REQDIR_HOSTTODEVICE := 0x00;
     REQTYPE_CLASS := 0x20; REQREC_INTERFACE := 0x01 |}.

(** The pin setup of [SetupHardware] (lines 108-110). *)
Definition SetupHardware_gpio (g : gpio) : gpio := run_ops ADBMouseInit (KeyboardInit g).

(** * Properties *)

(** ** Machine integers *)

Lemma s16_small x : -32768 <= x < 32768 -> s16 x = x.
Proof. intros H. unfold s16. rewrite Z.mod_small; lia. Qed.

Lemma s8_small x : -128 <= x < 128 -> s8 x = x.
Proof. intros H. unfold s8. rewrite Z.mod_small; lia. Qed.

Lemma u8_small x : 0 <= x < 256 -> u8 x = x.
Proof. intros H. unfold u8. apply Z.mod_small; lia. Qed.

Lemma land_7f r : Z.land r 0x7f = r mod 128.
Proof. change 0x7f with (Z.ones 7). rewrite Z.land_ones by lia. reflexivity. Qed.

Lemma field_x_range r : 0 <= u8 (Z.land r 0x007f) < 128.
Proof.
  rewrite land_7f. pose proof (Z.mod_pos_bound r 128 ltac:(lia)).
  rewrite u8_small; lia.
Qed.

Lemma field_y_range r : 0 <= u8 (Z.shiftr (Z.land r 0x7f00) 8) < 128.
Proof.
  rewrite Z.shiftr_land. change (Z.shiftr 0x7f00 8) with 0x7f.
  rewrite land_7f. pose proof (Z.mod_pos_bound (Z.shiftr r 8) 128 ltac:(lia)).
  rewrite u8_small; lia.
Qed.

(** ** The ADB mouse poller *)

(** The two branches of [accumulate] add the decoded delta and clip. *)
Lemma accumulate_delta acc F :
  accumulate acc F =
    if F <? 0x40
    then Z.min ACCUMULATED_MAX (s16 (acc + adb_delta F))
    else Z.max ACCUMULATED_MIN (s16 (acc + adb_delta F)).
Proof.
  unfold accumulate, adb_delta. destruct (F <? 0x40); cbv zeta.
  - destruct (Z.gtb_spec (s16 (acc + F)) ACCUMULATED_MAX); lia.
  - destruct (Z.ltb_spec (s16 (acc + (s16 F - s16 128))) ACCUMULATED_MIN); lia.
Qed.

Lemma adb_delta_range F : 0 <= F < 128 -> -64 <= adb_delta F <= 63.
Proof.
  intros H. unfold adb_delta. destruct (Z.ltb_spec F 0x40); [lia|].
  rewrite !s16_small by lia. lia.
Qed.

Lemma accumulate_range acc F :
  ACCUMULATED_MIN <= acc <= ACCUMULATED_MAX -> 0 <= F < 128 ->
  ACCUMULATED_MIN <= accumulate acc F <= ACCUMULATED_MAX.
Proof.
  unfold ACCUMULATED_MIN, ACCUMULATED_MAX. intros Ha HF.
  rewrite accumulate_delta. pose proof (adb_delta_range F HF) as Hd.
  unfold ACCUMULATED_MIN, ACCUMULATED_MAX.
  assert (Hpos : F < 0x40 -> 0 <= adb_delta F).
  { intros Hlt. unfold adb_delta. destruct (Z.ltb_spec F 0x40); lia. }
  assert (Hneg : 0x40 <= F -> adb_delta F < 0).
  { intros Hge. unfold adb_delta. destruct (Z.ltb_spec F 0x40); [lia|].
    rewrite !s16_small by lia. lia. }
  rewrite s16_small by lia.
  destruct (Z.ltb_spec F 0x40); lia.
Qed.

Lemma parse_register_range r st :
  accumulators_in_range st -> accumulators_in_range (parse_register r st).
Proof.
  intros [Hx Hy]. split; cbn.
  - apply accumulate_range; [exact Hx | apply field_x_range].
  - apply accumulate_range; [exact Hy | apply field_y_range].
Qed.

Lemma mouse_step_range st e :
  accumulators_in_range st -> accumulators_in_range (mouse_step st e).
Proof.
  intros H. destruct e as [wait|]; cbn.
  - unfold ADBPollMouse. destruct (ADBRead16 wait); cbn;
      [apply parse_register_range|]; exact H.
  - unfold accumulators_in_range, ACCUMULATED_MIN, ACCUMULATED_MAX. cbn. lia.
Qed.

(** C6.  From zeroed accumulators, whatever polls (any behaviour of the
    line, timeouts included) and resets follow one another,
    [AccumulatedX] and [AccumulatedY] stay in [[-127, 127]]. *)
Theorem mouse_saturation (es : list mouse_event) (st : mouse_state) :
  AccumulatedX st = 0 -> AccumulatedY st = 0 ->
  accumulators_in_range (mouse_run es st).
Proof.
  intros Hx Hy.
  assert (H0 : accumulators_in_range st).
  { unfold accumulators_in_range, ACCUMULATED_MIN, ACCUMULATED_MAX.
    rewrite Hx, Hy. lia. }
  clear Hx Hy. revert st H0. unfold mouse_run.
  induction es as [|e es IH]; intros st H0; cbn; [exact H0|].
  apply IH, mouse_step_range, H0.
Qed.

Lemma mouse_saturation_witness :
  accumulators_in_range
    (mouse_run [Poll (line_sending 0x807E);
                Poll (fun _ => ADB_TIMEOUT);
                ResetAccumulators;
                Poll (line_sending 0x3F3F)] mouse_reset).
Proof. apply mouse_saturation; reflexivity. Defined.

(** The read fails exactly when one of the waits it makes gives up. *)
Lemma measure_low_None wait k n :
  measure_low wait k n = None <->
  exists j, (k <= j < k + 2 * n)%nat /\ wait j = ADB_TIMEOUT.
Proof.
  revert k. induction n as [|n IH]; intros k; cbn [measure_low].
  - split; [discriminate | intros (j & Hj & _); lia].
  - destruct (Z.eqb_spec (wait k) ADB_TIMEOUT) as [E|E].
    { split; [|reflexivity]. intros _. exists k. split; [lia | exact E]. }
    destruct (Z.eqb_spec (wait (S k)) ADB_TIMEOUT) as [E'|E'].
    { split; [|reflexivity]. intros _. exists (S k). split; [lia | exact E']. }
    specialize (IH (S (S k))).
    destruct (measure_low wait (S (S k)) n) as [ds|].
    + split; [discriminate|]. intros (j & Hj & Hw).
      assert (Hcase : j = k \/ j = S k \/ (S (S k) <= j < S (S k) + 2 * n)%nat) by lia.
      destruct Hcase as [->|[->|Hr]]; [contradiction | contradiction |].
      destruct IH as [_ IH]. discriminate IH. exists j. split; assumption.
    + split; [|reflexivity]. intros _.
      destruct IH as [IH _]. destruct (IH eq_refl) as (j & Hj & Hw).
      exists j. split; [lia | exact Hw].
Qed.

Lemma ADBRead16_timeout wait :
  ADBRead16 wait = None <-> exists j, (j < 36)%nat /\ wait j = ADB_TIMEOUT.
Proof.
  unfold ADBRead16. pose proof (measure_low_None wait 0 18) as H.
  destruct (measure_low wait 0 18).
  - split; [discriminate|]. intros (j & Hj & Hw).
    destruct H as [_ H]. discriminate H. exists j. split; [lia | exact Hw].
  - split; [|reflexivity]. intros _. destruct H as [H _].
    destruct (H eq_refl) as (j & Hj & Hw). exists j. split; [lia | exact Hw].
Qed.

Lemma in_zrange x start n :
  start <= x < start + Z.of_nat n -> In x (zrange start n).
Proof.
  revert start. induction n as [|n IH]; intros start H; cbn.
  - lia.
  - destruct (Z.eq_dec start x) as [->|Hne]; [left; reflexivity|].
    right. apply IH. lia.
Qed.

(** Every 16-bit value is read back from the line that sends it. *)
Lemma ADBRead16_line_sending reg :
  0 <= reg < 65536 -> ADBRead16 (line_sending reg) = Some reg.
Proof.
  intros H.
  assert (Hall : forallb (fun n => match ADBRead16 (line_sending n) with
                                   | Some v => v =? n
                                   | None => false
                                   end) (zrange 0 (Z.to_nat 65536)) = true)
    by (vm_compute; reflexivity).
  rewrite forallb_forall in Hall.
  assert (Hin : In reg (zrange 0 (Z.to_nat 65536))).
  { apply in_zrange. rewrite Z2Nat.id by lia. lia. }
  specialize (Hall reg Hin).
  destruct (ADBRead16 (line_sending reg)) as [v|]; [|discriminate Hall].
  f_equal. apply Z.eqb_eq. exact Hall.
Qed.

(** C7.  When the read times out (one of the waits made by [ADBRead16]
    returns [ADB_TIMEOUT]), [ADBPollMouse] returns 0 and the accumulators and
    button states are what they were; conversely a call that changes any of
    them returned 1 after a successful read. *)
Theorem poll_timeout_untouched (wait : nat -> Z) (st : mouse_state) (j : nat) :
  (j < 36)%nat -> wait j = ADB_TIMEOUT ->
  ADBRead16 wait = None
  /\ ADBPollMouse wait st = (0, st)
  /\ (forall wait' , snd (ADBPollMouse wait' st) <> st ->
        fst (ADBPollMouse wait' st) = 1
        /\ exists v, ADBRead16 wait' = Some v
                     /\ snd (ADBPollMouse wait' st) = parse_register v st).
Proof.
  intros Hj Hw.
  assert (HN : ADBRead16 wait = None).
  { apply ADBRead16_timeout. exists j. split; assumption. }
  split; [exact HN|]. split.
  - unfold ADBPollMouse. rewrite HN. reflexivity.
  - intros wait' Hne. unfold ADBPollMouse in *.
    destruct (ADBRead16 wait') as [v|]; cbn in *.
    + split; [reflexivity|]. exists v. split; reflexivity.
    + contradiction.
Qed.

Lemma poll_timeout_untouched_witness :
  ADBRead16 (fun k => if (k =? 7)%nat then ADB_TIMEOUT else 20) = None
  /\ ADBPollMouse (fun k => if (k =? 7)%nat then ADB_TIMEOUT else 20)
       {| AccumulatedX := 5; AccumulatedY := -3; Button1State := 1; Button2State := 0 |}
     = (0, {| AccumulatedX := 5; AccumulatedY := -3; Button1State := 1; Button2State := 0 |}).
Proof.
  pose proof (poll_timeout_untouched
                (fun k => if (k =? 7)%nat then ADB_TIMEOUT else 20)
                {| AccumulatedX := 5; AccumulatedY := -3;
                   Button1State := 1; Button2State := 0 |}
                7%nat ltac:(lia) eq_refl) as (H1 & H2 & _).
  split; [exact H1 | exact H2].
Defined.

Lemma adb_encode_mod d : adb_encode d = d mod 128.
Proof. unfold adb_encode. apply land_7f. Qed.

(** C9.  Decoding a 7-bit delta field the way [ADBPollMouse] does inverts
    [encode d = d & 0x7F] on [[-64, 63]]; polled from a zero accumulator,
    the encoded field yields the delta itself. *)
Theorem adb_delta_roundtrip (d : Z) :
  -64 <= d <= 63 ->
  adb_delta (adb_encode d) = d /\ accumulate 0 (adb_encode d) = d.
Proof.
  intros Hd.
  assert (Hmod : d mod 128 = if d <? 0 then d + 128 else d).
  { destruct (Z.ltb_spec d 0); Z.div_mod_to_equations; lia. }
  assert (Hdec : adb_delta (adb_encode d) = d).
  { rewrite adb_encode_mod, Hmod. unfold adb_delta.
    destruct (Z.ltb_spec d 0) as [Hn|Hp].
    - destruct (Z.ltb_spec (d + 128) 0x40); [lia|].
      rewrite !s16_small by lia. lia.
    - destruct (Z.ltb_spec d 0x40); lia. }
  split; [exact Hdec|].
  rewrite accumulate_delta, Hdec. cbn [Z.add].
  unfold ACCUMULATED_MAX, ACCUMULATED_MIN.
  rewrite s16_small by lia.
  destruct (adb_encode d <? 0x40); lia.
Qed.

Lemma adb_delta_roundtrip_witness :
  adb_delta (adb_encode (-2)) = -2 /\ accumulate 0 (adb_encode (-2)) = -2.
Proof. apply adb_delta_roundtrip. lia. Defined.

(** A report is written exactly when the device is configured and the IN
    endpoint is ready. *)
Lemma mouse_report_emitted configured wait in_ready fs :
  snd (Mouse_HID_Task configured wait in_ready fs)
  = if configured && in_ready
    then Some (build_mouse_report (snd (ADBPollMouse wait (mouse fs))))
    else None.
Proof. unfold Mouse_HID_Task. destruct configured, in_ready; reflexivity. Qed.

(** C8.  When [Mouse_HID_Task] writes a report, the accumulators are zero
    afterwards, and the report holds the button states and the accumulated
    movement as they were just before the reset, that is after the poll the
    task begins with. *)
Theorem mouse_report_zeroing (configured : bool) (wait : nat -> Z) (in_ready : bool)
    (fs : firmware_state) (rep : USB_MouseReport_Data_t) :
  snd (Mouse_HID_Task configured wait in_ready fs) = Some rep ->
  let before := snd (ADBPollMouse wait (mouse fs)) in
  let after := mouse (fst (Mouse_HID_Task configured wait in_ready fs)) in
  AccumulatedX after = 0 /\ AccumulatedY after = 0
  /\ Button1State after = Button1State before
  /\ Button2State after = Button2State before
  /\ Button rep = u8 (Z.lor (Button1State before) (Z.shiftl (Button2State before) 1))
  /\ X rep = s8 (AccumulatedX before)
  /\ Y rep = s8 (AccumulatedY before).
Proof.
  unfold Mouse_HID_Task.
  destruct configured; cbn [negb]; [|discriminate].
  destruct in_ready; cbn [fst snd]; [|discriminate].
  intros [= <-]. cbn. repeat split; reflexivity.
Qed.

Lemma mouse_report_zeroing_witness :
  let fs := fst (Mouse_HID_Task true (line_sending 0x0305) false firmware_reset) in
  let r := Mouse_HID_Task true (fun _ => ADB_TIMEOUT) true fs in
  snd r = Some {| Button := 3; X := 5; Y := 3 |}
  /\ AccumulatedX (mouse (fst r)) = 0 /\ AccumulatedY (mouse (fst r)) = 0.
Proof.
  cbv zeta.
  pose proof (mouse_report_zeroing true (fun _ => ADB_TIMEOUT) true
                (fst (Mouse_HID_Task true (line_sending 0x0305) false firmware_reset))
                {| Button := 3; X := 5; Y := 3 |} eq_refl) as H.
  cbv zeta in H. destruct H as (Hx & Hy & _).
  split; [reflexivity|]. split; [exact Hx | exact Hy].
Defined.

(** ** The matrix scanner *)

Lemma foldl_preserves {A B : Type} (P : A -> Prop) (f : A -> B -> A) (l : list B) (a : A) :
  P a -> (forall a x, P a -> P (f a x)) -> P (foldl f a l).
Proof.
  intros Ha Hf. revert a Ha.
  induction l as [|x l IH]; intros a Ha; cbn; [exact Ha | apply IH, Hf, Ha].
Qed.

Lemma switch_pressed_pin pin ScanCode :
  switch_pressed pin ScanCode = if pin =? 0 then 1 else 0.
Proof. unfold switch_pressed. destruct (pin =? 0), (ScanCode =? 0); reflexivity. Qed.

Lemma KeyboardMatrix_range r c :
  (r < MATRIX_ROWS)%nat -> (c < MATRIX_COLUMNS)%nat ->
  0 <= cell KeyboardMatrix r c < 256.
Proof.
  unfold MATRIX_ROWS, MATRIX_COLUMNS. intros Hr Hc.
  do 8 (destruct r as [|r];
        [do 16 (destruct c as [|c]; [vm_compute; split; congruence|]); lia|]).
  lia.
Qed.

(** *** Array dimensions are kept *)

(** Reduce the projections of an updated state, and nothing else. *)
Ltac state_simpl :=
  cbn [RawSwitchPressed TotalInRow TotalInColumn RowHasGhost ColumnHasGhost
       KeyPressed CurrentRow set_counts set_raw set_KeyPressed set_CurrentRow
       CheckForGhosts fst snd] in *.

Lemma mark_rows_length raw Column rg : length (mark_rows raw Column rg) = length rg.
Proof.
  unfold mark_rows.
  apply (foldl_preserves (fun l => length l = length rg)); [reflexivity|].
  intros a i Ha. destruct (truthy _); [rewrite length_insert|]; exact Ha.
Qed.

Lemma mark_columns_length raw Row cg : length (mark_columns raw Row cg) = length cg.
Proof.
  unfold mark_columns.
  apply (foldl_preserves (fun l => length l = length cg)); [reflexivity|].
  intros a j Ha. destruct (IS_GHOST_FREE_COLUMN j); [exact Ha|].
  destruct (truthy _); [rewrite length_insert|]; exact Ha.
Qed.

Lemma ghost_flags_length raw tr tc :
  length (fst (ghost_flags raw tr tc)) = MATRIX_ROWS
  /\ length (snd (ghost_flags raw tr tc)) = MATRIX_COLUMNS.
Proof.
  unfold ghost_flags.
  apply (foldl_preserves
           (fun g => length (fst g) = MATRIX_ROWS /\ length (snd g) = MATRIX_COLUMNS)).
  { split; apply length_replicate. }
  intros g Row Hg. unfold ghost_row. apply foldl_preserves; [exact Hg|].
  clear g Hg. intros g Column [Hr Hc]. unfold ghost_cell.
  destruct (IS_GHOST_FREE_COLUMN Column); [split; assumption|].
  destruct (is_corner _ _ _ _ _); [|split; assumption].
  cbn [fst snd]. rewrite mark_rows_length, mark_columns_length. split; assumption.
Qed.

Lemma CheckForGhosts_wf st : matrix_wf st -> matrix_wf (CheckForGhosts st).
Proof.
  intros [H1 H2 H3 H4 H5 H6 H7 H8].
  destruct (ghost_flags_length (RawSwitchPressed st) (TotalInRow st) (TotalInColumn st))
    as [Hr Hc].
  constructor; state_simpl; assumption.
Qed.

Lemma set_cell_length a r c v : length (set_cell a r c v) = length a.
Proof. unfold set_cell. apply length_insert. Qed.

Lemma set_cell_row_length a r c v n :
  (forall i row, a !! i = Some row -> length row = n) ->
  forall i row, set_cell a r c v !! i = Some row -> length row = n.
Proof.
  intros Ha i row. unfold set_cell.
  destruct (decide (r = i)) as [->|Hne].
  - destruct (decide (i < length a)%nat) as [Hlt|Hge].
    + rewrite list_lookup_insert_eq by exact Hlt. intros [= <-].
      rewrite length_insert. apply (Ha i).
      apply list_lookup_lookup_total_lt. exact Hlt.
    + rewrite list_insert_ge by lia. apply Ha.
  - rewrite list_lookup_insert_ne by exact Hne. apply Ha.
Qed.

Lemma update_raw_wf sp c st : matrix_wf st -> matrix_wf (fst (update_raw sp c st)).
Proof.
  intros [H1 H2 H3 H4 H5 H6 H7 H8]. unfold update_raw.
  destruct (negb _ && truthy sp); destruct (_ && negb (truthy sp)); state_simpl;
    constructor; state_simpl; rewrite ?length_insert, ?set_cell_length;
    try assumption; apply set_cell_row_length; assumption.
Qed.

Lemma update_raw_CurrentRow sp c st : CurrentRow (fst (update_raw sp c st)) = CurrentRow st.
Proof.
  unfold update_raw.
  destruct (negb _ && truthy sp); destruct (_ && negb (truthy sp)); reflexivity.
Qed.

Lemma update_cooked_wf sp c st : matrix_wf st -> matrix_wf (fst (update_cooked sp c st)).
Proof.
  intros Hwf. unfold update_cooked.
  destruct (negb (truthy sp) || _); state_simpl; [|exact Hwf].
  destruct Hwf as [H1 H2 H3 H4 H5 H6 H7 H8].
  constructor; state_simpl; rewrite ?length_insert; assumption.
Qed.

Lemma update_cooked_CurrentRow sp c st :
  CurrentRow (fst (update_cooked sp c st)) = CurrentRow st.
Proof. unfold update_cooked. destruct (negb (truthy sp) || _); reflexivity. Qed.

Lemma scan_cell_body_wf sp c st : matrix_wf st -> matrix_wf (fst (scan_cell_body sp c st)).
Proof.
  intros Hwf. unfold scan_cell_body.
  pose proof (update_raw_wf sp c st Hwf) as H1.
  destruct (update_raw sp c st) as [st1 ch]. cbn [fst] in H1.
  apply update_cooked_wf. destruct (truthy ch); [apply CheckForGhosts_wf|]; exact H1.
Qed.

Lemma scan_cell_body_CurrentRow sp c st :
  CurrentRow (fst (scan_cell_body sp c st)) = CurrentRow st.
Proof.
  unfold scan_cell_body.
  pose proof (update_raw_CurrentRow sp c st) as H1.
  destruct (update_raw sp c st) as [st1 ch]. cbn [fst] in H1.
  rewrite update_cooked_CurrentRow. destruct (truthy ch); exact H1.
Qed.

Lemma scan_columns_wf pins cols s :
  matrix_wf (fst s) -> matrix_wf (fst (scan_columns pins cols s)).
Proof.
  intros H. unfold scan_columns.
  apply (foldl_preserves (fun s => matrix_wf (fst s))); [exact H|].
  intros a c Ha. apply scan_cell_body_wf, Ha.
Qed.

Lemma scan_columns_CurrentRow pins cols s :
  CurrentRow (fst (scan_columns pins cols s)) = CurrentRow (fst s).
Proof.
  unfold scan_columns.
  apply (foldl_preserves (fun s' => CurrentRow (fst s') = CurrentRow (fst s)));
    [reflexivity|].
  intros a c Ha. unfold scan_cell. rewrite scan_cell_body_CurrentRow. exact Ha.
Qed.

Lemma next_row_wf st : matrix_wf st -> matrix_wf (next_row st).
Proof.
  intros [H1 H2 H3 H4 H5 H6 H7 H8]. unfold next_row.
  constructor; state_simpl; try assumption.
  destruct (Nat.leb_spec MATRIX_ROWS (S (CurrentRow st))); [unfold MATRIX_ROWS|]; lia.
Qed.

Lemma scan_row_wf pins s : matrix_wf (fst s) -> matrix_wf (fst (scan_row pins s)).
Proof. intros H. unfold scan_row. cbn [fst]. apply next_row_wf, scan_columns_wf, H. Qed.

Lemma scan_rows_wf (pins : nat -> nat -> Z) (rows : list nat) s :
  matrix_wf (fst s) ->
  matrix_wf (fst (foldl (fun s i => scan_row (pins i) s) s rows)).
Proof.
  intros H. apply (foldl_preserves (fun s => matrix_wf (fst s))); [exact H|].
  intros a i Ha. apply scan_row_wf, Ha.
Qed.

Lemma KeyboardScanMatrix_wf ScanCode0 pins st :
  matrix_wf st -> matrix_wf (KeyboardScanMatrix ScanCode0 pins st).
Proof. intros H. unfold KeyboardScanMatrix. apply scan_rows_wf. exact H. Qed.

Lemma matrix_reset_wf : matrix_wf matrix_reset.
Proof.
  constructor; unfold matrix_reset; state_simpl;
    rewrite ?length_replicate; try reflexivity; [|unfold MATRIX_ROWS; lia].
  intros r row H. apply lookup_replicate in H. destruct H as [-> _].
  apply length_replicate.
Qed.

(** *** The stale [ScanCode] *)

Lemma scan_cell_explicit_eq pin ScanCode c st :
  fst (scan_cell pin ScanCode c st) = scan_cell_explicit pin c st.
Proof.
  unfold scan_cell, scan_cell_explicit. rewrite !switch_pressed_pin. reflexivity.
Qed.

Lemma scan_columns_explicit pins cols s :
  fst (scan_columns pins cols s)
  = foldl (fun st c => scan_cell_explicit (pins c) c st) (fst s) cols.
Proof.
  unfold scan_columns. revert s.
  induction cols as [|c cols IH]; intros s; cbn [foldl]; [reflexivity|].
  rewrite IH, scan_cell_explicit_eq. reflexivity.
Qed.

Lemma scan_rows_explicit (pins : nat -> nat -> Z) (rows : list nat) s :
  fst (foldl (fun s i => scan_row (pins i) s) s rows)
  = foldl (fun st i => scan_row_explicit (pins i) st) (fst s) rows.
Proof.
  revert s. induction rows as [|i rows IH]; intros s; cbn [foldl]; [reflexivity|].
  rewrite IH. f_equal. unfold scan_row, scan_row_explicit. cbn [fst].
  rewrite scan_columns_explicit. reflexivity.
Qed.

(** C10.  Whatever the local [ScanCode] holds when the [!= 0] condition
    tests it, [SwitchPressed] is 1 exactly when the column pin reads low;
    hence a call of [KeyboardScanMatrix] leaves the state (raw cells, counts
    and all the rest) that the scanner testing
    [KeyboardMatrix[CurrentRow][CurrentColumn] != 0] leaves. *)
Theorem stale_scan_code_benign (ScanCode0 : Z) (pins : nat -> nat -> Z)
    (st : matrix_state) :
  (forall pin ScanCode, switch_pressed pin ScanCode = if pin =? 0 then 1 else 0)
  /\ KeyboardScanMatrix ScanCode0 pins st = KeyboardScanMatrix_explicit pins st.
Proof.
  split; [apply switch_pressed_pin|].
  unfold KeyboardScanMatrix, KeyboardScanMatrix_explicit.
  apply scan_rows_explicit.
Qed.

(** *** Releases *)

Lemma update_raw_KeyPressed sp c st : KeyPressed (fst (update_raw sp c st)) = KeyPressed st.
Proof.
  unfold update_raw.
  destruct (negb _ && truthy sp); destruct (_ && negb (truthy sp)); reflexivity.
Qed.

(** A cell that reads released has its key state cleared, whatever the ghost
    flags are before or after the recomputation. *)
Lemma scan_cell_release pin ScanCode c st :
  pin <> 0 ->
  KeyPressed (fst (scan_cell pin ScanCode c st))
  = <[Z.to_nat (cell KeyboardMatrix (CurrentRow st) c) := 0]> (KeyPressed st).
Proof.
  intros Hpin. unfold scan_cell. rewrite switch_pressed_pin.
  destruct (Z.eqb_spec pin 0) as [E|_]; [contradiction|].
  unfold scan_cell_body.
  pose proof (update_raw_KeyPressed 0 c st) as HK.
  pose proof (update_raw_CurrentRow 0 c st) as HR.
  destruct (update_raw 0 c st) as [st1 ch]. cbn [fst] in HK, HR.
  assert (HK2 : KeyPressed (if truthy ch then CheckForGhosts st1 else st1) = KeyPressed st)
    by (destruct (truthy ch); exact HK).
  assert (HR2 : CurrentRow (if truthy ch then CheckForGhosts st1 else st1) = CurrentRow st)
    by (destruct (truthy ch); exact HR).
  unfold update_cooked. change (truthy 0) with false. cbn [negb orb fst].
  state_simpl. rewrite HK2, HR2. reflexivity.
Qed.

Lemma scan_cell_CurrentRow pin ScanCode c st :
  CurrentRow (fst (scan_cell pin ScanCode c st)) = CurrentRow st.
Proof. unfold scan_cell. apply scan_cell_body_CurrentRow. Qed.

(** C4.  In a call of [KeyboardScanMatrix], just after the iteration that
    sampled a cell whose column pin read high, [KeyPressed] at that cell's
    scan code is 0; the state the call starts from, ghost flags included,
    is arbitrary. *)
Theorem release_immunity (ScanCode0 : Z) (pins : nat -> nat -> Z) (st : matrix_state)
    (i c : nat) :
  matrix_wf st -> (i < ROWS_PER_REPORT)%nat -> (c < MATRIX_COLUMNS)%nat ->
  pins i c <> 0 ->
  let after := fst (scan_upto ScanCode0 pins st i c) in
  KeyPressed after !!! Z.to_nat (cell KeyboardMatrix (CurrentRow after) c) = 0.
Proof.
  intros Hwf Hi Hc Hpin. cbv zeta. unfold scan_upto.
  set (s0 := foldl (fun s i => scan_row (pins i) s) (st, ScanCode0) (seq 0 i)).
  assert (Hwf0 : matrix_wf (fst s0)) by (apply scan_rows_wf; exact Hwf).
  rewrite seq_S. cbn [Nat.add]. unfold scan_columns. rewrite foldl_snoc.
  fold (scan_columns (pins i) (seq 0 c) s0).
  set (s1 := scan_columns (pins i) (seq 0 c) s0).
  assert (Hwf1 : matrix_wf (fst s1)) by (apply scan_columns_wf; exact Hwf0).
  rewrite scan_cell_CurrentRow.
  rewrite scan_cell_release by exact Hpin.
  apply list_lookup_total_insert_eq.
  rewrite (wf_key _ Hwf1).
  pose proof (KeyboardMatrix_range (CurrentRow (fst s1)) c (wf_current _ Hwf1) Hc).
  lia.
Qed.

Lemma release_immunity_witness :
  let press := fun (i c : nat) => if ((i =? 0) && (c =? 3))%nat then 0 else 1 in
  let idle := fun (i c : nat) => 1 in
  let st := KeyboardScanMatrix 0 idle (KeyboardScanMatrix 0 idle
              (KeyboardScanMatrix 0 idle (KeyboardScanMatrix 0 press matrix_reset))) in
  KeyPressed st !!! Z.to_nat HID_KEYBOARD_SC_4_AND_DOLLAR = 1
  /\ KeyPressed (fst (scan_upto 0 idle st 0 3))
       !!! Z.to_nat HID_KEYBOARD_SC_4_AND_DOLLAR = 0.
Proof.
  cbv zeta. split; [vm_compute; reflexivity|].
  apply (release_immunity 0 (fun (i c : nat) => 1)
           (KeyboardScanMatrix 0 (fun _ _ => 1) (KeyboardScanMatrix 0 (fun _ _ => 1)
              (KeyboardScanMatrix 0 (fun _ _ => 1)
                 (KeyboardScanMatrix 0
                    (fun (i c : nat) => if ((i =? 0) && (c =? 3))%nat then 0 else 1)
                    matrix_reset)))) 0 3).
  - do 4 apply KeyboardScanMatrix_wf. apply matrix_reset_wf.
  - unfold ROWS_PER_REPORT. lia.
  - unfold MATRIX_COLUMNS. lia.
  - lia.
Defined.

(** *** Counts *)

Lemma popcount_bounds l : 0 <= popcount l <= Z.of_nat (length l).
Proof.
  induction l as [|x l IH]; cbn [popcount length]; [lia|].
  destruct (truthy x); lia.
Qed.

Lemma popcount_insert (l : list Z) i v :
  (i < length l)%nat ->
  popcount (<[i := v]> l) = popcount l - bit_of (l !!! i) + bit_of v.
Proof.
  revert i. induction l as [|x l IH]; intros i Hi; cbn [length] in Hi; [lia|].
  destruct i as [|i].
  - cbn. unfold bit_of. lia.
  - change (<[S i := v]> (x :: l)) with (x :: <[i := v]> l).
    change ((x :: l) !!! S i) with (l !!! i).
    cbn [popcount]. rewrite IH by lia. lia.
Qed.

Lemma set_cell_row a r c v r' :
  (r < length a)%nat ->
  set_cell a r c v !!! r' = if decide (r = r') then <[c := v]> (a !!! r) else a !!! r'.
Proof.
  intros Hr. unfold set_cell. destruct (decide (r = r')) as [<-|Hne].
  - apply list_lookup_total_insert_eq. exact Hr.
  - apply list_lookup_total_insert_ne. exact Hne.
Qed.

Lemma column_lookup a c r : (r < length a)%nat -> column a c !!! r = cell a r c.
Proof. intros Hr. unfold column, cell. apply list_lookup_total_fmap. exact Hr. Qed.

Lemma column_length a c : length (column a c) = length a.
Proof. unfold column. apply length_fmap. Qed.

Lemma set_cell_column a r c v c' :
  (r < length a)%nat -> (c < length (a !!! r))%nat ->
  column (set_cell a r c v) c'
  = if decide (c = c') then <[r := v]> (column a c) else column a c'.
Proof.
  intros Hr Hc. unfold column, set_cell. rewrite list_fmap_insert.
  destruct (decide (c = c')) as [<-|Hne].
  - rewrite list_lookup_total_insert_eq by exact Hc. reflexivity.
  - rewrite list_lookup_total_insert_ne by exact Hne.
    apply list_insert_id. rewrite list_lookup_fmap.
    rewrite (list_lookup_lookup_total_lt a r Hr). reflexivity.
Qed.

Lemma wf_row_length st r :
  matrix_wf st -> (r < MATRIX_ROWS)%nat ->
  length (RawSwitchPressed st !!! r) = MATRIX_COLUMNS.
Proof.
  intros Hwf Hr. apply (wf_raw_cols _ Hwf r).
  apply list_lookup_lookup_total_lt. rewrite (wf_raw_rows _ Hwf). exact Hr.
Qed.

(** The counters follow the raw cell: after lines 273-288 they are again
    the population counts. *)
Lemma update_raw_counts sp c st :
  matrix_wf st -> (c < MATRIX_COLUMNS)%nat -> counts_exact st ->
  counts_exact (fst (update_raw sp c st)).
Proof.
  intros Hwf Hc [Hrow Hcol].
  pose proof (wf_current _ Hwf) as Hr.
  pose proof (wf_raw_rows _ Hwf) as Hlen.
  pose proof (wf_row_length st _ Hwf Hr) as Hrl.
  pose proof (wf_total_row _ Hwf) as Htr.
  pose proof (wf_total_col _ Hwf) as Htc.
  set (r := CurrentRow st) in *.
  (* the counts of the row and the column of the cell, before and after *)
  assert (Hpr : popcount (<[c := sp]> (RawSwitchPressed st !!! r))
                = popcount (RawSwitchPressed st !!! r)
                  - bit_of (cell (RawSwitchPressed st) r c) + bit_of sp).
  { apply popcount_insert. rewrite Hrl. exact Hc. }
  assert (Hpc : popcount (<[r := sp]> (column (RawSwitchPressed st) c))
                = popcount (column (RawSwitchPressed st) c)
                  - bit_of (cell (RawSwitchPressed st) r c) + bit_of sp).
  { rewrite popcount_insert by (rewrite column_length, Hlen; exact Hr).
    rewrite column_lookup by (rewrite Hlen; exact Hr). reflexivity. }
  pose proof (popcount_bounds (<[c := sp]> (RawSwitchPressed st !!! r))) as Hbr.
  pose proof (popcount_bounds (<[r := sp]> (column (RawSwitchPressed st) c))) as Hbc.
  rewrite length_insert, Hrl in Hbr.
  rewrite length_insert, column_length, Hlen in Hbc.
  pose proof (popcount_bounds (RawSwitchPressed st !!! r)) as Hbr0.
  pose proof (popcount_bounds (column (RawSwitchPressed st) c)) as Hbc0.
  rewrite Hrl in Hbr0. rewrite column_length, Hlen in Hbc0.
  unfold MATRIX_ROWS, MATRIX_COLUMNS in Hbr, Hbc, Hbr0, Hbc0.
  specialize (Hrow r Hr) as Hrow_r. specialize (Hcol c Hc) as Hcol_c.
  unfold bit_of in Hpr, Hpc.
  unfold update_raw. fold r.
  destruct (truthy (cell (RawSwitchPressed st) r c)) eqn:Hwas;
    destruct (truthy sp) eqn:Hnow; cbn [negb andb]; state_simpl.
  - (* pressed, stays pressed *)
    split; intros i Hi; state_simpl.
    + rewrite set_cell_row by (rewrite Hlen; exact Hr).
      destruct (decide (r = i)) as [<-|Hne]; [lia | apply Hrow, Hi].
    + rewrite set_cell_column by (rewrite ?Hlen, ?Hrl; assumption).
      destruct (decide (c = i)) as [<-|Hne]; [lia | apply Hcol, Hi].
  - (* pressed -> unpressed *)
    split; intros i Hi; state_simpl.
    + rewrite set_cell_row by (rewrite Hlen; exact Hr).
      destruct (decide (r = i)) as [<-|Hne].
      * rewrite list_lookup_total_insert_eq by (rewrite Htr; exact Hr).
        rewrite Hrow_r. unfold u8. rewrite Z.mod_small; lia.
      * rewrite list_lookup_total_insert_ne by exact Hne. apply Hrow, Hi.
    + rewrite set_cell_column by (rewrite ?Hlen, ?Hrl; assumption).
      destruct (decide (c = i)) as [<-|Hne].
      * rewrite list_lookup_total_insert_eq by (rewrite Htc; exact Hc).
        rewrite Hcol_c. unfold u8. rewrite Z.mod_small; lia.
      * rewrite list_lookup_total_insert_ne by exact Hne. apply Hcol, Hi.
  - (* unpressed -> pressed *)
    split; intros i Hi; state_simpl.
    + rewrite set_cell_row by (rewrite Hlen; exact Hr).
      destruct (decide (r = i)) as [<-|Hne].
      * rewrite list_lookup_total_insert_eq by (rewrite Htr; exact Hr).
        rewrite Hrow_r. unfold u8. rewrite Z.mod_small; lia.
      * rewrite list_lookup_total_insert_ne by exact Hne. apply Hrow, Hi.
    + rewrite set_cell_column by (rewrite ?Hlen, ?Hrl; assumption).
      destruct (decide (c = i)) as [<-|Hne].
      * rewrite list_lookup_total_insert_eq by (rewrite Htc; exact Hc).
        rewrite Hcol_c. unfold u8. rewrite Z.mod_small; lia.
      * rewrite list_lookup_total_insert_ne by exact Hne. apply Hcol, Hi.
  - (* unpressed, stays unpressed *)
    split; intros i Hi; state_simpl.
    + rewrite set_cell_row by (rewrite Hlen; exact Hr).
      destruct (decide (r = i)) as [<-|Hne]; [lia | apply Hrow, Hi].
    + rewrite set_cell_column by (rewrite ?Hlen, ?Hrl; assumption).
      destruct (decide (c = i)) as [<-|Hne]; [lia | apply Hcol, Hi].
Qed.

Lemma update_cooked_counts sp c st :
  counts_exact st -> counts_exact (fst (update_cooked sp c st)).
Proof.
  intros H. unfold update_cooked. destruct (negb (truthy sp) || _); exact H.
Qed.

Lemma scan_cell_body_counts sp c st :
  matrix_wf st -> (c < MATRIX_COLUMNS)%nat -> counts_exact st ->
  counts_exact (fst (scan_cell_body sp c st)).
Proof.
  intros Hwf Hc Hex. unfold scan_cell_body.
  pose proof (update_raw_counts sp c st Hwf Hc Hex) as H1.
  destruct (update_raw sp c st) as [st1 ch]. cbn [fst] in H1.
  apply update_cooked_counts. destruct (truthy ch); exact H1.
Qed.

Lemma scan_columns_counts pins cols s :
  Forall (fun c => (c < MATRIX_COLUMNS)%nat) cols ->
  matrix_wf (fst s) -> counts_exact (fst s) ->
  matrix_wf (fst (scan_columns pins cols s))
  /\ counts_exact (fst (scan_columns pins cols s)).
Proof.
  unfold scan_columns. intros Hcols. revert s.
  induction Hcols as [|c cols Hc _ IH]; intros s Hwf Hex; cbn [foldl].
  - split; assumption.
  - apply IH; unfold scan_cell.
    + apply scan_cell_body_wf, Hwf.
    + apply scan_cell_body_counts; assumption.
Qed.

Lemma columns_in_range : Forall (fun c => (c < MATRIX_COLUMNS)%nat) (seq 0 MATRIX_COLUMNS).
Proof. apply Forall_forall. intros c Hc. apply elem_of_seq in Hc. lia. Qed.

Lemma next_row_counts st : counts_exact st -> counts_exact (next_row st).
Proof. intros H. exact H. Qed.

Lemma scan_row_counts pins s :
  matrix_wf (fst s) -> counts_exact (fst s) ->
  matrix_wf (fst (scan_row pins s)) /\ counts_exact (fst (scan_row pins s)).
Proof.
  intros Hwf Hex.
  destruct (scan_columns_counts pins _ s columns_in_range Hwf Hex) as [Hwf' Hex'].
  unfold scan_row. cbn [fst].
  split; [apply next_row_wf, Hwf' | apply next_row_counts, Hex'].
Qed.

(** C3.  A call of [KeyboardScanMatrix], whatever the column pins read,
    takes a state whose counters are the population counts of
    [RawSwitchPressed] to a state of which the same holds. *)
Theorem counts_exact_preserved (ScanCode0 : Z) (pins : nat -> nat -> Z)
    (st : matrix_state) :
  matrix_wf st -> counts_exact st ->
  counts_exact (KeyboardScanMatrix ScanCode0 pins st).
Proof.
  intros Hwf Hex. unfold KeyboardScanMatrix.
  apply (foldl_preserves (fun s => matrix_wf (fst s) /\ counts_exact (fst s))).
  - split; assumption.
  - intros s i [Hw He]. apply scan_row_counts; assumption.
Qed.

Lemma matrix_reset_counts : counts_exact matrix_reset.
Proof.
  split; intros i Hi.
  - unfold MATRIX_ROWS in Hi. do 8 (destruct i as [|i]; [reflexivity|]). lia.
  - unfold MATRIX_COLUMNS in Hi. do 16 (destruct i as [|i]; [reflexivity|]). lia.
Qed.

Lemma counts_exact_preserved_witness :
  counts_exact
    (KeyboardScanMatrix 0 (fun i c => if (c =? 3)%nat || (c =? 12)%nat then 0 else 1)
       matrix_reset).
Proof.
  apply counts_exact_preserved; [apply matrix_reset_wf | apply matrix_reset_counts].
Defined.

(** ** The keyboard report *)

Lemma fill_rollover_all kc :
  length kc = 6%nat -> fill_rollover kc = replicate 6 HID_KEYBOARD_SC_ERROR_ROLLOVER.
Proof.
  intros H. do 6 (destruct kc as [|? kc]; [discriminate H|]).
  destruct kc; [reflexivity | discriminate H].
Qed.

(** The loop invariant behind the rollover rule: with [UsedKeyCodes] slots
    taken and more keys still to come than slots left, the loop ends in the
    rollover branch. *)
Lemma report_loop_rollover kp codes rep used :
  length (KeyCode rep) = 6%nat -> 0 <= used <= 6 ->
  6 < used + count_keys kp codes ->
  KeyCode (fst (report_loop kp codes (rep, used)))
  = replicate 6 HID_KEYBOARD_SC_ERROR_ROLLOVER.
Proof.
  revert rep used. induction codes as [|c codes IH]; intros rep used Hlen Hu Hc.
  - cbn [count_keys] in Hc. lia.
  - cbn [count_keys] in Hc. cbn [report_loop]. unfold report_step, is_modifier in *.
    destruct (truthy (kp !!! Z.to_nat c)); cbn [andb] in Hc.
    + destruct (modifier_mask c) as [m|]; cbn [negb] in Hc.
      * apply IH; [exact Hlen | exact Hu | lia].
      * unfold MAX_KEYS_PRESSED. destruct (Z.ltb_spec used 6) as [Hlt|Hge].
        -- apply IH.
           ++ cbn [KeyCode]. rewrite length_insert. exact Hlen.
           ++ rewrite u8_small by lia. lia.
           ++ rewrite u8_small by lia. lia.
        -- cbn [fst KeyCode]. apply fill_rollover_all, Hlen.
    + apply IH; [exact Hlen | exact Hu | lia].
Qed.

(** C5.  Whenever more than six of the scan codes 1..255 that are not
    modifiers are set in [KeyPressed], all six key code slots of the report
    that [Keyboard_HID_Task] builds hold [0x01]. *)
Theorem rollover_rule (kp : list Z) :
  6 < count_keys kp scan_codes ->
  KeyCode (build_keyboard_report kp) = replicate 6 HID_KEYBOARD_SC_ERROR_ROLLOVER.
Proof.
  intros H. unfold build_keyboard_report.
  apply report_loop_rollover; [reflexivity | lia | lia].
Qed.

Lemma rollover_rule_witness :
  KeyCode (build_keyboard_report (replicate 4 0 ++ replicate 7 1 ++ replicate 245 0))
  = [0x01; 0x01; 0x01; 0x01; 0x01; 0x01].
Proof.
  apply (rollover_rule (replicate 4 0 ++ replicate 7 1 ++ replicate 245 0)).
  vm_compute. reflexivity.
Defined.

(** The loop starts at scan code 1: entry 0 of [KeyPressed], the code of a
    position without a key, has no part in the report. *)
Lemma report_loop_ext kp1 kp2 codes a :
  (forall c, In c codes -> kp1 !!! Z.to_nat c = kp2 !!! Z.to_nat c) ->
  report_loop kp1 codes a = report_loop kp2 codes a.
Proof.
  revert a. induction codes as [|c codes IH]; intros a H; cbn [report_loop]; [reflexivity|].
  unfold report_step. rewrite (H c (or_introl eq_refl)).
  destruct a as [rep used].
  destruct (truthy _); [destruct (modifier_mask c); [|destruct (used <? _)]|];
    try reflexivity; apply IH; intros c' Hc'; apply H; right; exact Hc'.
Qed.

Lemma report_ignores_code_0 kp v :
  build_keyboard_report (<[0%nat := v]> kp) = build_keyboard_report kp.
Proof.
  unfold build_keyboard_report. f_equal. apply report_loop_ext.
  intros c Hc. unfold scan_codes in Hc. apply in_map_iff in Hc.
  destruct Hc as (n & <- & Hn). apply in_seq in Hn.
  apply list_lookup_total_insert_ne. lia.
Qed.

(** When the loop leaves through the rollover branch on a code below
    [0xE0], the modifier codes [0xE0 .. 0xE7] have not been visited: with
    seven keys among the codes below [0xE0] the modifier byte stays 0. *)
Lemma report_loop_low_codes kp codes rep used :
  Forall (fun c => is_modifier c = false) codes ->
  Modifier (fst (report_loop kp codes (rep, used))) = Modifier rep.
Proof.
  intros Hc. revert rep used.
  induction Hc as [|c codes Hm _ IH]; intros rep used; cbn [report_loop]; [reflexivity|].
  unfold report_step. unfold is_modifier in Hm.
  destruct (truthy _); [|apply IH].
  destruct (modifier_mask c); [discriminate Hm|].
  destruct (used <? _); [rewrite IH|]; reflexivity.
Qed.

(** A loop that leaves the rollover branch does not look at what follows. *)
Lemma report_loop_break_app kp l1 l2 rep used :
  0 <= used <= 6 -> 6 < used + count_keys kp l1 ->
  report_loop kp (l1 ++ l2) (rep, used) = report_loop kp l1 (rep, used).
Proof.
  revert rep used. induction l1 as [|c l1 IH]; intros rep used Hu Hc.
  - cbn [count_keys] in Hc. lia.
  - cbn [count_keys] in Hc. cbn [app report_loop]. unfold report_step, is_modifier in *.
    destruct (truthy (kp !!! Z.to_nat c)); cbn [andb] in Hc.
    + destruct (modifier_mask c) as [m|]; cbn [negb] in Hc.
      * apply IH; [exact Hu | lia].
      * unfold MAX_KEYS_PRESSED. destruct (Z.ltb_spec used 6) as [Hlt|Hge].
        -- apply IH; rewrite u8_small by lia; lia.
        -- reflexivity.
    + apply IH; [exact Hu | lia].
Qed.

(** The scan codes below the first modifier code. *)
Lemma scan_codes_split :
  scan_codes = map Z.of_nat (seq 1 223) ++ map Z.of_nat (seq 224 32).
Proof. reflexivity. Qed.

Lemma low_codes_not_modifiers :
  Forall (fun c => is_modifier c = false) (map Z.of_nat (seq 1 223)).
Proof. apply Forall_forall. apply Forall_forall. vm_compute. repeat constructor. Qed.

(** With more than six keys among the codes [1 .. 0xDF] (all the keys of
    [KeyboardMatrix] that are not modifiers are there), the report is the
    rollover report and its modifier byte is 0, whichever modifier keys are
    set in [KeyPressed]. *)
Lemma rollover_drops_modifiers kp :
  6 < count_keys kp (map Z.of_nat (seq 1 223)) ->
  Modifier (build_keyboard_report kp) = 0
  /\ KeyCode (build_keyboard_report kp) = replicate 6 HID_KEYBOARD_SC_ERROR_ROLLOVER.
Proof.
  intros H. unfold build_keyboard_report. rewrite scan_codes_split.
  rewrite report_loop_break_app by lia. split.
  - rewrite report_loop_low_codes by apply low_codes_not_modifiers. reflexivity.
  - apply report_loop_rollover; [reflexivity | lia | lia].
Qed.

(** ** Ghost detection *)

Lemma foldl_id {A B : Type} (f : A -> B -> A) (l : list B) (a : A) :
  (forall a x, In x l -> f a x = a) -> foldl f a l = a.
Proof.
  revert a. induction l as [|x l IH]; intros a H; cbn [foldl]; [reflexivity|].
  rewrite (H a x (or_introl eq_refl)). apply IH.
  intros a' y Hy. apply H. right. exact Hy.
Qed.

(** A property [P] that the step at [x] establishes and every step keeps
    holds at the end of a loop that visits [x]; [Q] is kept throughout. *)
Lemma foldl_establish {A B : Type} (Q P : A -> Prop) (f : A -> B -> A)
    (l : list B) (x : B) (a : A) :
  In x l -> Q a ->
  (forall a y, Q a -> Q (f a y)) ->
  (forall a, Q a -> P (f a x)) ->
  (forall a y, Q a -> P a -> P (f a y)) ->
  P (foldl f a l).
Proof.
  intros Hin Ha HQ Hx HP. revert a Ha.
  induction l as [|y l IH]; intros a Ha; [destruct Hin|].
  cbn [foldl]. destruct Hin as [->|Hin].
  - apply (foldl_preserves (fun a => Q a /\ P a)).
    + split; [apply HQ, Ha | apply Hx, Ha].
    + intros a' y [HQa HPa]. split; [apply HQ, HQa | apply HP; assumption].
  - apply IH; [exact Hin | apply HQ, Ha].
Qed.

Lemma flag_set_insert_mono (l : list Z) i j : flag_set l i -> flag_set (<[j := 1]> l) i.
Proof.
  unfold flag_set. intros H. rewrite list_lookup_total_insert.
  destruct (decide _); [lia | exact H].
Qed.

Lemma flag_set_insert_hit (l : list Z) i : (i < length l)%nat -> flag_set (<[i := 1]> l) i.
Proof.
  unfold flag_set. intros H. rewrite list_lookup_total_insert_eq by exact H. lia.
Qed.

Lemma mark_rows_mono raw Column rg i : flag_set rg i -> flag_set (mark_rows raw Column rg) i.
Proof.
  intros H. unfold mark_rows.
  apply (foldl_preserves (fun l => flag_set l i)); [exact H|].
  intros a k Ha. destruct (truthy _); [apply flag_set_insert_mono|]; exact Ha.
Qed.

Lemma mark_rows_hit raw Column rg i :
  (i < MATRIX_ROWS)%nat -> length rg = MATRIX_ROWS -> cell raw i Column <> 0 ->
  flag_set (mark_rows raw Column rg) i.
Proof.
  intros Hi Hlen Hp. unfold mark_rows.
  apply (foldl_establish (fun l => length l = MATRIX_ROWS) (fun l => flag_set l i)
           _ _ i).
  - apply in_seq. lia.
  - exact Hlen.
  - intros a k Ha. destruct (truthy _); [rewrite length_insert|]; exact Ha.
  - intros a Ha. unfold truthy. destruct (Z.eqb_spec (cell raw i Column) 0); [contradiction|].
    cbn [negb]. apply flag_set_insert_hit. rewrite Ha. exact Hi.
  - intros a k _ Ha. destruct (truthy _); [apply flag_set_insert_mono|]; exact Ha.
Qed.

Lemma mark_columns_mono raw Row cg j : flag_set cg j -> flag_set (mark_columns raw Row cg) j.
Proof.
  intros H. unfold mark_columns.
  apply (foldl_preserves (fun l => flag_set l j)); [exact H|].
  intros a k Ha. destruct (IS_GHOST_FREE_COLUMN k); [exact Ha|].
  destruct (truthy _); [apply flag_set_insert_mono|]; exact Ha.
Qed.

Lemma mark_columns_hit raw Row cg j :
  (j < MATRIX_COLUMNS)%nat -> length cg = MATRIX_COLUMNS ->
  IS_GHOST_FREE_COLUMN j = false -> cell raw Row j <> 0 ->
  flag_set (mark_columns raw Row cg) j.
Proof.
  intros Hj Hlen Hgf Hp. unfold mark_columns.
  apply (foldl_establish (fun l => length l = MATRIX_COLUMNS) (fun l => flag_set l j)
           _ _ j).
  - apply in_seq. lia.
  - exact Hlen.
  - intros a k Ha. destruct (IS_GHOST_FREE_COLUMN k); [exact Ha|].
    destruct (truthy _); [rewrite length_insert|]; exact Ha.
  - intros a Ha. rewrite Hgf. unfold truthy.
    destruct (Z.eqb_spec (cell raw Row j) 0); [contradiction|].
    cbn [negb]. apply flag_set_insert_hit. rewrite Ha. exact Hj.
  - intros a k _ Ha. destruct (IS_GHOST_FREE_COLUMN k); [exact Ha|].
    destruct (truthy _); [apply flag_set_insert_mono|]; exact Ha.
Qed.

Lemma ghost_cell_sized raw tr tc Row Column g :
  flags_sized g -> flags_sized (ghost_cell raw tr tc Row Column g).
Proof.
  intros [Hr Hc]. unfold ghost_cell.
  destruct (IS_GHOST_FREE_COLUMN Column); [split; assumption|].
  destruct (is_corner _ _ _ _ _); [|split; assumption].
  split; cbn [fst snd]; [rewrite mark_rows_length | rewrite mark_columns_length]; assumption.
Qed.

Lemma ghost_row_sized raw tr tc g Row :
  flags_sized g -> flags_sized (ghost_row raw tr tc g Row).
Proof.
  intros H. unfold ghost_row. apply foldl_preserves; [exact H|].
  intros a c Ha. apply ghost_cell_sized, Ha.
Qed.

(** Flags are only ever set. *)
Lemma ghost_cell_mono raw tr tc Row Column g i j :
  (flag_set (fst g) i -> flag_set (fst (ghost_cell raw tr tc Row Column g)) i)
  /\ (flag_set (snd g) j -> flag_set (snd (ghost_cell raw tr tc Row Column g)) j).
Proof.
  unfold ghost_cell.
  destruct (IS_GHOST_FREE_COLUMN Column); [split; trivial|].
  destruct (is_corner _ _ _ _ _); [|split; trivial].
  cbn [fst snd]. split; [apply mark_rows_mono | apply mark_columns_mono].
Qed.

(** What a corner at [(r1, c2)] does to the presses [(r1, c1)], [(r1, c2)]
    and [(r2, c2)]: both rows and both columns end up flagged. *)
Section Corner.

Variables (raw : list (list Z)) (tr tc : list Z) (r1 r2 c1 c2 : nat).
Hypothesis Hr1 : (r1 < MATRIX_ROWS)%nat.
Hypothesis Hr2 : (r2 < MATRIX_ROWS)%nat.
Hypothesis Hc1 : (c1 < MATRIX_COLUMNS)%nat.
Hypothesis Hc2 : (c2 < MATRIX_COLUMNS)%nat.
Hypothesis Hp11 : cell raw r1 c1 <> 0.
Hypothesis Hp12 : cell raw r1 c2 <> 0.
Hypothesis Hp22 : cell raw r2 c2 <> 0.
Hypothesis Hgf1 : IS_GHOST_FREE_COLUMN c1 = false.
Hypothesis Hgf2 : IS_GHOST_FREE_COLUMN c2 = false.
Hypothesis Hrow : 2 <= tr !!! r1.
Hypothesis Hcol : 2 <= tc !!! c2.

Local Abbreviation all_flagged := (all_flagged r1 r2 c1 c2).

Lemma ghost_cell_keeps_flagged Row Column g :
  all_flagged g -> all_flagged (ghost_cell raw tr tc Row Column g).
Proof.
  intros (H1 & H2 & H3 & H4). unfold all_flagged.
  pose proof (ghost_cell_mono raw tr tc Row Column g r1 c1) as [M1 M3].
  pose proof (ghost_cell_mono raw tr tc Row Column g r2 c2) as [M2 M4].
  auto.
Qed.

Lemma ghost_cell_corner g :
  flags_sized g -> all_flagged (ghost_cell raw tr tc r1 c2 g).
Proof.
  intros [Hlr Hlc]. unfold ghost_cell. rewrite Hgf2.
  assert (Hcorner : is_corner raw tr tc r1 c2 = true).
  { unfold is_corner, truthy.
    destruct (Z.eqb_spec (cell raw r1 c2) 0); [contradiction|].
    destruct (Z.leb_spec 2 (tr !!! r1)); [|lia].
    destruct (Z.leb_spec 2 (tc !!! c2)); [reflexivity | lia]. }
  rewrite Hcorner. unfold all_flagged. cbn [fst snd].
  repeat split.
  - apply mark_rows_hit; assumption.
  - apply mark_rows_hit; assumption.
  - apply mark_columns_hit; assumption.
  - apply mark_columns_hit; assumption.
Qed.

Lemma ghost_row_keeps_flagged g Row :
  all_flagged g -> all_flagged (ghost_row raw tr tc g Row).
Proof.
  intros H. unfold ghost_row. apply foldl_preserves; [exact H|].
  intros a c Ha. apply ghost_cell_keeps_flagged, Ha.
Qed.

Lemma ghost_row_corner g :
  flags_sized g -> all_flagged (ghost_row raw tr tc g r1).
Proof.
  intros Hg. unfold ghost_row.
  apply (foldl_establish flags_sized all_flagged _ _ c2).
  - apply in_seq. lia.
  - exact Hg.
  - intros a c Ha. apply ghost_cell_sized, Ha.
  - intros a Ha. apply ghost_cell_corner, Ha.
  - intros a c _ Ha. apply ghost_cell_keeps_flagged, Ha.
Qed.

Lemma ghost_flags_corner : all_flagged (ghost_flags raw tr tc).
Proof.
  unfold ghost_flags.
  apply (foldl_establish flags_sized all_flagged _ _ r1).
  - apply in_seq. lia.
  - split; apply length_replicate.
  - intros a r Ha. apply ghost_row_sized, Ha.
  - intros a Ha. apply ghost_row_corner, Ha.
  - intros a r _ Ha. apply ghost_row_keeps_flagged, Ha.
Qed.

End Corner.

(** Without a press outside the ghost-free columns no flag is set. *)
Lemma ghost_flags_none raw tr tc :
  (forall r c, (r < MATRIX_ROWS)%nat -> (c < MATRIX_COLUMNS)%nat ->
               IS_GHOST_FREE_COLUMN c = false -> cell raw r c = 0) ->
  ghost_flags raw tr tc = (replicate MATRIX_ROWS 0, replicate MATRIX_COLUMNS 0).
Proof.
  intros H. unfold ghost_flags. apply foldl_id.
  intros g Row HRow. apply in_seq in HRow. unfold ghost_row. apply foldl_id.
  intros g' Column HColumn. apply in_seq in HColumn. unfold ghost_cell.
  destruct (IS_GHOST_FREE_COLUMN Column) eqn:Hgf; [reflexivity|].
  unfold is_corner, truthy. rewrite (H Row Column) by (lia || exact Hgf).
  reflexivity.
Qed.

Lemma popcount_two (l : list Z) i j :
  i <> j -> (i < length l)%nat -> (j < length l)%nat ->
  l !!! i <> 0 -> l !!! j <> 0 -> 2 <= popcount l.
Proof.
  intros Hne Hi Hj Hpi Hpj.
  pose proof (popcount_insert l i 0 Hi) as H1.
  pose proof (popcount_insert (<[i := 0]> l) j 0) as H2.
  rewrite length_insert in H2. specialize (H2 Hj).
  rewrite list_lookup_total_insert_ne in H2 by exact Hne.
  pose proof (popcount_bounds (<[j := 0]> (<[i := 0]> l))) as Hb.
  unfold bit_of, truthy in H1, H2.
  destruct (Z.eqb_spec (l !!! i) 0); [contradiction|].
  destruct (Z.eqb_spec (l !!! j) 0); [contradiction|].
  cbn in H1, H2. lia.
Qed.

(** C2.  In a raw state with exactly the three presses [(r1, c1)],
    [(r1, c2)], [(r2, c2)] and exact counts, [CheckForGhosts] marks
    [(r1, c1)] and [(r2, c2)] as ghosted when neither column is ghost-free,
    and sets no row flag and no column flag when both columns are. *)
Theorem ghost_symmetry (st : matrix_state) (r1 r2 c1 c2 : nat) :
  matrix_wf st -> counts_exact st ->
  (r1 < MATRIX_ROWS)%nat -> (r2 < MATRIX_ROWS)%nat ->
  (c1 < MATRIX_COLUMNS)%nat -> (c2 < MATRIX_COLUMNS)%nat ->
  r1 <> r2 -> c1 <> c2 ->
  pressed_exactly (RawSwitchPressed st) [(r1, c1); (r1, c2); (r2, c2)] ->
  (IS_GHOST_FREE_COLUMN c1 = false -> IS_GHOST_FREE_COLUMN c2 = false ->
     ghosted (CheckForGhosts st) r1 c1 /\ ghosted (CheckForGhosts st) r2 c2)
  /\ (IS_GHOST_FREE_COLUMN c1 = true -> IS_GHOST_FREE_COLUMN c2 = true ->
        RowHasGhost (CheckForGhosts st) = replicate MATRIX_ROWS 0
        /\ ColumnHasGhost (CheckForGhosts st) = replicate MATRIX_COLUMNS 0).
Proof.
  intros Hwf [Hrow Hcol] Hr1 Hr2 Hc1 Hc2 Hr Hc Hp.
  assert (Hp11 : cell (RawSwitchPressed st) r1 c1 <> 0)
    by (apply Hp; [assumption..|left; reflexivity]).
  assert (Hp12 : cell (RawSwitchPressed st) r1 c2 <> 0)
    by (apply Hp; [assumption..|right; left; reflexivity]).
  assert (Hp22 : cell (RawSwitchPressed st) r2 c2 <> 0)
    by (apply Hp; [assumption..|right; right; left; reflexivity]).
  split.
  - intros Hgf1 Hgf2.
    assert (Htr : 2 <= TotalInRow st !!! r1).
    { rewrite (Hrow r1 Hr1).
      apply (popcount_two _ c1 c2); try assumption;
        rewrite (wf_row_length st r1 Hwf Hr1); assumption. }
    assert (Htc : 2 <= TotalInColumn st !!! c2).
    { rewrite (Hcol c2 Hc2).
      apply (popcount_two _ r1 r2); try assumption;
        rewrite ?column_length, ?(wf_raw_rows _ Hwf); try assumption;
        rewrite column_lookup by (rewrite (wf_raw_rows _ Hwf); assumption);
        assumption. }
    destruct (ghost_flags_corner (RawSwitchPressed st) (TotalInRow st) (TotalInColumn st)
                r1 r2 c1 c2 Hr1 Hr2 Hc1 Hc2 Hp11 Hp12 Hp22 Hgf1 Hgf2 Htr Htc)
      as (F1 & F2 & F3 & F4).
    unfold ghosted. state_simpl. split; left; assumption.
  - intros Hgf1 Hgf2. state_simpl.
    rewrite ghost_flags_none; [split; reflexivity|].
    intros r c Hr' Hc' Hgf.
    destruct (Z.eq_dec (cell (RawSwitchPressed st) r c) 0) as [E|E]; [exact E|].
    apply Hp in E; [|assumption..].
    destruct E as [E|[E|[E|[]]]]; injection E as <- <-; congruence.
Qed.

Lemma three_presses_ok c1 c2 :
  matrix_wf (three_presses c1 c2) /\ counts_exact (three_presses c1 c2).
Proof.
  split.
  - unfold three_presses. apply KeyboardScanMatrix_wf. apply matrix_reset_wf.
  - unfold three_presses, KeyboardScanMatrix.
    generalize matrix_reset matrix_reset_wf matrix_reset_counts.
    intros st Hwf Hex.
    apply (foldl_preserves (fun s => matrix_wf (fst s) /\ counts_exact (fst s))).
    + split; assumption.
    + intros s i [Hw He]. apply scan_row_counts; assumption.
Qed.

Ltac three_presses_cell :=
  vm_compute;
  split;
  [ intros H; first [ exfalso; apply H; reflexivity | auto 6 ]
  | intros H; first [ intros E; discriminate E
                    | decompose [or] H; first [discriminate | contradiction] ] ].

Lemma three_presses_0_2 :
  pressed_exactly (RawSwitchPressed (three_presses 0 2)) [(0, 0); (0, 2); (1, 2)]%nat.
Proof.
  intros r c Hr Hc. unfold MATRIX_ROWS in Hr. unfold MATRIX_COLUMNS in Hc.
  do 8 (destruct r as [|r];
        [do 16 (destruct c as [|c]; [three_presses_cell|]); lia|]).
  lia.
Qed.

Lemma three_presses_9_12 :
  pressed_exactly (RawSwitchPressed (three_presses 9 12)) [(0, 9); (0, 12); (1, 12)]%nat.
Proof.
  intros r c Hr Hc. unfold MATRIX_ROWS in Hr. unfold MATRIX_COLUMNS in Hc.
  do 8 (destruct r as [|r];
        [do 16 (destruct c as [|c]; [three_presses_cell|]); lia|]).
  lia.
Qed.

Lemma ghost_symmetry_witness :
  (ghosted (CheckForGhosts (three_presses 0 2)) 0 0
   /\ ghosted (CheckForGhosts (three_presses 0 2)) 1 2)
  /\ (RowHasGhost (CheckForGhosts (three_presses 9 12)) = replicate MATRIX_ROWS 0
      /\ ColumnHasGhost (CheckForGhosts (three_presses 9 12)) = replicate MATRIX_COLUMNS 0).
Proof.
  split.
  - destruct (three_presses_ok 0 2) as [Hwf Hex].
    apply (ghost_symmetry (three_presses 0 2) 0 1 0 2 Hwf Hex);
      try (unfold MATRIX_ROWS, MATRIX_COLUMNS; lia);
      first [apply three_presses_0_2 | reflexivity].
  - destruct (three_presses_ok 9 12) as [Hwf Hex].
    apply (ghost_symmetry (three_presses 9 12) 0 1 9 12 Hwf Hex);
      try (unfold MATRIX_ROWS, MATRIX_COLUMNS; lia);
      first [apply three_presses_9_12 | reflexivity].
Defined.

(** ** A sweep over held keys *)

Lemma foldl_seq_inv {A : Type} (P : nat -> A -> Prop) (f : A -> nat -> A) (n : nat) (a : A) :
  P 0%nat a ->
  (forall i a, (i < n)%nat -> P i a -> P (S i) (f a i)) ->
  P n (foldl f a (seq 0 n)).
Proof.
  intros H0 Hstep. induction n as [|n IH]; [exact H0|].
  rewrite seq_S, foldl_snoc. cbn [Nat.add]. apply Hstep; [lia|].
  apply IH. intros i a' Hi. apply Hstep. lia.
Qed.

Lemma popcount_zero (l : list Z) :
  (forall i, (i < length l)%nat -> l !!! i = 0) -> popcount l = 0.
Proof.
  induction l as [|x l IH]; intros H; cbn [popcount]; [reflexivity|].
  pose proof (H 0%nat ltac:(cbn; lia)) as H0. cbn in H0. subst x.
  rewrite IH; [reflexivity|]. intros i Hi. apply (H (S i)). cbn. lia.
Qed.

(** An array with at most one set entry counts at most one. *)
Lemma popcount_le_one (l : list Z) :
  (forall i j, (i < length l)%nat -> (j < length l)%nat ->
               l !!! i <> 0 -> l !!! j <> 0 -> i = j) ->
  popcount l <= 1.
Proof.
  induction l as [|x l IH]; intros H; cbn [popcount]; [lia|].
  unfold truthy. destruct (Z.eqb_spec x 0) as [->|Hx]; cbn [negb].
  - assert (popcount l <= 1); [|lia].
    apply IH. intros i j Hi Hj Hpi Hpj.
    assert (S i = S j); [|lia].
    apply H; cbn [length]; try lia; assumption.
  - rewrite popcount_zero; [lia|].
    intros i Hi. destruct (Z.eq_dec (l !!! i) 0) as [E|E]; [exact E|].
    assert (0%nat = S i); [|lia].
    apply H; cbn [length]; try lia; assumption.
Qed.

Lemma cell_set_cell a r c v r' c' :
  (r < length a)%nat -> (c < length (a !!! r))%nat ->
  cell (set_cell a r c v) r' c'
  = if decide (r = r' /\ c = c') then v else cell a r' c'.
Proof.
  intros Hr Hc. unfold cell. rewrite set_cell_row by exact Hr.
  destruct (decide (r = r')) as [<-|Hne].
  - destruct (decide (c = c')) as [<-|Hne'].
    + rewrite list_lookup_total_insert_eq by exact Hc.
      destruct (decide _) as [_|N]; [reflexivity | exfalso; apply N; split; reflexivity].
    + rewrite list_lookup_total_insert_ne by exact Hne'.
      destruct (decide _) as [[_ E]|_]; [contradiction | reflexivity].
  - destruct (decide _) as [[E _]|_]; [contradiction | reflexivity].
Qed.

Lemma update_raw_raw sp c st :
  RawSwitchPressed (fst (update_raw sp c st))
  = set_cell (RawSwitchPressed st) (CurrentRow st) c sp.
Proof.
  unfold update_raw.
  destruct (negb _ && truthy sp); destruct (_ && negb (truthy sp)); reflexivity.
Qed.

Lemma update_raw_ghosts sp c st :
  RowHasGhost (fst (update_raw sp c st)) = RowHasGhost st
  /\ ColumnHasGhost (fst (update_raw sp c st)) = ColumnHasGhost st.
Proof.
  unfold update_raw.
  destruct (negb _ && truthy sp); destruct (_ && negb (truthy sp)); split; reflexivity.
Qed.

(** Without a corner no flag is set. *)
Lemma ghost_flags_no_corner raw tr tc :
  (forall r c, (r < MATRIX_ROWS)%nat -> (c < MATRIX_COLUMNS)%nat ->
               IS_GHOST_FREE_COLUMN c = false -> is_corner raw tr tc r c = false) ->
  ghost_flags raw tr tc = (replicate MATRIX_ROWS 0, replicate MATRIX_COLUMNS 0).
Proof.
  intros H. unfold ghost_flags. apply foldl_id.
  intros g Row HRow. apply in_seq in HRow. unfold ghost_row. apply foldl_id.
  intros g' Column HColumn. apply in_seq in HColumn. unfold ghost_cell.
  destruct (IS_GHOST_FREE_COLUMN Column) eqn:Hgf; [reflexivity|].
  rewrite (H Row Column) by (lia || exact Hgf). reflexivity.
Qed.

Section Sweep.

Variable sw : nat -> nat -> bool.

(** No two closed switches share a column outside the ghost-free ones. *)
Hypothesis sw_columns :
  forall r r' c, (r < MATRIX_ROWS)%nat -> (r' < MATRIX_ROWS)%nat ->
                 (c < MATRIX_COLUMNS)%nat -> IS_GHOST_FREE_COLUMN c = false ->
                 sw r c = true -> sw r' c = true -> r = r'.

Local Abbreviation sweep_inv := (sweep_inv sw).
Local Abbreviation registered := (registered sw).

Lemma no_corner st :
  matrix_wf st -> counts_exact st ->
  (forall r c, (r < MATRIX_ROWS)%nat -> (c < MATRIX_COLUMNS)%nat ->
               cell (RawSwitchPressed st) r c <> 0 -> sw r c = true) ->
  ghost_flags (RawSwitchPressed st) (TotalInRow st) (TotalInColumn st)
  = (replicate MATRIX_ROWS 0, replicate MATRIX_COLUMNS 0).
Proof.
  intros Hwf [_ Hcol] Hraw. apply ghost_flags_no_corner.
  intros r c Hr Hc Hgf. unfold is_corner.
  assert (Hle : TotalInColumn st !!! c <= 1).
  { rewrite (Hcol c Hc). apply popcount_le_one.
    rewrite column_length, (wf_raw_rows _ Hwf).
    intros i j Hi Hj. rewrite !column_lookup by (rewrite (wf_raw_rows _ Hwf); assumption).
    intros Hpi Hpj. apply (sw_columns i j c); try assumption; apply Hraw; assumption. }
  destruct (Z.leb_spec 2 (TotalInColumn st !!! c)); [lia|].
  rewrite andb_false_r. reflexivity.
Qed.

(** With the keys held and no ghost about, one iteration of the column
    loop writes the level of its switch into [KeyPressed]. *)
Lemma scan_cell_held st ScanCode R C :
  sweep_inv st -> CurrentRow st = R -> (C < MATRIX_COLUMNS)%nat ->
  sweep_inv (fst (scan_cell (level sw R C) ScanCode C st))
  /\ KeyPressed (fst (scan_cell (level sw R C) ScanCode C st))
     = <[Z.to_nat (cell KeyboardMatrix R C) := if sw R C then 1 else 0]> (KeyPressed st).
Proof.
  intros [Hwf Hex Hraw Hrg Hcg] HR HC.
  pose proof (wf_current _ Hwf) as HRlt. rewrite HR in HRlt.
  unfold scan_cell. rewrite switch_pressed_pin.
  assert (Hsp : (if level sw R C =? 0 then 1 else 0) = if sw R C then 1 else 0).
  { unfold level. destruct (sw R C); reflexivity. }
  rewrite Hsp. clear Hsp. set (sp := if sw R C then 1 else 0).
  assert (Hsp : sp <> 0 -> sw R C = true).
  { unfold sp. destruct (sw R C); [reflexivity | lia]. }
  unfold scan_cell_body.
  pose proof (update_raw_wf sp C st Hwf) as Hwf1.
  pose proof (update_raw_counts sp C st Hwf HC Hex) as Hex1.
  pose proof (update_raw_raw sp C st) as Hraw1.
  pose proof (update_raw_ghosts sp C st) as [Hrg1 Hcg1].
  pose proof (update_raw_KeyPressed sp C st) as Hkp1.
  pose proof (update_raw_CurrentRow sp C st) as Hcr1.
  destruct (update_raw sp C st) as [st1 ch]. cbn [fst] in *.
  rewrite HR in Hraw1, Hcr1.
  assert (Hsub1 : forall r c, (r < MATRIX_ROWS)%nat -> (c < MATRIX_COLUMNS)%nat ->
                              cell (RawSwitchPressed st1) r c <> 0 -> sw r c = true).
  { intros r c Hr Hc. rewrite Hraw1.
    rewrite cell_set_cell
      by (rewrite ?(wf_raw_rows _ Hwf), ?(wf_row_length st R Hwf HRlt); assumption).
    destruct (decide _) as [[<- <-]|_]; [exact Hsp | apply Hraw; assumption]. }
  set (st2 := if truthy ch then CheckForGhosts st1 else st1).
  assert (H2 : matrix_wf st2 /\ counts_exact st2
               /\ RawSwitchPressed st2 = RawSwitchPressed st1
               /\ RowHasGhost st2 = replicate MATRIX_ROWS 0
               /\ ColumnHasGhost st2 = replicate MATRIX_COLUMNS 0
               /\ KeyPressed st2 = KeyPressed st /\ CurrentRow st2 = R).
  { unfold st2. destruct (truthy ch).
    - split; [apply CheckForGhosts_wf, Hwf1|]. split; [exact Hex1|].
      split; [reflexivity|]. state_simpl.
      rewrite (no_corner st1 Hwf1 Hex1 Hsub1). cbn [fst snd].
      exact (conj eq_refl (conj eq_refl (conj Hkp1 Hcr1))).
    - rewrite Hrg1, Hcg1.
      exact (conj Hwf1 (conj Hex1 (conj eq_refl (conj Hrg (conj Hcg (conj Hkp1 Hcr1)))))). }
  destruct H2 as (Hwf2 & Hex2 & Hraw2 & Hrg2 & Hcg2 & Hkp2 & Hcr2).
  clearbody st2.
  assert (Hcooked : update_cooked sp C st2
                    = (set_KeyPressed
                         (<[Z.to_nat (cell KeyboardMatrix R C) := sp]> (KeyPressed st2)) st2,
                       cell KeyboardMatrix R C)).
  { unfold update_cooked. rewrite Hcr2, Hrg2, Hcg2.
    rewrite !lookup_total_replicate_2 by assumption.
    change (truthy 0) with false. cbn [negb andb]. rewrite orb_true_r. reflexivity. }
  rewrite Hcooked. cbn [fst]. split.
  - constructor; state_simpl; try assumption.
    + destruct Hwf2 as [W1 W2 W3 W4 W5 W6 W7 W8].
      constructor; state_simpl; rewrite ?length_insert; assumption.
    + rewrite Hraw2. exact Hsub1.
  - state_simpl. rewrite Hkp2. reflexivity.
Qed.

Lemma registered_weaken (D D' : nat -> nat -> Prop) kp :
  (forall r c, (r < MATRIX_ROWS)%nat -> (c < MATRIX_COLUMNS)%nat -> D' r c -> D r c) ->
  registered D kp -> registered D' kp.
Proof. intros H Hreg r c HD Hr Hc. apply Hreg; [apply H|..]; assumption. Qed.

(** The write for the cell [(R, C)] registers that cell and undoes no
    other: a scan code of its own is written by its own cell only. *)
Lemma registered_write (D : nat -> nat -> Prop) kp R C :
  length kp = 256%nat -> (R < MATRIX_ROWS)%nat -> (C < MATRIX_COLUMNS)%nat ->
  registered D kp ->
  registered (fun r c => D r c \/ (r = R /\ c = C))
    (<[Z.to_nat (cell KeyboardMatrix R C) := if sw R C then 1 else 0]> kp).
Proof.
  intros Hlen HR HC Hreg r c HD Hr Hc Hsw Hu.
  pose proof (KeyboardMatrix_range r c Hr Hc) as Hrange.
  pose proof (KeyboardMatrix_range R C HR HC) as HrangeRC.
  destruct (decide (r = R /\ c = C)) as [[-> ->]|Hne].
  - rewrite list_lookup_total_insert_eq by (rewrite Hlen; lia).
    rewrite Hsw. reflexivity.
  - rewrite list_lookup_total_insert_ne.
    + destruct HD as [HD|HD]; [|contradiction]. apply Hreg; assumption.
    + intros E. apply Z2Nat.inj in E; [|lia..].
      apply Hne. destruct (Hu R C HR HC E) as [-> ->]. split; reflexivity.
Qed.

Lemma scan_columns_held s pins R (D : nat -> nat -> Prop) :
  sweep_inv (fst s) -> CurrentRow (fst s) = R ->
  registered D (KeyPressed (fst s)) ->
  (forall c, (c < MATRIX_COLUMNS)%nat -> pins c = level sw R c) ->
  sweep_inv (fst (scan_columns pins (seq 0 MATRIX_COLUMNS) s))
  /\ CurrentRow (fst (scan_columns pins (seq 0 MATRIX_COLUMNS) s)) = R
  /\ registered (fun r c => D r c \/ r = R)
       (KeyPressed (fst (scan_columns pins (seq 0 MATRIX_COLUMNS) s))).
Proof.
  intros Hinv HR Hreg Hpins.
  cut (sweep_inv (fst (scan_columns pins (seq 0 MATRIX_COLUMNS) s))
       /\ CurrentRow (fst (scan_columns pins (seq 0 MATRIX_COLUMNS) s)) = R
       /\ registered (fun r c => D r c \/ (r = R /\ (c < MATRIX_COLUMNS)%nat))
            (KeyPressed (fst (scan_columns pins (seq 0 MATRIX_COLUMNS) s)))).
  { intros (I & Rr & Dd). refine (conj I (conj Rr _)).
    revert Dd. apply registered_weaken. intros r c _ Hc [H|H]; auto. }
  unfold scan_columns.
  apply (foldl_seq_inv
           (fun C s => sweep_inv (fst s) /\ CurrentRow (fst s) = R
                       /\ registered (fun r c => D r c \/ (r = R /\ (c < C)%nat))
                            (KeyPressed (fst s)))).
  - refine (conj Hinv (conj HR _)). revert Hreg. apply registered_weaken.
    intros r c _ _ [H|[_ H]]; [exact H | lia].
  - intros C a HC (Ia & Ra & Da). rewrite (Hpins C HC).
    destruct (scan_cell_held (fst a) (snd a) R C Ia Ra HC) as [I' K'].
    refine (conj I' (conj _ _)).
    + rewrite scan_cell_CurrentRow. exact Ra.
    + rewrite K'.
      pose proof (wf_current _ (si_wf _ _ Ia)) as HRlt. rewrite Ra in HRlt.
      pose proof (registered_write _ _ R C (wf_key _ (si_wf _ _ Ia)) HRlt HC Da) as W.
      revert W. apply registered_weaken.
      intros r c _ _ [H|[-> H]]; [left; left; exact H|].
      destruct (decide (c = C)) as [->|Hne];
        [right; split; reflexivity | left; right; split; [reflexivity | lia]].
Qed.

Lemma next_row_held st R :
  sweep_inv st -> CurrentRow st = R ->
  sweep_inv (next_row st)
  /\ CurrentRow (next_row st) = (if (MATRIX_ROWS <=? S R)%nat then 0 else S R)%nat
  /\ KeyPressed (next_row st) = KeyPressed st.
Proof.
  intros [Hwf Hex Hraw Hrg Hcg] HR. split; [|split].
  - constructor; [apply next_row_wf, Hwf | apply next_row_counts, Hex | exact Hraw
                 | exact Hrg | exact Hcg].
  - unfold next_row. state_simpl. rewrite HR. reflexivity.
  - reflexivity.
Qed.

Lemma scan_row_held s pins R (D : nat -> nat -> Prop) :
  sweep_inv (fst s) -> CurrentRow (fst s) = R ->
  registered D (KeyPressed (fst s)) ->
  (forall c, (c < MATRIX_COLUMNS)%nat -> pins c = level sw R c) ->
  sweep_inv (fst (scan_row pins s))
  /\ CurrentRow (fst (scan_row pins s)) = (if (MATRIX_ROWS <=? S R)%nat then 0 else S R)%nat
  /\ registered (fun r c => D r c \/ r = R) (KeyPressed (fst (scan_row pins s))).
Proof.
  intros Hinv HR Hreg Hpins.
  destruct (scan_columns_held s pins R D Hinv HR Hreg Hpins) as (I & Rr & Dd).
  unfold scan_row. cbn [fst].
  destruct (next_row_held _ R I Rr) as (I' & R' & K').
  rewrite K'. exact (conj I' (conj R' Dd)).
Qed.

(** One call scans the rows [R0] and [R0 + 1]. *)
Lemma KeyboardScanMatrix_held st ScanCode0 R0 (D : nat -> nat -> Prop) :
  sweep_inv st -> CurrentRow st = R0 -> (R0 + 2 <= MATRIX_ROWS)%nat ->
  registered D (KeyPressed st) ->
  let st' := KeyboardScanMatrix ScanCode0 (pins_of sw st) st in
  sweep_inv st'
  /\ CurrentRow st' = (if (MATRIX_ROWS <=? R0 + 2)%nat then 0 else R0 + 2)%nat
  /\ registered (fun r c => D r c \/ r = R0 \/ r = S R0) (KeyPressed st').
Proof.
  intros Hinv HR HR0 Hreg. cbv zeta.
  unfold KeyboardScanMatrix, ROWS_PER_REPORT. cbn [seq foldl].
  unfold MATRIX_ROWS in HR0.
  destruct (scan_row_held (st, ScanCode0) (pins_of sw st 0) R0 D) as (I1 & R1 & D1);
    try assumption.
  { intros c _. unfold pins_of. rewrite HR, Nat.add_0_r.
    rewrite Nat.mod_small by (unfold MATRIX_ROWS; lia). reflexivity. }
  set (s1 := scan_row (pins_of sw st 0) (st, ScanCode0)) in *.
  assert (R1' : CurrentRow (fst s1) = S R0).
  { rewrite R1. unfold MATRIX_ROWS.
    destruct (Nat.leb_spec 8 (S R0)); [lia | reflexivity]. }
  destruct (scan_row_held s1 (pins_of sw st 1) (S R0) _ I1 R1' D1) as (I2 & R2 & D2).
  { intros c _. unfold pins_of. rewrite HR.
    rewrite Nat.mod_small by (unfold MATRIX_ROWS; lia).
    replace (R0 + 1)%nat with (S R0) by lia. reflexivity. }
  replace (R0 + 2)%nat with (S (S R0)) by lia.
  refine (conj I2 (conj R2 _)). revert D2. apply registered_weaken.
  intros r c _ _ [H|[H|H]]; auto.
Qed.

End Sweep.

Lemma task_holding_polling sw ScanCode0 fs :
  KeyboardSuppressPolling fs = 0 ->
  let m := KeyboardScanMatrix ScanCode0 (pins_of sw (matrix fs)) (matrix fs) in
  matrix (fst (task_holding sw ScanCode0 fs)) = m
  /\ KeyboardSuppressPolling (fst (task_holding sw ScanCode0 fs)) = 0
  /\ snd (task_holding sw ScanCode0 fs) = Some (build_keyboard_report (KeyPressed m)).
Proof.
  intros H. cbv zeta. unfold task_holding, Keyboard_HID_Task.
  rewrite H. change (0 =? 0) with true. cbv iota. cbn [negb fst snd matrix
    KeyboardSuppressPolling KeyboardReportData].
  split; [reflexivity|]. split; reflexivity.
Qed.

Section SweepReport.

Variable sw : nat -> nat -> bool.
Hypothesis sw_columns :
  forall r r' c, (r < MATRIX_ROWS)%nat -> (r' < MATRIX_ROWS)%nat ->
                 (c < MATRIX_COLUMNS)%nat -> IS_GHOST_FREE_COLUMN c = false ->
                 sw r c = true -> sw r' c = true -> r = r'.

(** One invocation takes the invariant from [k] to [k + 1] and writes the
    report built from the state it leaves. *)
Lemma task_holding_inv ScanCode0 k fs :
  tasks_inv sw k fs ->
  tasks_inv sw (S k) (fst (task_holding sw ScanCode0 fs))
  /\ snd (task_holding sw ScanCode0 fs)
     = Some (build_keyboard_report
               (KeyPressed (matrix (fst (task_holding sw ScanCode0 fs))))).
Proof.
  intros (Hk & Hinv & Hprog).
  destruct (task_holding_polling sw ScanCode0 fs Hk) as (Hm & Hk' & Hrep).
  cbv zeta in Hm, Hrep. rewrite <- Hm in Hrep. split; [|exact Hrep].
  unfold tasks_inv. rewrite Hm. split; [exact Hk'|].
  destruct Hprog as [(Hlt & HR & Hreg)|(Hge & (j & Hj & HR) & Hreg)].
  - destruct (KeyboardScanMatrix_held sw sw_columns (matrix fs) ScanCode0 (2 * k) _
                Hinv HR ltac:(unfold MATRIX_ROWS; lia) Hreg) as (I & R & D).
    split; [exact I|]. unfold MATRIX_ROWS in R.
    destruct (Nat.leb_spec 8 (2 * k + 2)) as [Hwrap|Hnowrap].
    + right. split; [lia|]. split; [exists 0%nat; split; [lia | exact R]|].
      revert D. apply registered_weaken. unfold MATRIX_ROWS. intros r c Hr _ _.
      assert (Hcase : (r < 2 * k \/ r = 2 * k \/ r = S (2 * k))%nat) by lia.
      exact Hcase.
    + left. split; [lia|]. split; [rewrite R; lia|].
      revert D. apply registered_weaken. intros r c _ _ Hr.
      assert (Hcase : (r < 2 * k \/ r = 2 * k \/ r = S (2 * k))%nat) by lia.
      exact Hcase.
  - destruct (KeyboardScanMatrix_held sw sw_columns (matrix fs) ScanCode0 (2 * j) _
                Hinv HR ltac:(unfold MATRIX_ROWS; lia) Hreg) as (I & R & D).
    split; [exact I|]. right. split; [lia|]. split.
    + unfold MATRIX_ROWS in R.
      destruct (Nat.leb_spec 8 (2 * j + 2)).
      * exists 0%nat. split; [lia | exact R].
      * exists (S j). split; [lia | rewrite R; lia].
    + revert D. apply registered_weaken. intros r c _ _ _. left. exact Logic.I.
Qed.

Lemma tasks_holding_inv junk n fs :
  tasks_inv sw 0 fs -> tasks_inv sw n (fst (tasks_holding sw junk n fs)).
Proof.
  intros H0. induction n as [|n IH]; [exact H0|].
  cbn [tasks_holding]. apply task_holding_inv, IH.
Qed.

(** From the fourth invocation on, every held key whose scan code is its
    own is registered in the state from which the report is built. *)
Lemma tasks_holding_registers junk n fs :
  tasks_inv sw 0 fs -> (4 <= n)%nat ->
  exists kp,
    snd (tasks_holding sw junk n fs) = Some (build_keyboard_report kp)
    /\ forall r c, (r < MATRIX_ROWS)%nat -> (c < MATRIX_COLUMNS)%nat ->
                   sw r c = true -> unique_code r c ->
                   kp !!! Z.to_nat (cell KeyboardMatrix r c) = 1.
Proof.
  intros H0 Hn. destruct n as [|n]; [lia|].
  pose proof (tasks_holding_inv junk (S n) fs H0) as Hinv.
  cbn [tasks_holding] in *.
  destruct (task_holding_inv (junk n) n _ (tasks_holding_inv junk n fs H0)) as [_ Hrep].
  eexists. split; [exact Hrep|].
  destruct Hinv as (_ & _ & [(Hlt & _)|(_ & _ & Hreg)]); [lia|].
  intros r c. apply Hreg. exact I.
Qed.

End SweepReport.

(** *** Left Shift and seven letters *)

Lemma closed_spec shift keys r c :
  closed shift keys r c = true <-> (c = 12%nat /\ shift r = true) \/ In (r, c) keys.
Proof.
  unfold closed. rewrite orb_true_iff, andb_true_iff, Nat.eqb_eq, existsb_exists.
  split; intros [H|H]; [left; exact H | right | left; exact H | right].
  - destruct H as ([r' c'] & Hin & Heq). cbn [fst snd] in Heq.
    apply andb_true_iff in Heq. destruct Heq as [E1 E2].
    apply Nat.eqb_eq in E1, E2. subst. exact Hin.
  - exists (r, c). split; [exact H|]. cbn [fst snd]. rewrite !Nat.eqb_refl. reflexivity.
Qed.

Lemma NoDup_snd_inj (l : list (nat * nat)) a b c :
  NoDup (snd <$> l) -> In (a, c) l -> In (b, c) l -> a = b.
Proof.
  induction l as [|[r' c'] l IH]; intros Hnd Ha Hb; [destruct Ha|].
  rewrite fmap_cons in Hnd. apply NoDup_cons in Hnd. destruct Hnd as [Hnin Hnd].
  cbn [snd] in Hnin.
  assert (Hin : forall x, In (x, c') l -> False).
  { intros x Hx. apply Hnin. apply list_elem_of_fmap. exists (x, c').
    split; [reflexivity | apply list_elem_of_In, Hx]. }
  destruct Ha as [Ha|Ha], Hb as [Hb|Hb].
  - congruence.
  - injection Ha as -> ->. destruct (Hin _ Hb).
  - injection Hb as -> ->. destruct (Hin _ Ha).
  - apply IH; assumption.
Qed.

Lemma closed_columns shift keys :
  NoDup (snd <$> keys) ->
  forall r r' c, (r < MATRIX_ROWS)%nat -> (r' < MATRIX_ROWS)%nat ->
                 (c < MATRIX_COLUMNS)%nat -> IS_GHOST_FREE_COLUMN c = false ->
                 closed shift keys r c = true -> closed shift keys r' c = true -> r = r'.
Proof.
  intros Hnd r r' c _ _ _ Hgf H1 H2.
  apply closed_spec in H1, H2.
  destruct H1 as [[-> _]|H1]; [discriminate Hgf|].
  destruct H2 as [[-> _]|H2]; [discriminate Hgf|].
  exact (NoDup_snd_inj keys r r' c Hnd H1 H2).
Qed.

(** Each letter has one cell of the matrix. *)
Lemma letter_unique r c :
  (r < MATRIX_ROWS)%nat -> (c < MATRIX_COLUMNS)%nat ->
  is_letter (cell KeyboardMatrix r c) = true -> unique_code r c.
Proof.
  intros Hr Hc Hl r' c' Hr' Hc' E.
  assert (Hall :
    forallb (fun r => forallb (fun c => forallb (fun r' => forallb (fun c' =>
      implb (is_letter (cell KeyboardMatrix r c)
             && (cell KeyboardMatrix r' c' =? cell KeyboardMatrix r c))
            ((r' =? r)%nat && (c' =? c)%nat))
      (seq 0 MATRIX_COLUMNS)) (seq 0 MATRIX_ROWS)) (seq 0 MATRIX_COLUMNS))
      (seq 0 MATRIX_ROWS) = true) by (vm_compute; reflexivity).
  rewrite forallb_forall in Hall. specialize (Hall r ltac:(apply in_seq; lia)).
  rewrite forallb_forall in Hall. specialize (Hall c ltac:(apply in_seq; lia)).
  rewrite forallb_forall in Hall. specialize (Hall r' ltac:(apply in_seq; lia)).
  rewrite forallb_forall in Hall. specialize (Hall c' ltac:(apply in_seq; lia)).
  rewrite Hl, E, Z.eqb_refl in Hall. cbn [andb implb] in Hall.
  apply andb_true_iff in Hall. destruct Hall as [E1 E2].
  apply Nat.eqb_eq in E1, E2. split; assumption.
Qed.

Lemma letter_not_modifier ScanCode :
  is_letter ScanCode = true ->
  is_modifier ScanCode = false /\ In ScanCode scan_codes.
Proof.
  unfold is_letter, HID_KEYBOARD_SC_A, HID_KEYBOARD_SC_Z. intros H.
  apply andb_true_iff in H. destruct H as [H1 H2].
  apply Z.leb_le in H1, H2. split.
  - unfold is_modifier, modifier_mask.
    unfold HID_KEYBOARD_SC_LEFT_CONTROL, HID_KEYBOARD_SC_LEFT_SHIFT,
      HID_KEYBOARD_SC_LEFT_ALT, HID_KEYBOARD_SC_LEFT_GUI,
      HID_KEYBOARD_SC_RIGHT_CONTROL, HID_KEYBOARD_SC_RIGHT_SHIFT,
      HID_KEYBOARD_SC_RIGHT_ALT, HID_KEYBOARD_SC_RIGHT_GUI.
    repeat match goal with
           | |- context [?a =? ?b] => destruct (Z.eqb_spec a b); [lia|]
           end.
    reflexivity.
  - unfold scan_codes. apply in_map_iff. exists (Z.to_nat ScanCode).
    split; [lia | apply in_seq; lia].
Qed.

Lemma count_keys_filter kp codes :
  count_keys kp codes
  = Z.of_nat (length (List.filter
                        (fun c => truthy (kp !!! Z.to_nat c) && negb (is_modifier c))
                        codes)).
Proof.
  induction codes as [|c codes IH]; [reflexivity|].
  cbn [count_keys List.filter]. rewrite IH.
  destruct (truthy (kp !!! Z.to_nat c) && negb (is_modifier c)); cbn [length]; lia.
Qed.

(** Distinct codes that are set and are not modifiers are all counted. *)
Lemma count_keys_ge kp codes (cs : list Z) :
  NoDup cs ->
  (forall c, In c cs ->
             In c codes /\ kp !!! Z.to_nat c <> 0 /\ is_modifier c = false) ->
  Z.of_nat (length cs) <= count_keys kp codes.
Proof.
  intros Hnd H. rewrite count_keys_filter. apply Nat2Z.inj_le.
  apply submseteq_length, NoDup_submseteq; [exact Hnd|].
  intros c Hc. apply list_elem_of_In in Hc. apply list_elem_of_In.
  destruct (H c Hc) as (Hin & Hset & Hmod).
  apply filter_In. split; [exact Hin|].
  rewrite Hmod. unfold truthy. destruct (Z.eqb_spec (kp !!! Z.to_nat c) 0); [contradiction|].
  reflexivity.
Qed.

Lemma matrix_reset_sweep_inv sw : sweep_inv sw matrix_reset.
Proof.
  constructor; [apply matrix_reset_wf | apply matrix_reset_counts | | reflexivity..].
  intros r c Hr Hc H. exfalso. apply H. unfold cell, matrix_reset. state_simpl.
  rewrite !lookup_total_replicate_2 by assumption. reflexivity.
Qed.

Lemma firmware_reset_inv sw : tasks_inv sw 0 firmware_reset.
Proof.
  split; [reflexivity|]. split; [apply matrix_reset_sweep_inv|].
  left. split; [lia|]. split; [reflexivity|]. intros r c Hr. lia.
Qed.

(** C1, as amended.  With Left Shift held (closing column 12 in any rows)
    together with seven letter keys that lie in distinct rows and in
    distinct columns, and nothing else, every report that
    [Keyboard_HID_Task] writes from its fourth invocation after reset on,
    the one that completes the first sweep of the eight rows, has all six
    key code slots equal to [0x01]. *)
Theorem rollover_scenario (shift : nat -> bool) (letters : list (nat * nat))
    (junk : nat -> Z) (n : nat) :
  length letters = 7%nat -> Forall letter_cell letters ->
  NoDup (fst <$> letters) -> NoDup (snd <$> letters) ->
  (4 <= n)%nat ->
  exists rep,
    snd (tasks_holding (closed shift letters) junk n firmware_reset) = Some rep
    /\ KeyCode rep = replicate 6 HID_KEYBOARD_SC_ERROR_ROLLOVER.
Proof.
  intros Hlen Hletters Hrows Hcols Hn.
  destruct (tasks_holding_registers (closed shift letters)
              (closed_columns shift letters Hcols)
              junk n firmware_reset (firmware_reset_inv _) Hn)
    as (kp & Hrep & Hkp).
  exists (build_keyboard_report kp). split; [exact Hrep|].
  unfold build_keyboard_report. apply report_loop_rollover; [reflexivity | lia |].
  set (code := fun k : nat * nat => cell KeyboardMatrix (fst k) (snd k)).
  rewrite Forall_forall in Hletters.
  assert (Hge : Z.of_nat (length (code <$> letters)) <= count_keys kp scan_codes).
  { apply count_keys_ge.
    - apply NoDup_fmap_2_strong; [|apply (NoDup_fmap_1 fst), Hrows].
      intros [r c] [r' c'] Hk Hk' E. unfold code in E. cbn [fst snd] in E.
      destruct (Hletters _ Hk') as (Hr' & Hc' & Hl'). cbn [fst snd] in *.
      destruct (Hletters _ Hk) as (Hr & Hc & Hl). cbn [fst snd] in *.
      destruct (letter_unique r' c' Hr' Hc' Hl' r c Hr Hc E) as [-> ->]. reflexivity.
    - intros sc Hsc. apply list_elem_of_In, list_elem_of_fmap in Hsc.
      destruct Hsc as ([r c] & -> & Hk). unfold code. cbn [fst snd].
      destruct (Hletters _ Hk) as (Hr & Hc & Hl). cbn [fst snd] in *.
      destruct (letter_not_modifier _ Hl) as [Hmod Hin].
      split; [exact Hin|]. split; [|exact Hmod].
      rewrite (Hkp r c Hr Hc).
      + lia.
      + apply closed_spec. right. apply list_elem_of_In, Hk.
      + apply letter_unique; assumption. }
  rewrite length_fmap, Hlen in Hge. lia.
Qed.

Lemma spread_letters_ok :
  length spread_letters = 7%nat /\ Forall letter_cell spread_letters
  /\ NoDup (fst <$> spread_letters) /\ NoDup (snd <$> spread_letters).
Proof.
  split; [reflexivity|]. split; [|split].
  - repeat constructor; cbn [fst snd]; unfold MATRIX_ROWS, MATRIX_COLUMNS; lia.
  - apply (bool_decide_unpack _). vm_compute. exact I.
  - apply (bool_decide_unpack _). vm_compute. exact I.
Qed.

Lemma rollover_scenario_witness :
  exists rep,
    snd (tasks_holding (closed (fun _ => true) spread_letters) (fun _ => 0) 4
           firmware_reset) = Some rep
    /\ KeyCode rep = [0x01; 0x01; 0x01; 0x01; 0x01; 0x01].
Proof.
  destruct spread_letters_ok as (H1 & H2 & H3 & H4).
  exact (rollover_scenario (fun _ => true) spread_letters (fun _ => 0) 4 H1 H2 H3 H4
           (le_n 4)).
Defined.

Lemma ghosting_letters_ok :
  length ghosting_letters = 7%nat /\ Forall letter_cell ghosting_letters
  /\ NoDup (fst <$> ghosting_letters).
Proof.
  split; [reflexivity|]. split.
  - repeat constructor; cbn [fst snd]; unfold MATRIX_ROWS, MATRIX_COLUMNS; lia.
  - apply (bool_decide_unpack _). vm_compute. exact I.
Qed.

(** C1, as stated, fails.  Left Shift with D, O, A, I, Y, T, Z, seven letters
    in distinct rows: Y and T share column 2 and each shares its row with
    Left Shift, which makes a corner; T is suppressed and the report carries
    six letters, after one sweep and after two.  Left Shift with U, O, A, I,
    G, T, Z, in distinct rows and columns: the report is the rollover
    report, with no modifier bit, and the same holds when Left Shift closes
    column 12 in row 0 only. *)
Lemma rollover_scenario_counterexample :
  (length ghosting_letters = 7%nat /\ Forall letter_cell ghosting_letters
   /\ NoDup (fst <$> ghosting_letters)
   /\ snd (sweep (closed (fun _ => true) ghosting_letters) (fun _ => 0) firmware_reset)
      = Some {| Modifier := 0x02; Reserved := 0;
                KeyCode := [HID_KEYBOARD_SC_A; HID_KEYBOARD_SC_D; HID_KEYBOARD_SC_I;
                            HID_KEYBOARD_SC_O; HID_KEYBOARD_SC_Y; HID_KEYBOARD_SC_Z] |}
   /\ snd (tasks_holding (closed (fun _ => true) ghosting_letters) (fun _ => 0) 8
             firmware_reset)
      = Some {| Modifier := 0x02; Reserved := 0;
                KeyCode := [HID_KEYBOARD_SC_A; HID_KEYBOARD_SC_D; HID_KEYBOARD_SC_I;
                            HID_KEYBOARD_SC_O; HID_KEYBOARD_SC_Y; HID_KEYBOARD_SC_Z] |}
   /\ ~ shift_and_rollover
          {| Modifier := 0x02; Reserved := 0;
             KeyCode := [HID_KEYBOARD_SC_A; HID_KEYBOARD_SC_D; HID_KEYBOARD_SC_I;
                         HID_KEYBOARD_SC_O; HID_KEYBOARD_SC_Y; HID_KEYBOARD_SC_Z] |})
  /\ (snd (sweep (closed (fun _ => true) spread_letters) (fun _ => 0) firmware_reset)
      = Some {| Modifier := 0; Reserved := 0; KeyCode := replicate 6 0x01 |}
      /\ snd (sweep (closed (fun r => (r =? 0)%nat) spread_letters) (fun _ => 0)
                firmware_reset)
         = Some {| Modifier := 0; Reserved := 0; KeyCode := replicate 6 0x01 |}
      /\ ~ shift_and_rollover {| Modifier := 0; Reserved := 0; KeyCode := replicate 6 0x01 |}).
Proof.
  destruct ghosting_letters_ok as (H1 & H2 & H3).
  split; [split; [exact H1|]; split; [exact H2|]; split; [exact H3|];
          split; [|split]|split; [|split]].
  - vm_compute. reflexivity.
  - vm_compute. reflexivity.
  - intros [_ H]. discriminate H.
  - vm_compute. reflexivity.
  - vm_compute. reflexivity.
  - intros [H _]. apply H. reflexivity.
Qed.

(** * More of the code *)

(** ** GPIO *)

Lemma u8_byte x : 0 <= u8 x < 256.
Proof. unfold u8. apply Z.mod_pos_bound. lia. Qed.

Lemma u8_testbit x i : (i < 8)%nat -> Z.testbit (u8 x) (Z.of_nat i) = Z.testbit x (Z.of_nat i).
Proof.
  intros Hi. unfold u8. change 256 with (2 ^ 8).
  apply Z.mod_pow2_bits_low. lia.
Qed.

Lemma pin_mask_pow Num : (Num < 8)%nat -> pin_mask Num = 2 ^ Z.of_nat Num.
Proof.
  intros H. unfold pin_mask. rewrite Z.shiftl_1_l. apply u8_small.
  split; [apply Z.pow_nonneg; lia|].
  change 256 with (2 ^ 8). apply Z.pow_lt_mono_r; lia.
Qed.

Lemma pin_mask_testbit Num i :
  (Num < 8)%nat -> Z.testbit (pin_mask Num) (Z.of_nat i) = (i =? Num)%nat.
Proof.
  intros H. rewrite pin_mask_pow by exact H.
  rewrite Z.pow2_bits_eqb by lia.
  destruct (Nat.eqb_spec i Num) as [->|Hne].
  - apply Z.eqb_refl.
  - apply Z.eqb_neq. lia.
Qed.

(** Setting and clearing one bit of a register. *)
Lemma set_bit_testbit x Num i :
  (Num < 8)%nat -> (i < 8)%nat ->
  Z.testbit (u8 (Z.lor x (pin_mask Num))) (Z.of_nat i)
  = Z.testbit x (Z.of_nat i) || (i =? Num)%nat.
Proof.
  intros HN Hi. rewrite u8_testbit by exact Hi.
  rewrite Z.lor_spec, pin_mask_testbit by exact HN. reflexivity.
Qed.

Lemma clear_bit_testbit x Num i :
  (Num < 8)%nat -> (i < 8)%nat ->
  Z.testbit (u8 (Z.land x (Z.lnot (pin_mask Num)))) (Z.of_nat i)
  = Z.testbit x (Z.of_nat i) && negb (i =? Num)%nat.
Proof.
  intros HN Hi. rewrite u8_testbit by exact Hi.
  rewrite Z.land_spec, Z.lnot_spec by lia.
  rewrite pin_mask_testbit by exact HN. reflexivity.
Qed.

Lemma bytes_insert n (l : list Z) p v :
  bytes n l -> 0 <= v < 256 -> bytes n (<[p := v]> l).
Proof.
  intros [Hlen Hb] Hv. split; [rewrite length_insert; exact Hlen|].
  intros i Hi. rewrite list_lookup_total_insert.
  destruct (decide _); [exact Hv | apply Hb, Hi].
Qed.

(** Bit [i] of register [q] after register [p] has been replaced. *)
Lemma reg_bit_insert (l : list Z) p v q i :
  (p < length l)%nat ->
  reg_bit (<[p := v]> l) q i
  = if decide (q = p) then Z.testbit v (Z.of_nat i) else reg_bit l q i.
Proof.
  intros Hp. unfold reg_bit. destruct (decide (q = p)) as [->|Hne].
  - rewrite list_lookup_total_insert_eq by exact Hp. reflexivity.
  - rewrite list_lookup_total_insert_ne by (intros E; apply Hne; symmetry; exact E).
    reflexivity.
Qed.

(** Two bytes with the same eight bits are equal. *)
Lemma byte_eq x y :
  0 <= x < 256 -> 0 <= y < 256 ->
  (forall i, (i < 8)%nat -> Z.testbit x (Z.of_nat i) = Z.testbit y (Z.of_nat i)) ->
  x = y.
Proof.
  intros Hx Hy H. apply Z.bits_inj'. intros n Hn.
  destruct (Z.lt_ge_cases n 8) as [Hlt|Hge].
  - specialize (H (Z.to_nat n) ltac:(lia)). rewrite Z2Nat.id in H by lia. exact H.
  - rewrite !Z.bits_above_log2; try lia; try reflexivity.
    + destruct (Z.eq_dec y 0) as [->|Hy0]; [cbn; lia|].
      assert (Z.log2 y < 8); [|lia]. apply Z.log2_lt_pow2; lia.
    + destruct (Z.eq_dec x 0) as [->|Hx0]; [cbn; lia|].
      assert (Z.log2 x < 8); [|lia]. apply Z.log2_lt_pow2; lia.
Qed.

(** The registers after [SetPortPinDirection], bit by bit. *)
Lemma SetPortPinDirection_bits (Port Num : nat) (IsOutput : Z) (g : gpio) :
  gpio_wf g -> (Port < 6)%nat -> (Num < 8)%nat ->
  let g' := SetPortPinDirection Port Num IsOutput g in
  gpio_wf g' /\ PIN g' = PIN g /\ MCUCR g' = MCUCR g
  /\ (forall q i, (q < 6)%nat -> (i < 8)%nat ->
        reg_bit (DDR g') q i
        = if decide (q = Port /\ i = Num) then truthy IsOutput else reg_bit (DDR g) q i)
  /\ (forall q i, (q < 6)%nat -> (i < 8)%nat ->
        reg_bit (PORT g') q i
        = if decide (q = Port /\ i = Num)
          then (if truthy IsOutput then reg_bit (PORT g) q i else true)
          else reg_bit (PORT g) q i).
Proof.
  intros [[HDl HDb] [HPl HPb] HI] HP HN. cbv zeta. unfold SetPortPinDirection.
  destruct (Nat.ltb_spec Port 6) as [_|]; [|lia].
  destruct (truthy IsOutput); cbn [set_DDR set_PORT DDR PORT PIN MCUCR].
  - split; [|split; [reflexivity|split; [reflexivity|split]]].
    + constructor; cbn [set_DDR DDR PORT PIN]; try (split; assumption); try assumption.
      apply bytes_insert; [split; assumption | apply u8_byte].
    + intros q i Hq Hi. rewrite reg_bit_insert by (rewrite HDl; exact HP).
      destruct (decide (q = Port)) as [->|Hne].
      * rewrite set_bit_testbit by assumption. fold (reg_bit (DDR g) Port i).
        destruct (decide (Port = Port /\ i = Num)) as [[_ ->]|Hn].
        -- rewrite Nat.eqb_refl. apply orb_true_r.
        -- destruct (Nat.eqb_spec i Num) as [->|_]; [exfalso; apply Hn; split; reflexivity|].
           apply orb_false_r.
      * destruct (decide _) as [[E _]|_]; [contradiction | reflexivity].
    + intros q i Hq Hi. destruct (decide _); reflexivity.
  - split; [|split; [reflexivity|split; [reflexivity|split]]].
    + constructor; cbn [set_DDR set_PORT DDR PORT PIN]; try assumption.
      * apply bytes_insert; [split; assumption | apply u8_byte].
      * apply bytes_insert; [split; assumption | apply u8_byte].
    + intros q i Hq Hi. rewrite reg_bit_insert by (rewrite HDl; exact HP).
      destruct (decide (q = Port)) as [->|Hne].
      * rewrite clear_bit_testbit by assumption. fold (reg_bit (DDR g) Port i).
        destruct (decide (Port = Port /\ i = Num)) as [[_ ->]|Hn].
        -- rewrite Nat.eqb_refl. apply andb_false_r.
        -- destruct (Nat.eqb_spec i Num) as [->|_]; [exfalso; apply Hn; split; reflexivity|].
           apply andb_true_r.
      * destruct (decide _) as [[E _]|_]; [contradiction | reflexivity].
    + intros q i Hq Hi. rewrite reg_bit_insert by (rewrite HPl; exact HP).
      destruct (decide (q = Port)) as [->|Hne].
      * rewrite set_bit_testbit by assumption. fold (reg_bit (PORT g) Port i).
        destruct (decide (Port = Port /\ i = Num)) as [[_ ->]|Hn].
        -- rewrite Nat.eqb_refl. apply orb_true_r.
        -- destruct (Nat.eqb_spec i Num) as [->|_]; [exfalso; apply Hn; split; reflexivity|].
           apply orb_false_r.
      * destruct (decide _) as [[E _]|_]; [contradiction | reflexivity].
Qed.

(** The registers after [WritePortPin], bit by bit. *)
Lemma WritePortPin_bits (Port Num : nat) (Val : Z) (g : gpio) :
  gpio_wf g -> (Port < 6)%nat -> (Num < 8)%nat ->
  let g' := WritePortPin Port Num Val g in
  gpio_wf g' /\ DDR g' = DDR g /\ PIN g' = PIN g /\ MCUCR g' = MCUCR g
  /\ (forall q i, (q < 6)%nat -> (i < 8)%nat ->
        reg_bit (PORT g') q i
        = if decide (q = Port /\ i = Num) then truthy Val else reg_bit (PORT g) q i).
Proof.
  intros [[HDl HDb] [HPl HPb] HI] HP HN. cbv zeta. unfold WritePortPin.
  destruct (Nat.ltb_spec Port 6) as [_|]; [|lia].
  destruct (truthy Val); cbn [set_PORT DDR PORT PIN MCUCR].
  - split; [|split; [reflexivity|split; [reflexivity|split; [reflexivity|]]]].
    + constructor; cbn [set_PORT DDR PORT PIN]; try (split; assumption); try assumption.
      apply bytes_insert; [split; assumption | apply u8_byte].
    + intros q i Hq Hi. rewrite reg_bit_insert by (rewrite HPl; exact HP).
      destruct (decide (q = Port)) as [->|Hne].
      * rewrite set_bit_testbit by assumption. fold (reg_bit (PORT g) Port i).
        destruct (decide (Port = Port /\ i = Num)) as [[_ ->]|Hn].
        -- rewrite Nat.eqb_refl. apply orb_true_r.
        -- destruct (Nat.eqb_spec i Num) as [->|_]; [exfalso; apply Hn; split; reflexivity|].
           apply orb_false_r.
      * destruct (decide _) as [[E _]|_]; [contradiction | reflexivity].
  - split; [|split; [reflexivity|split; [reflexivity|split; [reflexivity|]]]].
    + constructor; cbn [set_PORT DDR PORT PIN]; try (split; assumption); try assumption.
      apply bytes_insert; [split; assumption | apply u8_byte].
    + intros q i Hq Hi. rewrite reg_bit_insert by (rewrite HPl; exact HP).
      destruct (decide (q = Port)) as [->|Hne].
      * rewrite clear_bit_testbit by assumption. fold (reg_bit (PORT g) Port i).
        destruct (decide (Port = Port /\ i = Num)) as [[_ ->]|Hn].
        -- rewrite Nat.eqb_refl. apply andb_false_r.
        -- destruct (Nat.eqb_spec i Num) as [->|_]; [exfalso; apply Hn; split; reflexivity|].
           apply andb_true_r.
      * destruct (decide _) as [[E _]|_]; [contradiction | reflexivity].
Qed.

Lemma gpio_reset_wf : gpio_wf gpio_reset.
Proof.
  assert (H : bytes 6 (replicate 6 0)).
  { split; [reflexivity|]. intros i Hi.
    rewrite lookup_total_replicate_2 by exact Hi. lia. }
  constructor; exact H.
Qed.

(** X1.  [SetPortPinDirection] on pin [Num] of a port A..F.  As an output:
    the pin's direction bit is set and the output registers are not
    written.  As an input: the direction bit is cleared and the pin's
    output bit is set, which turns the pull-up on.  Either way no bit of
    another pin changes in the direction and output registers, and the
    input registers are not written. *)
Theorem set_direction_effect (Port Num : nat) (IsOutput : Z) (g : gpio) :
  gpio_wf g -> (Port < 6)%nat -> (Num < 8)%nat ->
  let g' := SetPortPinDirection Port Num IsOutput g in
  gpio_wf g' /\ PIN g' = PIN g
  /\ (IsOutput <> 0 -> reg_bit (DDR g') Port Num = true /\ PORT g' = PORT g)
  /\ (IsOutput = 0 -> pin_pulled_up g' Port Num)
  /\ (forall q i, (q < 6)%nat -> (i < 8)%nat -> ~ (q = Port /\ i = Num) ->
        reg_bit (DDR g') q i = reg_bit (DDR g) q i
        /\ reg_bit (PORT g') q i = reg_bit (PORT g) q i).
Proof.
  intros Hwf HP HN. cbv zeta.
  destruct (SetPortPinDirection_bits Port Num IsOutput g Hwf HP HN)
    as (Hwf' & HI & _ & HD & HO).
  split; [exact Hwf'|]. split; [exact HI|]. split; [|split].
  - intros Hout. split.
    + rewrite HD by assumption.
      destruct (decide _) as [_|N]; [|exfalso; apply N; split; reflexivity].
      unfold truthy. destruct (Z.eqb_spec IsOutput 0); [contradiction | reflexivity].
    + unfold SetPortPinDirection. destruct (Port <? 6)%nat; [|reflexivity].
      unfold truthy. destruct (Z.eqb_spec IsOutput 0); [contradiction | reflexivity].
  - intros ->. split.
    + rewrite HD by assumption.
      destruct (decide _) as [_|N]; [reflexivity | exfalso; apply N; split; reflexivity].
    + rewrite HO by assumption.
      destruct (decide _) as [_|N]; [reflexivity | exfalso; apply N; split; reflexivity].
  - intros q i Hq Hi Hne. rewrite HD, HO by assumption.
    destruct (decide _); [contradiction | split; reflexivity].
Qed.

Lemma set_direction_effect_witness :
  pin_pulled_up (SetPortPinDirection 3 1 0 (SetPortPinDirection 3 1 1 gpio_reset)) 3 1
  /\ reg_bit (DDR (SetPortPinDirection 3 1 1 gpio_reset)) 3 1 = true.
Proof.
  split.
  - assert (Hwf : gpio_wf (SetPortPinDirection 3 1 1 gpio_reset)).
    { apply (set_direction_effect 3 1 1 gpio_reset gpio_reset_wf); lia. }
    apply (set_direction_effect 3 1 0 _ Hwf); [lia | lia | reflexivity].
  - apply (set_direction_effect 3 1 1 gpio_reset gpio_reset_wf); lia.
Defined.

(** X2.  [WritePortPin] makes the pin's output bit the truth value of
    [Val]; no other bit of the output registers changes, and the direction
    and input registers are not written. *)
Theorem write_pin_effect (Port Num : nat) (Val : Z) (g : gpio) :
  gpio_wf g -> (Port < 6)%nat -> (Num < 8)%nat ->
  let g' := WritePortPin Port Num Val g in
  gpio_wf g' /\ DDR g' = DDR g /\ PIN g' = PIN g
  /\ reg_bit (PORT g') Port Num = negb (Val =? 0)
  /\ (forall q i, (q < 6)%nat -> (i < 8)%nat -> ~ (q = Port /\ i = Num) ->
        reg_bit (PORT g') q i = reg_bit (PORT g) q i).
Proof.
  intros Hwf HP HN. cbv zeta.
  destruct (WritePortPin_bits Port Num Val g Hwf HP HN) as (Hwf' & HD & HI & _ & HO).
  split; [exact Hwf'|]. split; [exact HD|]. split; [exact HI|]. split.
  - rewrite HO by assumption.
    destruct (decide _) as [_|N]; [reflexivity | exfalso; apply N; split; reflexivity].
  - intros q i Hq Hi Hne. rewrite HO by assumption.
    destruct (decide _); [contradiction | reflexivity].
Qed.

Lemma write_pin_effect_witness :
  reg_bit (PORT (WritePortPin 2 5 1 gpio_reset)) 2 5 = true
  /\ reg_bit (PORT (WritePortPin 2 5 1 gpio_reset)) 2 4 = false.
Proof.
  destruct (write_pin_effect 2 5 1 gpio_reset gpio_reset_wf ltac:(lia) ltac:(lia))
    as (_ & _ & _ & Hbit & Hother).
  split; [exact Hbit|]. rewrite Hother; [reflexivity | lia | lia | lia].
Defined.



(** *** KeyboardInit *)

Lemma set_inputs_bits pins g :
  gpio_wf g -> Forall valid_pin pins ->
  let g' := set_inputs pins g in
  gpio_wf g' /\ PIN g' = PIN g /\ MCUCR g' = MCUCR g
  /\ (forall q i, (q < 6)%nat -> (i < 8)%nat ->
        (In (q, i) pins -> pin_pulled_up g' q i)
        /\ (~ In (q, i) pins ->
            reg_bit (DDR g') q i = reg_bit (DDR g) q i
            /\ reg_bit (PORT g') q i = reg_bit (PORT g) q i)).
Proof.
  intros Hwf Hpins. revert g Hwf. unfold set_inputs.
  induction Hpins as [|[p n] pins [Hp Hn] _ IH]; intros g Hwf; cbn [foldl fst snd] in *.
  - split; [exact Hwf|]. split; [reflexivity|]. split; [reflexivity|].
    intros q i _ _. split; [intros [] | intros _; split; reflexivity].
  - destruct (SetPortPinDirection_bits p n 0 g Hwf Hp Hn) as (Hwf1 & HI1 & HM1 & HD1 & HO1).
    cbv zeta in IH.
    destruct (IH _ Hwf1) as (Hwf' & HI' & HM' & Hbits).
    split; [exact Hwf'|]. split; [congruence|]. split; [congruence|].
    intros q i Hq Hi. destruct (Hbits q i Hq Hi) as [Hin Hout].
    change (truthy 0) with false in HD1, HO1. cbv iota in HO1.
    split.
    + intros [E|Hrest]; [|exact (Hin Hrest)].
      injection E as <- <-.
      destruct (decide ((p, n) ∈ pins)) as [Hy|Hno];
        [apply list_elem_of_In in Hy; exact (Hin Hy)|].
      rewrite list_elem_of_In in Hno.
      destruct (Hout Hno) as [E1 E2]. split.
      * rewrite E1, HD1 by assumption.
        destruct (decide _) as [_|N]; [reflexivity | exfalso; apply N; split; reflexivity].
      * rewrite E2, HO1 by assumption.
        destruct (decide _) as [_|N]; [reflexivity | exfalso; apply N; split; reflexivity].
    + intros Hno.
      assert (Hne : ~ (q = p /\ i = n)).
      { intros [-> ->]. apply Hno. left. reflexivity. }
      assert (Hno' : ~ In (q, i) pins) by (intros H; apply Hno; right; exact H).
      destruct (Hout Hno') as [E1 E2]. rewrite E1, E2, HD1, HO1 by assumption.
      destruct (decide _); [contradiction | split; reflexivity].
Qed.

Lemma KeyboardInit_unfold g :
  KeyboardInit g
  = set_inputs ColumnPins
      (set_MCUCR (u8 (Z.land (MCUCR (set_inputs RowPins g)) (Z.lnot 0x10)))
         (set_inputs RowPins g)).
Proof. reflexivity. Qed.

Lemma matrix_pins_valid : Forall valid_pin RowPins /\ Forall valid_pin ColumnPins.
Proof. split; repeat constructor; cbn; lia. Qed.

(** The registers after [KeyboardInit], pin by pin. *)
Lemma KeyboardInit_bits (g : gpio) :
  gpio_wf g ->
  let g' := KeyboardInit g in
  gpio_wf g'
  /\ MCUCR g' = u8 (Z.land (MCUCR g) (Z.lnot 0x10))
  /\ (forall q i, (q < 6)%nat -> (i < 8)%nat ->
        (In (q, i) (RowPins ++ ColumnPins) -> pin_pulled_up g' q i)
        /\ (~ In (q, i) (RowPins ++ ColumnPins) ->
            reg_bit (DDR g') q i = reg_bit (DDR g) q i
            /\ reg_bit (PORT g') q i = reg_bit (PORT g) q i)).
Proof.
  intros Hwf. cbv zeta. rewrite KeyboardInit_unfold.
  destruct matrix_pins_valid as [Hrows Hcols].
  destruct (set_inputs_bits RowPins g Hwf Hrows) as (Hwf1 & HI1 & HM1 & Hb1).
  set (g1 := set_inputs RowPins g) in *.
  set (g2 := set_MCUCR (u8 (Z.land (MCUCR g1) (Z.lnot 0x10))) g1).
  assert (Hwf2 : gpio_wf g2) by (destruct Hwf1; constructor; assumption).
  destruct (set_inputs_bits ColumnPins g2 Hwf2 Hcols) as (Hwf3 & HI3 & HM3 & Hb3).
  cbv zeta in *.
  split; [exact Hwf3|]. split.
  { rewrite HM3. unfold g2. cbn [set_MCUCR MCUCR]. rewrite HM1. reflexivity. }
  intros q i Hq Hi. destruct (Hb3 q i Hq Hi) as [Hin3 Hout3].
  destruct (Hb1 q i Hq Hi) as [Hin1 Hout1]. split.
  - intros Hin.
    destruct (decide ((q, i) ∈ ColumnPins)) as [Hy|Hno];
      [apply list_elem_of_In in Hy; exact (Hin3 Hy)|].
    rewrite list_elem_of_In in Hno.
    destruct (Hout3 Hno) as [E1 E2]. unfold pin_pulled_up. rewrite E1, E2.
    apply in_app_or in Hin. destruct Hin as [H|H]; [exact (Hin1 H) | contradiction].
  - intros Hno.
    assert (Hno1 : ~ In (q, i) RowPins) by (intros H; apply Hno, in_or_app; left; exact H).
    assert (Hno3 : ~ In (q, i) ColumnPins) by (intros H; apply Hno, in_or_app; right; exact H).
    destruct (Hout3 Hno3) as [E1 E2]. destruct (Hout1 Hno1) as [F1 F2].
    rewrite E1, E2. split; [exact F1 | exact F2].
Qed.

Lemma matrix_pin_valid p : In p (RowPins ++ ColumnPins) -> valid_pin p.
Proof.
  intros Hin. destruct matrix_pins_valid as [Hrows Hcols].
  rewrite Forall_forall in Hrows, Hcols. apply in_app_or in Hin.
  destruct Hin as [H|H]; [apply Hrows | apply Hcols]; apply list_elem_of_In, H.
Qed.

(** X4.  [KeyboardInit] makes every row pin and every column pin of the
    matrix an input with its pull-up on and clears the pull-up disable bit
    of [MCUCR]; the direction and output bits of every other pin, and the
    other bits of [MCUCR], are as before. *)
Theorem KeyboardInit_pins (g : gpio) :
  gpio_wf g ->
  let g' := KeyboardInit g in
  gpio_wf g'
  /\ (forall p, In p (RowPins ++ ColumnPins) -> pin_pulled_up g' (fst p) (snd p))
  /\ (forall q i, (q < 6)%nat -> (i < 8)%nat -> ~ In (q, i) (RowPins ++ ColumnPins) ->
        reg_bit (DDR g') q i = reg_bit (DDR g) q i
        /\ reg_bit (PORT g') q i = reg_bit (PORT g) q i)
  /\ Z.testbit (MCUCR g') 4 = false
  /\ (forall i, (i < 8)%nat -> i <> 4%nat ->
        Z.testbit (MCUCR g') (Z.of_nat i) = Z.testbit (MCUCR g) (Z.of_nat i)).
Proof.
  intros Hwf. cbv zeta.
  destruct (KeyboardInit_bits g Hwf) as (Hwf' & HM & Hb). cbv zeta in *.
  split; [exact Hwf'|]. split; [|split; [|split]].
  - intros [q i] Hin. destruct (matrix_pin_valid _ Hin) as [Hq Hi].
    cbn [fst snd] in *. exact (proj1 (Hb q i Hq Hi) Hin).
  - intros q i Hq Hi Hno. exact (proj2 (Hb q i Hq Hi) Hno).
  - rewrite HM. rewrite (u8_testbit _ 4) by lia. rewrite Z.land_spec. apply andb_false_r.
  - intros i Hi Hne. rewrite HM, u8_testbit by exact Hi.
    rewrite Z.land_spec, Z.lnot_spec by lia.
    change 0x10 with (2 ^ 4). rewrite Z.pow2_bits_eqb by lia.
    destruct (Z.eqb_spec 4 (Z.of_nat i)); [lia|]. apply andb_true_r.
Qed.

Lemma KeyboardInit_pins_witness :
  pin_pulled_up (KeyboardInit gpio_reset) 2 3 /\ pin_pulled_up (KeyboardInit gpio_reset) 4 7
  /\ reg_bit (PORT (KeyboardInit gpio_reset)) 3 1 = false.
Proof.
  destruct (KeyboardInit_pins gpio_reset gpio_reset_wf) as (_ & Hin & Hout & _).
  split; [|split].
  - apply (Hin (2, 3)%nat). cbn. tauto.
  - apply (Hin (4, 7)%nat). cbn. tauto.
  - rewrite (proj2 (Hout 3%nat 1%nat ltac:(lia) ltac:(lia)
                      ltac:(vm_compute; intuition congruence))).
    reflexivity.
Defined.

(** *** The row pins during a scan *)

Lemma bank_eq (l l' : list Z) :
  bytes 6 l -> bytes 6 l' ->
  (forall q i, (q < 6)%nat -> (i < 8)%nat -> reg_bit l' q i = reg_bit l q i) ->
  l' = l.
Proof.
  intros [Hl Hb] [Hl' Hb'] H.
  apply (list_eq_same_length _ _ 6); [exact Hl | exact Hl' |].
  intros q x y Hq Hx Hy.
  apply list_lookup_total_correct in Hx, Hy. subst x y.
  apply byte_eq; [apply Hb', Hq | apply Hb, Hq |].
  intros i Hi. apply (H q i Hq Hi).
Qed.

Lemma gpio_eq g g' :
  DDR g' = DDR g -> PORT g' = PORT g -> PIN g' = PIN g -> MCUCR g' = MCUCR g -> g' = g.
Proof. destruct g, g'. cbn. intros -> -> -> ->. reflexivity. Qed.

Lemma row_pin r : (r < MATRIX_ROWS)%nat -> RowPins !!! r = (2%nat, r).
Proof.
  unfold MATRIX_ROWS. intros H.
  do 8 (destruct r as [|r]; [reflexivity|]). lia.
Qed.

(** The registers while row [r] is active, and after it has been released
    again. *)
Lemma row_activate_bits r g :
  gpio_wf g -> (r < MATRIX_ROWS)%nat ->
  let ga := row_activate r g in
  gpio_wf ga /\ PIN ga = PIN g /\ MCUCR ga = MCUCR g
  /\ (forall q i, (q < 6)%nat -> (i < 8)%nat ->
        reg_bit (DDR ga) q i
        = (if decide (q = 2%nat /\ i = r) then true else reg_bit (DDR g) q i)
        /\ reg_bit (PORT ga) q i
           = (if decide (q = 2%nat /\ i = r) then false else reg_bit (PORT g) q i)).
Proof.
  intros Hwf Hr. cbv zeta. unfold row_activate. rewrite row_pin by exact Hr.
  cbn [fst snd]. unfold MATRIX_ROWS in Hr.
  destruct (SetPortPinDirection_bits 2 r 1 g Hwf ltac:(lia) Hr) as (W1 & I1 & M1 & D1 & O1).
  cbv zeta in *.
  destruct (WritePortPin_bits 2 r 0 _ W1 ltac:(lia) Hr) as (W2 & D2 & I2 & M2 & O2).
  cbv zeta in *.
  split; [exact W2|]. split; [congruence|]. split; [congruence|].
  intros q i Hq Hi. rewrite D2, D1, O2, O1 by assumption.
  change (truthy 1) with true. change (truthy 0) with false.
  destruct (decide _); split; reflexivity.
Qed.

Lemma row_cycle_bits r g :
  gpio_wf g -> (r < MATRIX_ROWS)%nat ->
  let g' := row_deactivate r (row_activate r g) in
  gpio_wf g' /\ PIN g' = PIN g /\ MCUCR g' = MCUCR g
  /\ (forall q i, (q < 6)%nat -> (i < 8)%nat ->
        reg_bit (DDR g') q i
        = (if decide (q = 2%nat /\ i = r) then false else reg_bit (DDR g) q i)
        /\ reg_bit (PORT g') q i
           = (if decide (q = 2%nat /\ i = r) then true else reg_bit (PORT g) q i)).
Proof.
  intros Hwf Hr. cbv zeta.
  destruct (row_activate_bits r g Hwf Hr) as (Wa & Ia & Ma & Ba). cbv zeta in *.
  unfold row_deactivate. rewrite row_pin by exact Hr. cbn [fst snd].
  unfold MATRIX_ROWS in Hr.
  destruct (WritePortPin_bits 2 r 1 _ Wa ltac:(lia) Hr) as (W3 & D3 & I3 & M3 & O3).
  cbv zeta in *.
  destruct (SetPortPinDirection_bits 2 r 0 _ W3 ltac:(lia) Hr) as (W4 & I4 & M4 & D4 & O4).
  cbv zeta in *.
  split; [exact W4|]. split; [congruence|]. split; [congruence|].
  intros q i Hq Hi. rewrite D4, O4, D3, O3 by assumption.
  destruct (Ba q i Hq Hi) as [E1 E2]. rewrite E1, E2.
  change (truthy 0) with false. change (truthy 1) with true.
  destruct (decide _); split; reflexivity.
Qed.

Lemma row_cycle_restores r g :
  gpio_wf g -> (r < MATRIX_ROWS)%nat -> pin_pulled_up g 2 r ->
  row_deactivate r (row_activate r g) = g.
Proof.
  intros Hwf Hr [Hd Hp].
  destruct (row_cycle_bits r g Hwf Hr) as (W & I & M & B). cbv zeta in *.
  apply gpio_eq; [| |exact I|exact M].
  - apply bank_eq; [apply Hwf | apply W|].
    intros q i Hq Hi. rewrite (proj1 (B q i Hq Hi)).
    destruct (decide _) as [[-> ->]|_]; [symmetry; exact Hd | reflexivity].
  - apply bank_eq; [apply Hwf | apply W|].
    intros q i Hq Hi. rewrite (proj2 (B q i Hq Hi)).
    destruct (decide _) as [[-> ->]|_]; [symmetry; exact Hp | reflexivity].
Qed.

(** X5.  While [KeyboardScanMatrix] samples the columns of row [r], the
    row's pin is an output at low level and every other pin, in particular
    every other row, is configured as before the call: with the rows on
    their pull-ups, exactly one row is driven at a time. *)
Theorem row_activate_effect (r : nat) (g : gpio) :
  gpio_wf g -> (r < MATRIX_ROWS)%nat ->
  let p := RowPins !!! r in
  let ga := row_activate r g in
  pin_driven ga (fst p) (snd p) false
  /\ PIN ga = PIN g
  /\ (forall q i, (q < 6)%nat -> (i < 8)%nat -> (q, i) <> p ->
        reg_bit (DDR ga) q i = reg_bit (DDR g) q i
        /\ reg_bit (PORT ga) q i = reg_bit (PORT g) q i)
  /\ (forall r', (r' < MATRIX_ROWS)%nat -> r' <> r ->
        pin_pulled_up g (fst (RowPins !!! r')) (snd (RowPins !!! r')) ->
        pin_pulled_up ga (fst (RowPins !!! r')) (snd (RowPins !!! r'))).
Proof.
  intros Hwf Hr. cbv zeta. rewrite row_pin by exact Hr. cbn [fst snd].
  destruct (row_activate_bits r g Hwf Hr) as (W & I & M & B). cbv zeta in *.
  assert (Hr8 : (r < 8)%nat) by exact Hr.
  split; [|split; [exact I|split]].
  - destruct (B 2%nat r ltac:(lia) Hr8) as [E1 E2]. split.
    + rewrite E1. destruct (decide _) as [_|N]; [reflexivity | exfalso; apply N; auto].
    + rewrite E2. destruct (decide _) as [_|N]; [reflexivity | exfalso; apply N; auto].
  - intros q i Hq Hi Hne. destruct (B q i Hq Hi) as [E1 E2]. rewrite E1, E2.
    destruct (decide _) as [[-> ->]|_]; [contradiction | split; reflexivity].
  - intros r' Hr' Hne. rewrite row_pin by exact Hr'. cbn [fst snd].
    intros [Hd Hp]. assert (Hr8' : (r' < 8)%nat) by exact Hr'.
    destruct (B 2%nat r' ltac:(lia) Hr8') as [E1 E2]. split.
    + rewrite E1. destruct (decide _) as [[_ E]|_]; [contradiction | exact Hd].
    + rewrite E2. destruct (decide _) as [[_ E]|_]; [contradiction | exact Hp].
Qed.

Lemma KeyboardInit_rows_pulled_up g r :
  gpio_wf g -> (r < MATRIX_ROWS)%nat ->
  pin_pulled_up (KeyboardInit g) (fst (RowPins !!! r)) (snd (RowPins !!! r)).
Proof.
  intros Hwf Hr. rewrite KeyboardInit_unfold.
  destruct matrix_pins_valid as [Hrows Hcols].
  destruct (set_inputs_bits RowPins g Hwf Hrows) as (Hwf1 & HI1 & HM1 & Hb1).
  set (g1 := set_inputs RowPins g) in *.
  set (g2 := set_MCUCR (u8 (Z.land (MCUCR g1) (Z.lnot 0x10))) g1).
  assert (Hwf2 : gpio_wf g2) by (destruct Hwf1; constructor; assumption).
  destruct (set_inputs_bits ColumnPins g2 Hwf2 Hcols) as (Hwf3 & HI3 & HM3 & Hb3).
  cbv zeta in *. rewrite row_pin by exact Hr. cbn [fst snd].
  assert (Hr8 : (r < 8)%nat) by exact Hr.
  destruct (Hb3 2%nat r ltac:(lia) Hr8) as [_ Hout3].
  assert (Hno : ~ In (2%nat, r) ColumnPins).
  { cbn. intros H. decompose [or] H; try discriminate; contradiction. }
  destruct (Hout3 Hno) as [E1 E2]. unfold pin_pulled_up. rewrite E1, E2.
  apply (proj1 (Hb1 2%nat r ltac:(lia) Hr8)).
  rewrite <- (row_pin r Hr). apply list_elem_of_In.
  apply list_elem_of_lookup_total_2. exact Hr.
Qed.

Lemma KeyboardInit_wf g : gpio_wf g -> gpio_wf (KeyboardInit g).
Proof.
  intros Hwf. rewrite KeyboardInit_unfold.
  destruct matrix_pins_valid as [Hrows Hcols].
  destruct (set_inputs_bits RowPins g Hwf Hrows) as (Hwf1 & _).
  set (g1 := set_inputs RowPins g) in *.
  set (g2 := set_MCUCR (u8 (Z.land (MCUCR g1) (Z.lnot 0x10))) g1).
  assert (Hwf2 : gpio_wf g2) by (destruct Hwf1; constructor; assumption).
  apply (set_inputs_bits ColumnPins g2 Hwf2 Hcols).
Qed.

(** X6.  A call of [KeyboardScanMatrix] made with every row pin an input on
    its pull-up, as [KeyboardInit] leaves them, returns with every
    direction, output and input register holding what it held before: no
    row stays driven between scans. *)
Theorem scan_restores_pins (st : matrix_state) (g : gpio) :
  gpio_wf g -> (CurrentRow st < MATRIX_ROWS)%nat ->
  (forall r, (r < MATRIX_ROWS)%nat ->
             pin_pulled_up g (fst (RowPins !!! r)) (snd (RowPins !!! r))) ->
  KeyboardScanMatrix_gpio st g = g.
Proof.
  intros Hwf Hcur Hup. unfold KeyboardScanMatrix_gpio, ROWS_PER_REPORT.
  cbn [seq foldl fst snd].
  assert (Hup' : forall r, (r < MATRIX_ROWS)%nat -> pin_pulled_up g 2 r).
  { intros r Hr. specialize (Hup r Hr). rewrite row_pin in Hup by exact Hr. exact Hup. }
  rewrite (row_cycle_restores (CurrentRow st) g Hwf Hcur (Hup' _ Hcur)).
  apply row_cycle_restores; [exact Hwf | | apply Hup'].
  - unfold next_row. cbn [set_CurrentRow CurrentRow].
    destruct (Nat.leb_spec MATRIX_ROWS (S (CurrentRow st))); unfold MATRIX_ROWS in *; lia.
  - unfold next_row. cbn [set_CurrentRow CurrentRow].
    destruct (Nat.leb_spec MATRIX_ROWS (S (CurrentRow st))); unfold MATRIX_ROWS in *; lia.
Qed.

Lemma scan_restores_pins_witness :
  KeyboardScanMatrix_gpio matrix_reset (KeyboardInit gpio_reset) = KeyboardInit gpio_reset.
Proof.
  apply scan_restores_pins.
  - apply KeyboardInit_wf, gpio_reset_wf.
  - cbn. unfold MATRIX_ROWS. lia.
  - intros r Hr. apply KeyboardInit_rows_pulled_up; [apply gpio_reset_wf | exact Hr].
Defined.

Lemma row_activate_effect_witness :
  pin_driven (row_activate 3 (KeyboardInit gpio_reset)) 2 3 false
  /\ pin_pulled_up (row_activate 3 (KeyboardInit gpio_reset)) 2 4.
Proof.
  destruct (row_activate_effect 3 (KeyboardInit gpio_reset)
              (KeyboardInit_wf _ gpio_reset_wf) ltac:(unfold MATRIX_ROWS; lia))
    as (Hd & _ & _ & Hrows).
  split; [exact Hd|].
  apply (Hrows 4%nat); [unfold MATRIX_ROWS; lia | lia |].
  apply (KeyboardInit_rows_pulled_up gpio_reset 4 gpio_reset_wf).
  unfold MATRIX_ROWS. lia.
Defined.

(** ** Waiting on the timer *)

Lemma delay_loop_spec tcnt D fuel k n :
  delay_loop tcnt (u16 (tcnt 0%nat)) D k fuel = Some n
  <-> (k <= n < k + fuel)%nat /\ D <= elapsed_ticks tcnt n
      /\ forall j, (k <= j < n)%nat -> elapsed_ticks tcnt j < D.
Proof.
  revert k. induction fuel as [|fuel IH]; intros k; cbn [delay_loop].
  - split; [discriminate | intros [H _]; lia].
  - fold (elapsed_ticks tcnt k).
    destruct (Z.ltb_spec (elapsed_ticks tcnt k) D) as [Hlt|Hge].
    + rewrite IH. split.
      * intros (Hn & HD & Hj). split; [lia|]. split; [exact HD|].
        intros j Hjr. destruct (decide (j = k)) as [->|Hne]; [exact Hlt | apply Hj; lia].
      * intros (Hn & HD & Hj).
        assert (n <> k) by (intros ->; lia).
        split; [lia|]. split; [exact HD|]. intros j Hjr. apply Hj. lia.
    + split.
      * intros [= <-]. split; [lia|]. split; [exact Hge|]. intros j Hj. lia.
      * intros (Hn & HD & Hj). f_equal.
        destruct (decide (n = k)) as [->|Hne]; [reflexivity|].
        specialize (Hj k ltac:(lia)). lia.
Qed.

(** X7.  [DelayMicroseconds] returns at the first read of the timer, after
    the one that gives the start time, at which the ticks elapsed, taken
    modulo 2^16, have reached twice the number of microseconds (itself
    taken modulo 2^16), and at no other; it is still waiting when the bound
    on the iterations is reached exactly when no such read lies within
    it. *)
Theorem delay_returns_at_first_expiry (MicroSeconds : Z) (tcnt : nat -> Z) (fuel n : nat) :
  DelayMicroseconds MicroSeconds tcnt fuel = Some n
  <-> (1 <= n <= fuel)%nat
      /\ u16 (MicroSeconds * 2) <= elapsed_ticks tcnt n
      /\ forall j, (1 <= j < n)%nat -> elapsed_ticks tcnt j < u16 (MicroSeconds * 2).
Proof.
  unfold DelayMicroseconds. rewrite delay_loop_spec.
  split; intros (Hn & HD & Hj); (split; [lia|]); (split; [exact HD|]); exact Hj.
Qed.

Lemma elapsed_steady start d k :
  0 <= Z.of_nat k * d < 65536 -> elapsed_ticks (steady_timer start d) k = Z.of_nat k * d.
Proof.
  intros H. unfold elapsed_ticks, steady_timer, u16.
  rewrite <- Zdiv.Zminus_mod.
  replace (start + Z.of_nat k * d - (start + Z.of_nat 0 * d)) with (Z.of_nat k * d) by lia.
  apply Z.mod_small. exact H.
Qed.

(** X8.  With the timer read every [d] ticks, from any start value, a delay
    of up to 32767 microseconds returns, lasts at least the time asked for
    and overshoots by less than one interval between reads, however the
    16-bit counter wraps in the meantime. *)
Theorem delay_steady_timer (MicroSeconds start d : Z) :
  0 <= MicroSeconds <= 32767 -> 1 <= d -> 2 * MicroSeconds + d <= 65536 ->
  exists n : nat,
    (1 <= n)%nat
    /\ (forall fuel, (n <= fuel)%nat ->
          DelayMicroseconds MicroSeconds (steady_timer start d) fuel = Some n)
    /\ 2 * MicroSeconds <= Z.of_nat n * d
    /\ (n = 1%nat \/ Z.of_nat n * d < 2 * MicroSeconds + d).
Proof.
  intros Hus Hd Hfit.
  set (a := 2 * MicroSeconds + d - 1).
  set (q := a / d).
  assert (Hq1 : d * q <= a) by (apply Z.mul_div_le; lia).
  assert (Hq2 : a < d * q + d).
  { pose proof (Z.mul_succ_div_gt a d ltac:(lia)) as H. fold q in H. lia. }
  assert (Hq0 : 0 <= q) by (apply Z.div_pos; unfold a; lia).
  assert (HD : u16 (MicroSeconds * 2) = 2 * MicroSeconds).
  { unfold u16. rewrite Z.mod_small; lia. }
  destruct (Z.eq_dec q 0) as [Hz|Hnz].
  - (* the first read already suffices *)
    exists 1%nat. split; [lia|]. split; [|split; [|left; reflexivity]].
    + intros fuel Hf. unfold DelayMicroseconds. apply delay_loop_spec.
      split; [lia|]. rewrite HD. split; [|intros j Hj; lia].
      destruct (Z.eq_dec d 65536) as [->|Hd'].
      * assert (MicroSeconds = 0) by lia. subst MicroSeconds.
        unfold elapsed_ticks, u16.
        match goal with |- _ <= ?x mod ?m => pose proof (Z.mod_pos_bound x m) end. lia.
      * rewrite elapsed_steady by lia. subst q. rewrite Hz in Hq2. unfold a in Hq2. lia.
    + rewrite Hz in Hq2. unfold a in Hq2. lia.
  - exists (Z.to_nat q). rewrite Z2Nat.id by lia.
    assert (Hqd : q * d = d * q) by lia.
    split; [lia|]. split; [|split; [|right]].
    + intros fuel Hf. unfold DelayMicroseconds. apply delay_loop_spec.
      split; [lia|]. rewrite HD. split.
      * rewrite elapsed_steady; rewrite Z2Nat.id by lia; unfold a in *; lia.
      * intros j Hj.
        assert (Hjq : Z.of_nat j <= q - 1) by lia.
        assert (Hm : Z.of_nat j * d <= (q - 1) * d)
          by (apply Z.mul_le_mono_nonneg_r; lia).
        assert (Hj0 : 0 <= Z.of_nat j * d) by (apply Z.mul_nonneg_nonneg; lia).
        rewrite elapsed_steady; unfold a in *; lia.
    + unfold a in *. lia.
    + unfold a in *. lia.
Qed.

Lemma delay_steady_timer_witness :
  exists n : nat,
    (1 <= n)%nat
    /\ (forall fuel, (n <= fuel)%nat ->
          DelayMicroseconds 100 (steady_timer 65500 7) fuel = Some n)
    /\ 2 * 100 <= Z.of_nat n * 7
    /\ (n = 1%nat \/ Z.of_nat n * 7 < 2 * 100 + 7).
Proof. apply (delay_steady_timer 100 65500 7); lia. Defined.

(** *** ADBWait *)

Lemma elapsed_us_nonneg tcnt k : 0 <= elapsed_us tcnt k.
Proof.
  unfold elapsed_us, elapsed_ticks, u16. apply Z.div_pos; [|lia].
  apply Z.mod_pos_bound. lia.
Qed.

(** The loop from iteration [k] on, entered with [m] in [Microseconds]. *)
Lemma wait_loop_spec pind tcnt d fuel k m r :
  0 <= m < ADB_TIMEOUT ->
  wait_loop pind tcnt d (u16 (tcnt 0%nat)) m k fuel = Some r ->
  (r = ADB_TIMEOUT
   /\ exists n, (k <= n < k + fuel)%nat
        /\ (forall j, (k <= j <= n)%nat -> READ_ADB_PIN (pind j) <> d)
        /\ (forall j, (k <= j < n)%nat -> elapsed_us tcnt (S j) < ADB_TIMEOUT)
        /\ ADB_TIMEOUT <= elapsed_us tcnt (S n))
  \/ (0 <= r < ADB_TIMEOUT
      /\ exists n, (k <= n < k + fuel)%nat
           /\ READ_ADB_PIN (pind n) = d
           /\ r = (if (n =? k)%nat then m else elapsed_us tcnt n)
           /\ (forall j, (k <= j < n)%nat ->
                 READ_ADB_PIN (pind j) <> d /\ elapsed_us tcnt (S j) < ADB_TIMEOUT)).
Proof.
  revert k m. induction fuel as [|fuel IH]; intros k m Hm; cbn [wait_loop]; [discriminate|].
  destruct (Z.eqb_spec (READ_ADB_PIN (pind k)) d) as [Heq|Hne]; cbn [negb].
  - intros [= <-]. right. split; [exact Hm|]. exists k.
    split; [lia|]. split; [exact Heq|]. split; [rewrite Nat.eqb_refl; reflexivity|].
    intros j Hj. lia.
  - fold (elapsed_ticks tcnt (S k)). fold (elapsed_us tcnt (S k)).
    destruct (Z.geb_spec (elapsed_us tcnt (S k)) ADB_TIMEOUT) as [Hto|Hok].
    + intros [= <-]. left. split; [reflexivity|]. exists k.
      split; [lia|]. split; [|split; [intros j Hj; lia | exact Hto]].
      intros j Hj. assert (j = k) by lia. subst j. exact Hne.
    + intros Hr. pose proof (elapsed_us_nonneg tcnt (S k)) as H0.
      destruct (IH (S k) _ (conj H0 Hok) Hr)
        as [(-> & n & Hn & Hpin & Hus & Hto)|(Hrr & n & Hn & Hpin & Hval & Hprev)].
      * left. split; [reflexivity|]. exists n. split; [lia|].
        split; [|split; [|exact Hto]].
        -- intros j Hj. destruct (decide (j = k)) as [->|]; [exact Hne | apply Hpin; lia].
        -- intros j Hj. destruct (decide (j = k)) as [->|]; [exact Hok | apply Hus; lia].
      * right. split; [exact Hrr|]. exists n. split; [lia|]. split; [exact Hpin|].
        split.
        -- destruct (Nat.eqb_spec n k) as [->|_]; [lia|].
           destruct (Nat.eqb_spec n (S k)) as [->|_]; exact Hval.
        -- intros j Hj. destruct (decide (j = k)) as [->|];
             [split; [exact Hne | exact Hok] | apply Hprev; lia].
Qed.

(** X9.  What [ADBWait] returns.  It is never more than [ADB_TIMEOUT].  It
    is [ADB_TIMEOUT] only when the line was never seen in the desired state
    and the elapsed time, half the timer ticks modulo 2^16, reached 255
    microseconds.  Otherwise the line was seen in the desired state, at
    the first sample for the result 0, and the result is the elapsed time
    computed in the iteration before, not at that sample. *)
Theorem ADBWait_result (DesiredLineState : Z) (pind tcnt : nat -> Z) (fuel : nat) (r : Z) :
  ADBWait DesiredLineState pind tcnt fuel = Some r ->
  0 <= r <= ADB_TIMEOUT
  /\ ((r = ADB_TIMEOUT
       /\ exists n, (n < fuel)%nat
            /\ (forall j, (j <= n)%nat -> READ_ADB_PIN (pind j) <> DesiredLineState)
            /\ ADB_TIMEOUT <= elapsed_us tcnt (S n))
      \/ (r < ADB_TIMEOUT
          /\ exists n, (n < fuel)%nat
               /\ READ_ADB_PIN (pind n) = DesiredLineState
               /\ r = (if (n =? 0)%nat then 0 else elapsed_us tcnt n)
               /\ (forall j, (j < n)%nat ->
                     READ_ADB_PIN (pind j) <> DesiredLineState
                     /\ elapsed_us tcnt (S j) < ADB_TIMEOUT))).
Proof.
  unfold ADBWait. intros H.
  destruct (wait_loop_spec pind tcnt DesiredLineState fuel 0 0 r
              ltac:(unfold ADB_TIMEOUT; lia) H)
    as [(-> & n & Hn & Hpin & _ & Hto)|(Hr & n & Hn & Hpin & Hval & Hprev)].
  - split; [unfold ADB_TIMEOUT; lia|]. left. split; [reflexivity|].
    exists n. split; [lia|]. split; [intros j Hj; apply Hpin; lia | exact Hto].
  - split; [lia|]. right. split; [lia|]. exists n. split; [lia|].
    split; [exact Hpin|]. split; [exact Hval|]. intros j Hj. apply Hprev. lia.
Qed.

Lemma ADBWait_result_witness :
  0 <= 4 <= ADB_TIMEOUT
  /\ ADBWait 0 (fun k => if (k <? 2)%nat then 2 else 0) (steady_timer 65530 4) 10 = Some 4.
Proof.
  split; [|vm_compute; reflexivity].
  apply (ADBWait_result 0 (fun k => if (k <? 2)%nat then 2 else 0) (steady_timer 65530 4)
           10 4 eq_refl).
Defined.

Lemma wait_loop_returns pind tcnt d fuel k m n :
  (k <= n < k + fuel)%nat -> ADB_TIMEOUT <= elapsed_us tcnt (S n) ->
  exists r, wait_loop pind tcnt d (u16 (tcnt 0%nat)) m k fuel = Some r.
Proof.
  revert k m. induction fuel as [|fuel IH]; intros k m Hn Hto; [lia|].
  cbn [wait_loop].
  destruct (negb (READ_ADB_PIN (pind k) =? d)); [|eexists; reflexivity].
  fold (elapsed_ticks tcnt (S k)). fold (elapsed_us tcnt (S k)).
  destruct (Z.geb_spec (elapsed_us tcnt (S k)) ADB_TIMEOUT) as [_|Hok];
    [eexists; reflexivity|].
  apply IH; [|exact Hto].
  destruct (decide (n = k)) as [->|]; [lia | lia].
Qed.

(** X10.  [ADBWait] gives up in time: if some read of the timer shows 255
    microseconds or more elapsed, the call has returned by the iteration
    that makes that read, whatever the line does. *)
Theorem ADBWait_returns (DesiredLineState : Z) (pind tcnt : nat -> Z) (fuel n : nat) :
  (n < fuel)%nat -> ADB_TIMEOUT <= elapsed_us tcnt (S n) ->
  exists r, ADBWait DesiredLineState pind tcnt fuel = Some r.
Proof.
  intros Hn Hto. unfold ADBWait.
  apply (wait_loop_returns pind tcnt DesiredLineState fuel 0 0 n); [lia | exact Hto].
Qed.

Lemma ADBWait_returns_witness :
  exists r, ADBWait 0 (fun _ => 2) (steady_timer 65000 100) 6 = Some r.
Proof.
  apply (ADBWait_returns 0 (fun _ => 2) (steady_timer 65000 100) 6 5); [lia|].
  vm_compute. discriminate.
Defined.

(** ** The ADB line *)

Lemma land_0x80 x : (Z.land x 0x80 =? 0) = negb (Z.testbit x 7).
Proof.
  destruct (Z.testbit x 7) eqn:E; cbn [negb].
  - apply Z.eqb_neq. intros H.
    assert (F : Z.testbit (Z.land x 0x80) 7 = true)
      by (rewrite Z.land_spec, E; reflexivity).
    rewrite H in F. discriminate F.
  - apply Z.eqb_eq. apply Z.bits_inj'. intros n Hn.
    rewrite Z.land_spec, Z.bits_0. change 0x80 with (2 ^ 7).
    rewrite Z.pow2_bits_eqb by lia.
    destruct (Z.eqb_spec 7 n) as [<-|_]; [rewrite E; reflexivity | apply andb_false_r].
Qed.

Lemma u8_shiftl_u8 x : u8 (Z.shiftl (u8 x) 1) = u8 (Z.shiftl x 1).
Proof.
  unfold u8. rewrite !Z.shiftl_mul_pow2 by lia.
  apply Z.mul_mod_idemp_l. lia.
Qed.

Lemma command_bits (Command : Z) (n : nat) :
  (n <= 8)%nat ->
  foldl (fun (s : Z * list line_op) (_ : nat) =>
           let '(Command, ops) := s in
           (u8 (Z.shiftl Command 1),
            ops ++ (if negb (Z.land Command 0x80 =? 0)
                    then ADBWriteOneBit else ADBWriteZeroBit)))
        (u8 Command, []) (seq 0 n)
  = (u8 (Z.shiftl Command (Z.of_nat n)),
     flat_map (fun i => bit_cell (Z.testbit Command (7 - Z.of_nat i))) (seq 0 n)).
Proof.
  induction n as [|n IH]; intros Hn.
  - cbn [seq foldl flat_map]. rewrite Z.shiftl_0_r. reflexivity.
  - rewrite seq_S, foldl_snoc, IH by lia. cbn [Nat.add].
    rewrite flat_map_app. cbn [flat_map]. rewrite app_nil_r.
    f_equal.
    + rewrite u8_shiftl_u8, Z.shiftl_shiftl by lia. f_equal. f_equal. lia.
    + f_equal. rewrite land_0x80, negb_involutive.
      rewrite (u8_testbit _ 7) by lia.
      rewrite Z.shiftl_spec by lia. reflexivity.
Qed.

(** X11.  [ADBWriteCommand] sends the attention and sync signals, the eight
    bits of the command from the most significant down, each as a 100
    microsecond cell that is low for 35 microseconds for a 1 and for 65 for
    a 0, and a 0 as stop bit; only the low eight bits of [Command] matter,
    and the whole takes 1770 microseconds of delays whatever the command. *)
Theorem ADBWriteCommand_cells (Command : Z) :
  ADBWriteCommand Command
  = [Write 0; Delay 800; Write 1; Delay 70]
    ++ flat_map (fun i => bit_cell (Z.testbit Command (7 - Z.of_nat i))) (seq 0 8)
    ++ bit_cell false
  /\ duration (ADBWriteCommand Command) = 1770
  /\ low_times (ADBWriteCommand Command)
     = 800 :: map (fun i => if Z.testbit Command (7 - Z.of_nat i) then 35 else 65) (seq 0 8)
       ++ [65].
Proof.
  assert (H : ADBWriteCommand Command
              = [Write 0; Delay 800; Write 1; Delay 70]
                ++ flat_map (fun i => bit_cell (Z.testbit Command (7 - Z.of_nat i))) (seq 0 8)
                ++ bit_cell false).
  { unfold ADBWriteCommand. rewrite command_bits by lia. reflexivity. }
  split; [exact H|]. rewrite H. cbn [seq flat_map map app Z.of_nat].
  split.
  - repeat match goal with |- context [Z.testbit ?a ?b] => destruct (Z.testbit a b) end;
      reflexivity.
  - repeat match goal with |- context [Z.testbit ?a ?b] => destruct (Z.testbit a b) end;
      reflexivity.
Qed.

(** *** ADBRead16 *)

Lemma measure_low_Some wait k n ds :
  measure_low wait k n = Some ds ->
  length ds = n /\ forall i, (i < n)%nat -> ds !!! i = wait (k + 2 * i + 1)%nat.
Proof.
  revert k ds. induction n as [|n IH]; intros k ds; cbn [measure_low].
  - intros [= <-]. split; [reflexivity | intros i Hi; lia].
  - destruct (wait k =? ADB_TIMEOUT); [discriminate|].
    destruct (wait (S k) =? ADB_TIMEOUT); [discriminate|].
    destruct (measure_low wait (S (S k)) n) as [ds'|] eqn:E; [|discriminate].
    intros [= <-]. destruct (IH _ _ E) as [Hlen Hval]. split; [cbn; lia|].
    intros [|i] Hi.
    + cbn. f_equal. lia.
    + cbn [lookup_total list_lookup_total]. rewrite Hval by lia. f_equal. lia.
Qed.

Lemma lor_1_range a : 0 <= a < 65536 -> 0 <= Z.lor a 1 < 65536.
Proof.
  intros Ha. split; [apply Z.lor_nonneg; lia|].
  destruct (Z.eq_dec a 0) as [->|Hne]; [change (Z.lor 0 1) with 1; lia|].
  change 65536 with (2 ^ 16). apply Z.log2_lt_pow2.
  - assert (0 <= Z.lor a 1) by (apply Z.lor_nonneg; lia).
    assert (Z.lor a 1 <> 0) by (intros E; apply Z.lor_eq_0_iff in E; lia). lia.
  - rewrite Z.log2_lor by lia. change (Z.log2 1) with 0.
    assert (Z.log2 a < 16) by (apply Z.log2_lt_pow2; lia).
    pose proof (Z.log2_nonneg a). lia.
Qed.

Lemma u16_range x : 0 <= u16 x < 65536.
Proof. unfold u16. apply Z.mod_pos_bound. lia. Qed.

(** One step of the decoding loop shifts one bit in at the bottom. *)
Lemma shift_in_bit (b : bool) (r : Z) (j : nat) :
  (j < 16)%nat ->
  let r1 := u16 (Z.shiftl r 1) in
  Z.testbit (if b then Z.lor r1 0x01 else r1) (Z.of_nat j)
  = match j with O => b | S j' => Z.testbit r (Z.of_nat j') end.
Proof.
  intros Hj. cbv zeta.
  assert (Hu : Z.testbit (u16 (Z.shiftl r 1)) (Z.of_nat j)
               = match j with O => false | S j' => Z.testbit r (Z.of_nat j') end).
  { unfold u16. change 65536 with (2 ^ 16). rewrite Z.mod_pow2_bits_low by lia.
    destruct j as [|j'].
    - apply Z.shiftl_spec_low. lia.
    - rewrite Z.shiftl_spec by lia. f_equal. lia. }
  destruct b.
  - rewrite Z.lor_spec, Hu. destruct j as [|j']; [apply orb_true_r|].
    change 1 with (2 ^ 0). rewrite Z.pow2_bits_eqb by lia.
    destruct (Z.eqb_spec 0 (Z.of_nat (S j'))); [lia | apply orb_false_r].
  - exact Hu.
Qed.

Lemma decode_loop (b : nat -> bool) (n : nat) :
  let v := foldl (fun RegisterValue i =>
                    let RegisterValue := u16 (Z.shiftl RegisterValue 1) in
                    if b i then Z.lor RegisterValue 0x01 else RegisterValue)
                 0 (seq 0 n) in
  0 <= v < 65536
  /\ forall j, (j < 16)%nat ->
       Z.testbit v (Z.of_nat j) = if (j <? n)%nat then b (n - 1 - j)%nat else false.
Proof.
  induction n as [|n IH]; cbv zeta.
  - cbn [seq foldl]. split; [lia|]. intros j _. rewrite Z.bits_0. reflexivity.
  - rewrite seq_S, foldl_snoc. cbn [Nat.add]. cbv zeta in IH. destruct IH as [Hr Hb].
    set (r := foldl _ 0 (seq 0 n)) in *. split.
    + destruct (b n); [apply lor_1_range|]; apply u16_range.
    + intros j Hj. pose proof (shift_in_bit (b n) r j Hj) as H. cbv zeta in H.
      rewrite H. destruct j as [|j'].
      * replace (S n - 1 - 0)%nat with n by lia. reflexivity.
      * rewrite Hb by lia.
        change (S j' <? S n)%nat with (j' <? n)%nat.
        replace (S n - 1 - S j')%nat with (n - 1 - j')%nat by lia. reflexivity.
Qed.

Lemma foldl_ext_in {A B : Type} (f g : A -> B -> A) (l : list B) (a : A) :
  (forall a x, In x l -> f a x = g a x) -> foldl f a l = foldl g a l.
Proof.
  revert a. induction l as [|x l IH]; intros a H; cbn [foldl]; [reflexivity|].
  rewrite H by (left; reflexivity). apply IH. intros a' x' Hx. apply H. right. exact Hx.
Qed.

Lemma decode_durations_ext (L L' : list Z) :
  (forall i, (i < 16)%nat -> L' !!! (i + 1)%nat = L !!! (i + 1)%nat) ->
  decode_durations L' = decode_durations L.
Proof.
  intros H. unfold decode_durations. apply foldl_ext_in.
  intros a i Hi. apply in_seq in Hi. rewrite H by lia. reflexivity.
Qed.

(** X12.  When [ADBRead16] succeeds, the value it stores has sixteen bits,
    and its bit [15 - i] is set exactly when the line was low for less than
    [ADB_THRESHOLD] microseconds in bit cell [i + 1]: the first cell, the
    start bit, and the last, the stop bit, are measured, since a timeout in
    them fails the read, but their lengths are ignored. *)
Theorem ADBRead16_bits (wait : nat -> Z) (v : Z) :
  ADBRead16 wait = Some v ->
  0 <= v < 65536
  /\ (forall i, (i < 16)%nat ->
        Z.testbit v (15 - Z.of_nat i) = (wait (2 * (i + 1) + 1)%nat <? ADB_THRESHOLD))
  /\ (forall wait', (forall k, (k < 36)%nat -> wait' k <> ADB_TIMEOUT) ->
        (forall i, (i < 16)%nat ->
           wait' (2 * (i + 1) + 1)%nat = wait (2 * (i + 1) + 1)%nat) ->
        ADBRead16 wait' = Some v).
Proof.
  unfold ADBRead16. destruct (measure_low wait 0 18) as [L|] eqn:E; [|discriminate].
  intros [= <-]. destruct (measure_low_Some _ _ _ _ E) as [Hlen HL].
  assert (Hdec : forall L' : list Z,
            decode_durations L'
            = foldl (fun RegisterValue i =>
                       let RegisterValue := u16 (Z.shiftl RegisterValue 1) in
                       if (fun i => L' !!! (i + 1)%nat <? ADB_THRESHOLD) i
                       then Z.lor RegisterValue 0x01 else RegisterValue)
                    0 (seq 0 16)) by reflexivity.
  pose proof (decode_loop (fun i => L !!! (i + 1)%nat <? ADB_THRESHOLD) 16) as [Hr Hb].
  cbv zeta in Hr, Hb. rewrite <- Hdec in Hr, Hb.
  split; [exact Hr|]. split.
  - intros i Hi. specialize (Hb (15 - i)%nat ltac:(lia)).
    replace (Z.of_nat (15 - i)) with (15 - Z.of_nat i) in Hb by lia.
    rewrite Hb. destruct (Nat.ltb_spec (15 - i) 16); [|lia].
    replace (16 - 1 - (15 - i))%nat with i by lia.
    rewrite HL by lia. f_equal.
  - intros wait' Hok Hsame.
    destruct (measure_low wait' 0 18) as [L'|] eqn:E'.
    + f_equal. destruct (measure_low_Some _ _ _ _ E') as [Hlen' HL'].
      apply decode_durations_ext. intros i Hi. rewrite HL, HL' by lia.
      cbn [Nat.add]. apply Hsame. exact Hi.
    + exfalso. apply measure_low_None in E'. destruct E' as (j & Hj & Hw).
      apply (Hok j); [lia | exact Hw].
Qed.

Lemma ADBRead16_bits_witness :
  0 <= 0x807E < 65536 /\ Z.testbit 0x807E (15 - Z.of_nat 0) = (line_sending 0x807E 3 <? ADB_THRESHOLD).
Proof.
  destruct (ADBRead16_bits (line_sending 0x807E) 0x807E ltac:(vm_compute; reflexivity))
    as (Hr & Hb & _).
  split; [exact Hr|]. apply (Hb 0%nat). lia.
Defined.

(** *** The ADB pin *)

Lemma run_ops_app a b g : run_ops (a ++ b) g = run_ops b (run_ops a g).
Proof. unfold run_ops. apply foldl_app. Qed.

(** Every call leaves the other pins alone. *)
Lemma run_op_others g o :
  gpio_wf g ->
  let g' := run_op g o in
  gpio_wf g' /\ PIN g' = PIN g
  /\ (forall q i, (q < 6)%nat -> (i < 8)%nat -> ~ (q = ADB_PORT /\ i = ADB_PIN) ->
        reg_bit (DDR g') q i = reg_bit (DDR g) q i
        /\ reg_bit (PORT g') q i = reg_bit (PORT g) q i).
Proof.
  intros Hwf. cbv zeta. destruct o as [Val|IsOutput|us]; cbn [run_op].
  - destruct (WritePortPin_bits ADB_PORT ADB_PIN Val g Hwf
                ltac:(unfold ADB_PORT; lia) ltac:(unfold ADB_PIN; lia))
      as (W & D & I & _ & O). cbv zeta in *.
    split; [exact W|]. split; [exact I|]. intros q i Hq Hi Hne.
    rewrite D, O by assumption. destruct (decide _); [contradiction | split; reflexivity].
  - destruct (SetPortPinDirection_bits ADB_PORT ADB_PIN IsOutput g Hwf
                ltac:(unfold ADB_PORT; lia) ltac:(unfold ADB_PIN; lia))
      as (W & I & _ & D & O). cbv zeta in *.
    split; [exact W|]. split; [exact I|]. intros q i Hq Hi Hne.
    rewrite D, O by assumption. destruct (decide _); [contradiction | split; reflexivity].
  - split; [exact Hwf|]. split; [reflexivity|]. intros; split; reflexivity.
Qed.

Lemma run_ops_others ops g :
  gpio_wf g ->
  let g' := run_ops ops g in
  gpio_wf g' /\ PIN g' = PIN g
  /\ (forall q i, (q < 6)%nat -> (i < 8)%nat -> ~ (q = ADB_PORT /\ i = ADB_PIN) ->
        reg_bit (DDR g') q i = reg_bit (DDR g) q i
        /\ reg_bit (PORT g') q i = reg_bit (PORT g) q i).
Proof.
  intros Hwf. cbv zeta. unfold run_ops. revert g Hwf.
  induction ops as [|o ops IH]; intros g Hwf; cbn [foldl].
  - split; [exact Hwf|]. split; [reflexivity|]. intros; split; reflexivity.
  - destruct (run_op_others g o Hwf) as (W & I & B). cbv zeta in *.
    destruct (IH _ W) as (W' & I' & B').
    split; [exact W'|]. split; [congruence|]. intros q i Hq Hi Hne.
    destruct (B q i Hq Hi Hne) as [E1 E2]. destruct (B' q i Hq Hi Hne) as [F1 F2].
    split; congruence.
Qed.

(** Turning the pin into an input and back into an output leaves it driven
    high: the pull-up bit set on the way is the level driven afterwards. *)
Lemma input_then_output g :
  gpio_wf g -> pin_driven (run_ops [Direction 0; Delay 100; Direction 1] g) ADB_PORT ADB_PIN true.
Proof.
  intros Hwf. unfold run_ops. cbn [foldl run_op].
  destruct (SetPortPinDirection_bits ADB_PORT ADB_PIN 0 g Hwf
              ltac:(unfold ADB_PORT; lia) ltac:(unfold ADB_PIN; lia))
    as (W1 & _ & _ & D1 & O1). cbv zeta in *.
  destruct (SetPortPinDirection_bits ADB_PORT ADB_PIN 1 _ W1
              ltac:(unfold ADB_PORT; lia) ltac:(unfold ADB_PIN; lia))
    as (W2 & _ & _ & D2 & O2). cbv zeta in *.
  assert (HP : (ADB_PORT < 6)%nat) by (unfold ADB_PORT; lia).
  assert (HN : (ADB_PIN < 8)%nat) by (unfold ADB_PIN; lia).
  split.
  - rewrite D2 by assumption.
    destruct (decide _) as [_|N]; [reflexivity | exfalso; apply N; auto].
  - rewrite O2, O1 by assumption.
    destruct (decide _) as [_|N]; [reflexivity | exfalso; apply N; auto].
Qed.

Lemma ADBRead16_line_eq wait : ADBRead16_line wait = [Direction 0; Delay 100; Direction 1].
Proof. unfold ADBRead16_line. destruct (measure_low wait 0 18); reflexivity. Qed.

Lemma poll_line g wait :
  gpio_wf g ->
  let g' := run_ops (ADBPollMouse_line wait) g in
  gpio_wf g' /\ pin_driven g' ADB_PORT ADB_PIN true /\ PIN g' = PIN g
  /\ (forall q i, (q < 6)%nat -> (i < 8)%nat -> ~ (q = ADB_PORT /\ i = ADB_PIN) ->
        reg_bit (DDR g') q i = reg_bit (DDR g) q i
        /\ reg_bit (PORT g') q i = reg_bit (PORT g) q i).
Proof.
  intros Hwf. cbv zeta.
  destruct (run_ops_others (ADBPollMouse_line wait) g Hwf) as (W & I & B). cbv zeta in *.
  split; [exact W|]. split; [|split; [exact I | exact B]].
  unfold ADBPollMouse_line. rewrite run_ops_app, ADBRead16_line_eq.
  apply input_then_output. apply (run_ops_others _ g Hwf).
Qed.

Lemma init_line g :
  gpio_wf g ->
  let g' := run_ops ADBMouseInit g in
  gpio_wf g' /\ pin_driven g' ADB_PORT ADB_PIN true /\ PIN g' = PIN g
  /\ (forall q i, (q < 6)%nat -> (i < 8)%nat -> ~ (q = ADB_PORT /\ i = ADB_PIN) ->
        reg_bit (DDR g') q i = reg_bit (DDR g) q i
        /\ reg_bit (PORT g') q i = reg_bit (PORT g) q i).
Proof.
  intros Hwf. cbv zeta.
  destruct (run_ops_others ADBMouseInit g Hwf) as (W & I & B). cbv zeta in *.
  split; [exact W|]. split; [|split; [exact I | exact B]].
  assert (HP : (ADB_PORT < 6)%nat) by (unfold ADB_PORT; lia).
  assert (HN : (ADB_PIN < 8)%nat) by (unfold ADB_PIN; lia).
  unfold run_ops, ADBMouseInit. cbn [foldl run_op].
  destruct (SetPortPinDirection_bits ADB_PORT ADB_PIN 1 g Hwf HP HN)
    as (W1 & _ & _ & D1 & _). cbv zeta in *.
  destruct (WritePortPin_bits ADB_PORT ADB_PIN 1 _ W1 HP HN) as (W2 & D2 & _). cbv zeta in *.
  destruct (WritePortPin_bits ADB_PORT ADB_PIN 0 _ W2 HP HN) as (W3 & D3 & _). cbv zeta in *.
  destruct (WritePortPin_bits ADB_PORT ADB_PIN 1 _ W3 HP HN)
    as (W4 & D4 & _ & _ & O4). cbv zeta in *.
  split.
  - rewrite D4, D3, D2, D1 by assumption.
    destruct (decide _) as [_|N]; [reflexivity | exfalso; apply N; auto].
  - rewrite O4 by assumption.
    destruct (decide _) as [_|N]; [reflexivity | exfalso; apply N; auto].
Qed.

(** X13.  After [ADBMouseInit] and any number of calls of [ADBPollMouse],
    whatever the mouse did or failed to do during them, the ADB pin is an
    output driving the line high: every way out of [ADBRead16] turns the
    pin back into an output, and the pull-up bit set while it was an input
    is the high level driven afterwards.  No other pin's direction or
    output bit is touched. *)
Theorem adb_line_idle_high (waits : list (nat -> Z)) (g : gpio) :
  gpio_wf g ->
  let g' := run_ops (ADBMouseInit ++ flat_map ADBPollMouse_line waits) g in
  gpio_wf g' /\ pin_driven g' ADB_PORT ADB_PIN true /\ PIN g' = PIN g
  /\ (forall q i, (q < 6)%nat -> (i < 8)%nat -> ~ (q = ADB_PORT /\ i = ADB_PIN) ->
        reg_bit (DDR g') q i = reg_bit (DDR g) q i
        /\ reg_bit (PORT g') q i = reg_bit (PORT g) q i).
Proof.
  intros Hwf. cbv zeta. rewrite run_ops_app.
  destruct (init_line g Hwf) as (W0 & P0 & I0 & B0). cbv zeta in *.
  revert W0 P0 I0 B0. generalize (run_ops ADBMouseInit g) as g0.
  induction waits as [|wait waits IH]; intros g0 W0 P0 I0 B0; cbn [flat_map].
  - exact (conj W0 (conj P0 (conj I0 B0))).
  - rewrite run_ops_app.
    destruct (poll_line g0 wait W0) as (W1 & P1 & I1 & B1). cbv zeta in *.
    apply IH; [exact W1 | exact P1 | congruence |].
    intros q i Hq Hi Hne. destruct (B0 q i Hq Hi Hne) as [E1 E2].
    destruct (B1 q i Hq Hi Hne) as [F1 F2]. split; congruence.
Qed.

Lemma adb_line_idle_high_witness :
  pin_driven (run_ops (ADBMouseInit
                       ++ flat_map ADBPollMouse_line
                            [line_sending 0x807E; fun _ => ADB_TIMEOUT]) gpio_reset)
    ADB_PORT ADB_PIN true.
Proof.
  apply (adb_line_idle_high [line_sending 0x807E; fun _ => ADB_TIMEOUT] gpio_reset
           gpio_reset_wf).
Defined.

(** *** The poller *)

Lemma land_pow2 x k :
  0 <= k -> (Z.land x (2 ^ k) =? 0) = negb (Z.testbit x k).
Proof.
  intros Hk. destruct (Z.testbit x k) eqn:E; cbn [negb].
  - apply Z.eqb_neq. intros H.
    assert (F : Z.testbit (Z.land x (2 ^ k)) k = true).
    { rewrite Z.land_spec, E, Z.pow2_bits_true by lia. reflexivity. }
    rewrite H, Z.bits_0 in F. discriminate F.
  - apply Z.eqb_eq. apply Z.bits_inj'. intros n Hn.
    rewrite Z.land_spec, Z.bits_0, Z.pow2_bits_eqb by lia.
    destruct (Z.eqb_spec k n) as [<-|_]; [rewrite E; reflexivity | apply andb_false_r].
Qed.

Lemma field_x_mod r : u8 (Z.land r 0x007f) = r mod 128.
Proof.
  rewrite land_7f. pose proof (Z.mod_pos_bound r 128 ltac:(lia)).
  apply u8_small. lia.
Qed.

Lemma field_y_mod r : u8 (Z.shiftr (Z.land r 0x7f00) 8) = (r / 256) mod 128.
Proof.
  rewrite Z.shiftr_land. change (Z.shiftr 0x7f00 8) with 0x7f.
  rewrite land_7f, Z.shiftr_div_pow2 by lia. change (2 ^ 8) with 256.
  pose proof (Z.mod_pos_bound (r / 256) 128 ltac:(lia)).
  apply u8_small. lia.
Qed.

Lemma accumulate_clamp acc F :
  ACCUMULATED_MIN <= acc <= ACCUMULATED_MAX -> 0 <= F < 128 ->
  accumulate acc F = clamp (acc + adb_delta F).
Proof.
  intros Ha HF. rewrite accumulate_delta. pose proof (adb_delta_range F HF) as Hd.
  unfold clamp, ACCUMULATED_MIN, ACCUMULATED_MAX in *.
  assert (Hpos : F < 0x40 -> 0 <= adb_delta F).
  { intros Hlt. unfold adb_delta. destruct (Z.ltb_spec F 0x40); lia. }
  assert (Hneg : 0x40 <= F -> adb_delta F < 0).
  { intros Hge. unfold adb_delta. destruct (Z.ltb_spec F 0x40); [lia|].
    rewrite !s16_small by lia. lia. }
  rewrite s16_small by lia.
  destruct (Z.ltb_spec F 0x40); lia.
Qed.

(** X14.  A poll that reads the register value [v], made with the
    accumulators within their limits: the low seven bits of each byte of
    [v] are a two's complement delta, added to the accumulator and clipped
    to [[-127, 127]] on both sides; bits 15 and 7 are the buttons, pressed
    when clear. *)
Theorem poll_decodes (wait : nat -> Z) (v : Z) (st : mouse_state) :
  ADBRead16 wait = Some v -> accumulators_in_range st ->
  let st' := snd (ADBPollMouse wait st) in
  fst (ADBPollMouse wait st) = 1
  /\ AccumulatedX st' = clamp (AccumulatedX st + adb_delta (v mod 128))
  /\ AccumulatedY st' = clamp (AccumulatedY st + adb_delta ((v / 256) mod 128))
  /\ -64 <= adb_delta (v mod 128) <= 63
  /\ -64 <= adb_delta ((v / 256) mod 128) <= 63
  /\ Button1State st' = (if Z.testbit v 15 then 0 else 1)
  /\ Button2State st' = (if Z.testbit v 7 then 0 else 1).
Proof.
  intros Hv [Hx Hy]. cbv zeta. unfold ADBPollMouse. rewrite Hv. cbn [fst snd].
  unfold parse_register. cbn [AccumulatedX AccumulatedY Button1State Button2State].
  rewrite field_x_mod, field_y_mod.
  pose proof (Z.mod_pos_bound v 128 ltac:(lia)) as Hfx.
  pose proof (Z.mod_pos_bound (v / 256) 128 ltac:(lia)) as Hfy.
  split; [reflexivity|].
  split; [apply accumulate_clamp; assumption|].
  split; [apply accumulate_clamp; assumption|].
  split; [apply adb_delta_range; exact Hfx|].
  split; [apply adb_delta_range; exact Hfy|].
  change 0x8000 with (2 ^ 15). change 0x0080 with (2 ^ 7).
  rewrite !land_pow2 by lia.
  split; [destruct (Z.testbit v 15) | destruct (Z.testbit v 7)]; reflexivity.
Qed.

Lemma poll_decodes_witness :
  AccumulatedX (snd (ADBPollMouse (line_sending 0x057E) mouse_reset))
  = clamp (0 + adb_delta (0x057E mod 128))
  /\ Button1State (snd (ADBPollMouse (line_sending 0x057E) mouse_reset)) = 1.
Proof.
  assert (Hr : accumulators_in_range mouse_reset)
    by (unfold accumulators_in_range, ACCUMULATED_MIN, ACCUMULATED_MAX; cbn; lia).
  destruct (poll_decodes (line_sending 0x057E) 0x057E mouse_reset
              ltac:(vm_compute; reflexivity) Hr) as (_ & Hx & _ & _ & _ & Hb & _).
  split; [exact Hx | exact Hb].
Defined.

(** *** The mouse report *)

Lemma buttons_binary_poll wait st :
  (Button1State st = 0 \/ Button1State st = 1) ->
  (Button2State st = 0 \/ Button2State st = 1) ->
  let st' := snd (ADBPollMouse wait st) in
  (Button1State st' = 0 \/ Button1State st' = 1)
  /\ (Button2State st' = 0 \/ Button2State st' = 1).
Proof.
  intros H1 H2. cbv zeta. unfold ADBPollMouse.
  destruct (ADBRead16 wait) as [v|]; cbn [snd]; [|split; assumption].
  unfold parse_register. cbn [Button1State Button2State].
  split; [destruct (Z.land v 0x8000 =? 0) | destruct (Z.land v 0x0080 =? 0)]; auto.
Qed.

Lemma poll_range wait st :
  accumulators_in_range st -> accumulators_in_range (snd (ADBPollMouse wait st)).
Proof. intros H. exact (mouse_step_range st (Poll wait) H). Qed.

Lemma mouse_tasks_inv es fs :
  accumulators_in_range (mouse fs) ->
  (Button1State (mouse fs) = 0 \/ Button1State (mouse fs) = 1) ->
  (Button2State (mouse fs) = 0 \/ Button2State (mouse fs) = 1) ->
  let fs' := mouse_tasks es fs in
  accumulators_in_range (mouse fs')
  /\ (Button1State (mouse fs') = 0 \/ Button1State (mouse fs') = 1)
  /\ (Button2State (mouse fs') = 0 \/ Button2State (mouse fs') = 1).
Proof.
  cbv zeta. unfold mouse_tasks. revert fs.
  induction es as [|[wait ready] es IH]; intros fs Hr H1 H2; cbn [foldl fst snd].
  - exact (conj Hr (conj H1 H2)).
  - pose proof (poll_range wait _ Hr) as Hr'.
    destruct (buttons_binary_poll wait _ H1 H2) as [H1' H2']. cbv zeta in *.
    apply IH; unfold Mouse_HID_Task; cbn [negb]; destruct ready; cbn [fst mouse];
      try assumption.
    unfold accumulators_in_range, reset_accumulators, ACCUMULATED_MIN, ACCUMULATED_MAX.
    cbn [AccumulatedX AccumulatedY]. lia.
Qed.

(** X15.  Along any run of the mouse task from reset, whatever the line
    and the endpoint do, a report that is written carries the accumulated
    movement exactly: the conversion to [int8_t] never truncates, the
    movement lies in [[-127, 127]], and the button byte is
    [Button1State + 2 * Button2State], between 0 and 3. *)
Theorem mouse_report_exact (es : list ((nat -> Z) * bool)) (wait : nat -> Z)
    (rep : USB_MouseReport_Data_t) :
  let fs := mouse_tasks es firmware_reset in
  snd (Mouse_HID_Task true wait true fs) = Some rep ->
  let before := snd (ADBPollMouse wait (mouse fs)) in
  X rep = AccumulatedX before /\ Y rep = AccumulatedY before
  /\ ACCUMULATED_MIN <= X rep <= ACCUMULATED_MAX
  /\ ACCUMULATED_MIN <= Y rep <= ACCUMULATED_MAX
  /\ Button rep = Button1State before + 2 * Button2State before
  /\ 0 <= Button rep <= 3.
Proof.
  cbv zeta. rewrite mouse_report_emitted. cbn [andb]. intros [= <-].
  destruct (mouse_tasks_inv es firmware_reset) as (Hr & H1 & H2).
  { unfold accumulators_in_range, ACCUMULATED_MIN, ACCUMULATED_MAX. cbn. lia. }
  { left. reflexivity. }
  { left. reflexivity. }
  cbv zeta in *.
  pose proof (poll_range wait _ Hr) as [Hx Hy].
  destruct (buttons_binary_poll wait _ H1 H2) as [H1' H2']. cbv zeta in *.
  unfold build_mouse_report. cbn [X Y Button].
  unfold ACCUMULATED_MIN, ACCUMULATED_MAX in *.
  rewrite !s8_small by lia.
  split; [reflexivity|]. split; [reflexivity|]. split; [exact Hx|]. split; [exact Hy|].
  destruct H1' as [-> | ->], H2' as [-> | ->];
    (split; [reflexivity | vm_compute; split; discriminate]).
Qed.

Lemma mouse_report_exact_witness :
  X {| Button := 3; X := 5; Y := 3 |}
  = AccumulatedX
      (snd (ADBPollMouse (fun _ => ADB_TIMEOUT)
              (mouse (mouse_tasks [(line_sending 0x0305, false)] firmware_reset)))).
Proof.
  apply (mouse_report_exact [(line_sending 0x0305, false)] (fun _ => ADB_TIMEOUT)
           {| Button := 3; X := 5; Y := 3 |}).
  vm_compute. reflexivity.
Defined.

(** ** What a scan records *)

Lemma update_cooked_raw sp c st :
  RawSwitchPressed (fst (update_cooked sp c st)) = RawSwitchPressed st.
Proof. unfold update_cooked. destruct (negb (truthy sp) || _); reflexivity. Qed.

Lemma scan_cell_raw pin ScanCode c st :
  RawSwitchPressed (fst (scan_cell pin ScanCode c st))
  = set_cell (RawSwitchPressed st) (CurrentRow st) c (pin_bit pin).
Proof.
  unfold scan_cell, scan_cell_body. rewrite switch_pressed_pin. fold (pin_bit pin).
  pose proof (update_raw_raw (pin_bit pin) c st) as H.
  destruct (update_raw (pin_bit pin) c st) as [st1 ch]. cbn [fst] in H.
  rewrite update_cooked_raw. destruct (truthy ch); state_simpl; exact H.
Qed.

Lemma scan_columns_raw pins s :
  matrix_wf (fst s) ->
  forall r c, (r < MATRIX_ROWS)%nat -> (c < MATRIX_COLUMNS)%nat ->
    cell (RawSwitchPressed (fst (scan_columns pins (seq 0 MATRIX_COLUMNS) s))) r c
    = if decide (r = CurrentRow (fst s)) then pin_bit (pins c)
      else cell (RawSwitchPressed (fst s)) r c.
Proof.
  intros Hwf. set (R := CurrentRow (fst s)).
  cut (matrix_wf (fst (scan_columns pins (seq 0 MATRIX_COLUMNS) s))
       /\ CurrentRow (fst (scan_columns pins (seq 0 MATRIX_COLUMNS) s)) = R
       /\ forall r c, (r < MATRIX_ROWS)%nat -> (c < MATRIX_COLUMNS)%nat ->
            cell (RawSwitchPressed (fst (scan_columns pins (seq 0 MATRIX_COLUMNS) s))) r c
            = if (r =? R)%nat && (c <? MATRIX_COLUMNS)%nat then pin_bit (pins c)
              else cell (RawSwitchPressed (fst s)) r c).
  { intros (_ & _ & H) r c Hr Hc. rewrite (H r c Hr Hc).
    destruct (Nat.ltb_spec c MATRIX_COLUMNS); [|lia]. rewrite andb_true_r.
    destruct (decide (r = R)) as [->|Hne].
    - rewrite Nat.eqb_refl. reflexivity.
    - destruct (Nat.eqb_spec r R); [contradiction | reflexivity]. }
  unfold scan_columns.
  apply (foldl_seq_inv
           (fun C a => matrix_wf (fst a) /\ CurrentRow (fst a) = R
                       /\ forall r c, (r < MATRIX_ROWS)%nat -> (c < MATRIX_COLUMNS)%nat ->
                            cell (RawSwitchPressed (fst a)) r c
                            = if (r =? R)%nat && (c <? C)%nat then pin_bit (pins c)
                              else cell (RawSwitchPressed (fst s)) r c)).
  - split; [exact Hwf|]. split; [reflexivity|]. intros r c _ _.
    rewrite andb_false_r. reflexivity.
  - intros C a HC (Wa & Ra & Ca).
    split; [apply scan_cell_body_wf, Wa|].
    split; [rewrite scan_cell_CurrentRow; exact Ra|].
    intros r c Hr Hc. rewrite scan_cell_raw, Ra.
    pose proof (wf_current _ Wa) as HRlt. rewrite Ra in HRlt.
    rewrite cell_set_cell
      by (rewrite ?(wf_raw_rows _ Wa), ?(wf_row_length _ R Wa HRlt); assumption).
    destruct (decide (R = r /\ C = c)) as [[<- <-]|Hne].
    + rewrite Nat.eqb_refl. destruct (Nat.ltb_spec C (S C)); [reflexivity | lia].
    + rewrite (Ca r c Hr Hc).
      destruct (Nat.eqb_spec r R) as [->|_]; [|reflexivity]. cbn [andb].
      destruct (Nat.ltb_spec c C), (Nat.ltb_spec c (S C)); try reflexivity; lia.
Qed.

Lemma next_row_mod st :
  (CurrentRow st < MATRIX_ROWS)%nat ->
  CurrentRow (next_row st) = ((CurrentRow st + 1) mod MATRIX_ROWS)%nat.
Proof.
  unfold next_row, MATRIX_ROWS. state_simpl. intros H.
  destruct (Nat.leb_spec 8 (S (CurrentRow st))).
  - assert (E : CurrentRow st = 7%nat) by lia. rewrite E. reflexivity.
  - rewrite Nat.mod_small by lia. lia.
Qed.

Lemma next_row_raw st : RawSwitchPressed (next_row st) = RawSwitchPressed st.
Proof. reflexivity. Qed.

Lemma scan_row_raw pins s :
  matrix_wf (fst s) ->
  matrix_wf (fst (scan_row pins s))
  /\ CurrentRow (fst (scan_row pins s)) = ((CurrentRow (fst s) + 1) mod MATRIX_ROWS)%nat
  /\ forall r c, (r < MATRIX_ROWS)%nat -> (c < MATRIX_COLUMNS)%nat ->
       cell (RawSwitchPressed (fst (scan_row pins s))) r c
       = if decide (r = CurrentRow (fst s)) then pin_bit (pins c)
         else cell (RawSwitchPressed (fst s)) r c.
Proof.
  intros Hwf. split; [apply scan_row_wf, Hwf|]. unfold scan_row. cbn [fst]. split.
  - rewrite next_row_mod; rewrite scan_columns_CurrentRow; [reflexivity|].
    apply (wf_current _ Hwf).
  - intros r c Hr Hc. rewrite next_row_raw.
    apply scan_columns_raw; assumption.
Qed.

(** X16.  One call of [KeyboardScanMatrix] samples the row [CurrentRow]
    and the one after it, wrapping from 7 to 0, and leaves [CurrentRow] two
    rows further.  Afterwards the raw state of those two rows is what the
    column pins read, 1 for a pin at low level and 0 otherwise, whatever it
    was before and whatever the ghost tables say; the raw state of the
    other six rows is as before. *)
Theorem scan_records_pins (ScanCode0 : Z) (pins : nat -> nat -> Z) (st : matrix_state) :
  matrix_wf st ->
  let st' := KeyboardScanMatrix ScanCode0 pins st in
  let r0 := CurrentRow st in
  let r1 := ((r0 + 1) mod MATRIX_ROWS)%nat in
  CurrentRow st' = ((r0 + 2) mod MATRIX_ROWS)%nat
  /\ r1 <> r0
  /\ forall r c, (r < MATRIX_ROWS)%nat -> (c < MATRIX_COLUMNS)%nat ->
       cell (RawSwitchPressed st') r c
       = if decide (r = r0) then pin_bit (pins 0%nat c)
         else if decide (r = r1) then pin_bit (pins 1%nat c)
         else cell (RawSwitchPressed st) r c.
Proof.
  intros Hwf. cbv zeta. unfold KeyboardScanMatrix, ROWS_PER_REPORT. cbn [seq foldl].
  destruct (scan_row_raw (pins 0%nat) (st, ScanCode0) Hwf) as (W1 & R1 & C1).
  set (s1 := scan_row (pins 0%nat) (st, ScanCode0)) in *.
  destruct (scan_row_raw (pins 1%nat) s1 W1) as (W2 & R2 & C2).
  cbn [fst] in *. pose proof (wf_current _ Hwf) as Hcur. unfold MATRIX_ROWS in *.
  assert (Hne : ((CurrentRow st + 1) mod 8)%nat <> CurrentRow st).
  { destruct (Nat.eq_dec (CurrentRow st) 7%nat) as [E|E].
    - rewrite E. change ((7 + 1) mod 8)%nat with 0%nat. lia.
    - rewrite Nat.mod_small by lia. lia. }
  split; [|split; [exact Hne|]].
  - rewrite R2, R1. rewrite Nat.Div0.add_mod_idemp_l. f_equal. lia.
  - intros r c Hr Hc. rewrite (C2 r c Hr Hc), R1.
    destruct (decide (r = CurrentRow st)) as [->|N0].
    + destruct (decide _) as [E|_]; [symmetry in E; contradiction|].
      rewrite (C1 _ c Hr Hc). destruct (decide _) as [_|N]; [reflexivity | contradiction].
    + destruct (decide _) as [_|N1]; [reflexivity|].
      rewrite (C1 r c Hr Hc). destruct (decide _); [contradiction | reflexivity].
Qed.

Lemma scan_records_pins_witness :
  cell (RawSwitchPressed
          (KeyboardScanMatrix 0 (fun i c => if (c =? 3)%nat then 0 else 1) matrix_reset))
    1 3 = 1.
Proof.
  destruct (scan_records_pins 0 (fun i c => if (c =? 3)%nat then 0 else 1) matrix_reset
              matrix_reset_wf) as (_ & _ & H).
  rewrite (H 1%nat 3%nat) by (unfold MATRIX_ROWS, MATRIX_COLUMNS; lia).
  reflexivity.
Defined.

(** ** The ghost tables *)

Lemma ghosts_current_iff st :
  ghosts_current st
  <-> RowHasGhost st
      = fst (ghost_flags (RawSwitchPressed st) (TotalInRow st) (TotalInColumn st))
      /\ ColumnHasGhost st
         = snd (ghost_flags (RawSwitchPressed st) (TotalInRow st) (TotalInColumn st)).
Proof.
  unfold ghosts_current, CheckForGhosts. destruct st as [raw tr tc rg cg kp cr].
  state_simpl. split.
  - intros [= E1 E2]. split; symmetry; assumption.
  - intros [E1 E2]. rewrite <- E1, <- E2. reflexivity.
Qed.

Lemma CheckForGhosts_current st : ghosts_current (CheckForGhosts st).
Proof. apply ghosts_current_iff. split; reflexivity. Qed.

Lemma set_cell_same a r c :
  (r < length a)%nat -> (c < length (a !!! r))%nat ->
  set_cell a r c (cell a r c) = a.
Proof.
  intros Hr Hc. unfold set_cell, cell.
  apply list_insert_id. rewrite list_lookup_lookup_total_lt by exact Hr. f_equal.
  symmetry. apply list_insert_id. apply list_lookup_lookup_total_lt. exact Hc.
Qed.

Lemma set_raw_same st : set_raw (RawSwitchPressed st) st = st.
Proof. destruct st. reflexivity. Qed.

(** [SwitchChanged] is left at 0 only if the raw state and the counts are
    what they were. *)
Lemma update_raw_unchanged sp c st :
  matrix_wf st -> (c < MATRIX_COLUMNS)%nat -> raw_binary st -> (sp = 0 \/ sp = 1) ->
  truthy (snd (update_raw sp c st)) = false ->
  fst (update_raw sp c st) = st.
Proof.
  intros Hwf Hc Hbin Hsp. pose proof (wf_current _ Hwf) as Hr.
  unfold update_raw.
  assert (Hcell := Hbin _ c Hr Hc).
  assert (Hsame : truthy (cell (RawSwitchPressed st) (CurrentRow st) c) = truthy sp ->
                  set_raw (set_cell (RawSwitchPressed st) (CurrentRow st) c sp) st = st).
  { intros E.
    assert (E' : sp = cell (RawSwitchPressed st) (CurrentRow st) c).
    { destruct Hcell as [H0|H1], Hsp as [-> | ->]; rewrite ?H0, ?H1 in *;
        try reflexivity; discriminate E. }
    rewrite E', set_cell_same; [apply set_raw_same | |].
    - rewrite (wf_raw_rows _ Hwf). exact Hr.
    - rewrite (wf_row_length st _ Hwf Hr). exact Hc. }
  destruct (truthy (cell (RawSwitchPressed st) (CurrentRow st) c)) eqn:Ew;
    destruct (truthy sp) eqn:Es; cbn [negb andb fst snd]; state_simpl;
    try (intros F; discriminate F); intros _; apply Hsame; reflexivity.
Qed.

Lemma update_cooked_current sp c st :
  ghosts_current st -> ghosts_current (fst (update_cooked sp c st)).
Proof.
  intros H. unfold update_cooked. destruct (negb (truthy sp) || _); [|exact H].
  apply ghosts_current_iff in H. apply ghosts_current_iff. state_simpl. exact H.
Qed.

Lemma pin_bit_binary pin : pin_bit pin = 0 \/ pin_bit pin = 1.
Proof. unfold pin_bit. destruct (pin =? 0); auto. Qed.

Lemma scan_cell_current pin ScanCode c st :
  matrix_wf st -> (c < MATRIX_COLUMNS)%nat ->
  raw_binary st -> ghosts_current st ->
  raw_binary (fst (scan_cell pin ScanCode c st))
  /\ ghosts_current (fst (scan_cell pin ScanCode c st)).
Proof.
  intros Hwf Hc Hbin Hcur. pose proof (wf_current _ Hwf) as Hr. split.
  - intros r' c' Hr' Hc'. rewrite scan_cell_raw.
    rewrite cell_set_cell
      by (rewrite ?(wf_raw_rows _ Hwf), ?(wf_row_length st _ Hwf Hr); assumption).
    destruct (decide _); [apply pin_bit_binary | apply Hbin; assumption].
  - unfold scan_cell, scan_cell_body. rewrite switch_pressed_pin. fold (pin_bit pin).
    pose proof (update_raw_unchanged (pin_bit pin) c st Hwf Hc Hbin (pin_bit_binary pin))
      as Hun.
    destruct (update_raw (pin_bit pin) c st) as [st1 ch]. cbn [fst snd] in Hun.
    apply update_cooked_current.
    destruct (truthy ch); [apply CheckForGhosts_current|].
    rewrite Hun by reflexivity. exact Hcur.
Qed.

Lemma next_row_current st : ghosts_current st -> ghosts_current (next_row st).
Proof.
  intros H. apply ghosts_current_iff in H. apply ghosts_current_iff. exact H.
Qed.

Lemma scan_row_current pins s :
  matrix_wf (fst s) -> raw_binary (fst s) -> ghosts_current (fst s) ->
  raw_binary (fst (scan_row pins s)) /\ ghosts_current (fst (scan_row pins s)).
Proof.
  intros Hwf Hbin Hcur. unfold scan_row. cbn [fst].
  cut (matrix_wf (fst (scan_columns pins (seq 0 MATRIX_COLUMNS) s))
       /\ raw_binary (fst (scan_columns pins (seq 0 MATRIX_COLUMNS) s))
       /\ ghosts_current (fst (scan_columns pins (seq 0 MATRIX_COLUMNS) s))).
  { intros (_ & B & G). split; [|apply next_row_current, G].
    intros r c Hr Hc. rewrite next_row_raw. apply B; assumption. }
  unfold scan_columns.
  apply (foldl_seq_inv
           (fun (_ : nat) a => matrix_wf (fst a) /\ raw_binary (fst a)
                               /\ ghosts_current (fst a))).
  - exact (conj Hwf (conj Hbin Hcur)).
  - intros C a HC (Wa & Ba & Ga).
    split; [apply scan_cell_body_wf, Wa|].
    apply scan_cell_current; assumption.
Qed.

Lemma matrix_reset_current : raw_binary matrix_reset /\ ghosts_current matrix_reset.
Proof.
  split.
  - intros r c Hr Hc. left. unfold cell, matrix_reset. state_simpl.
    rewrite !lookup_total_replicate_2 by assumption. reflexivity.
  - apply ghosts_current_iff. vm_compute. split; reflexivity.
Qed.

(** X17.  Recomputing the ghost tables only when a switch changed loses
    nothing: if the raw cells hold 0 or 1 and the tables are what
    [CheckForGhosts] makes of the raw state and the counts, as is the case
    after reset, the same holds after a call of [KeyboardScanMatrix],
    whatever the pins read. *)
Theorem ghost_tables_current (ScanCode0 : Z) (pins : nat -> nat -> Z) (st : matrix_state) :
  matrix_wf st -> raw_binary st -> ghosts_current st ->
  let st' := KeyboardScanMatrix ScanCode0 pins st in
  raw_binary st' /\ CheckForGhosts st' = st'.
Proof.
  intros Hwf Hbin Hcur. cbv zeta. unfold KeyboardScanMatrix.
  cut (matrix_wf (fst (foldl (fun s i => scan_row (pins i) s) (st, ScanCode0)
                         (seq 0 ROWS_PER_REPORT)))
       /\ raw_binary (fst (foldl (fun s i => scan_row (pins i) s) (st, ScanCode0)
                             (seq 0 ROWS_PER_REPORT)))
       /\ ghosts_current (fst (foldl (fun s i => scan_row (pins i) s) (st, ScanCode0)
                                 (seq 0 ROWS_PER_REPORT)))).
  { intros (_ & B & G). exact (conj B G). }
  apply (foldl_preserves
           (fun a => matrix_wf (fst a) /\ raw_binary (fst a) /\ ghosts_current (fst a))).
  - exact (conj Hwf (conj Hbin Hcur)).
  - intros a i (Wa & Ba & Ga). split; [apply scan_row_wf, Wa|].
    apply scan_row_current; assumption.
Qed.

Lemma ghost_tables_current_witness :
  let st' := KeyboardScanMatrix 0 (fun i c => if (c =? 3)%nat then 0 else 1) matrix_reset in
  raw_binary st' /\ CheckForGhosts st' = st'.
Proof.
  apply (ghost_tables_current 0 (fun i c => if (c =? 3)%nat then 0 else 1) matrix_reset
           matrix_reset_wf (proj1 matrix_reset_current) (proj2 matrix_reset_current)).
Defined.

(** *** What [CheckForGhosts] flags *)

Lemma flag_clear_replicate n i : (i < n)%nat -> ~ flag_set (replicate n 0) i.
Proof. intros Hi H. apply H. apply lookup_total_replicate_2. exact Hi. Qed.

Lemma flag_set_insert_inv (l : list Z) i k :
  flag_set (<[k := 1]> l) i -> i = k \/ flag_set l i.
Proof.
  unfold flag_set. destruct (decide (i = k)) as [->|Hne]; [left; reflexivity|].
  rewrite list_lookup_total_insert_ne by (intros E; apply Hne; symmetry; exact E).
  right. assumption.
Qed.

Lemma truthy_ne x : truthy x = true <-> x <> 0.
Proof. unfold truthy. destruct (Z.eqb_spec x 0); cbn; split; intros; congruence. Qed.

Lemma mark_rows_inv raw Column rg i :
  flag_set (mark_rows raw Column rg) i -> flag_set rg i \/ cell raw i Column <> 0.
Proof.
  unfold mark_rows.
  apply (foldl_preserves
           (fun l => flag_set l i -> flag_set rg i \/ cell raw i Column <> 0)); [auto|].
  intros a k Ha. destruct (truthy (cell raw k Column)) eqn:E; [|exact Ha].
  intros H. apply flag_set_insert_inv in H. destruct H as [->|H]; [|exact (Ha H)].
  right. apply truthy_ne. exact E.
Qed.

Lemma mark_columns_inv raw Row cg j :
  flag_set (mark_columns raw Row cg) j ->
  flag_set cg j \/ (IS_GHOST_FREE_COLUMN j = false /\ cell raw Row j <> 0).
Proof.
  unfold mark_columns.
  apply (foldl_preserves
           (fun l => flag_set l j ->
                     flag_set cg j \/ (IS_GHOST_FREE_COLUMN j = false /\ cell raw Row j <> 0)));
    [auto|].
  intros a k Ha. destruct (IS_GHOST_FREE_COLUMN k) eqn:G; [exact Ha|].
  destruct (truthy (cell raw Row k)) eqn:E; [|exact Ha].
  intros H. apply flag_set_insert_inv in H. destruct H as [->|H]; [|exact (Ha H)].
  right. split; [exact G | apply truthy_ne; exact E].
Qed.

Lemma ghost_cell_caused raw tr tc Row Column g :
  (Row < MATRIX_ROWS)%nat -> (Column < MATRIX_COLUMNS)%nat ->
  flags_caused raw tr tc g -> flags_caused raw tr tc (ghost_cell raw tr tc Row Column g).
Proof.
  intros HR HC [Hrow Hcol]. unfold ghost_cell.
  destruct (IS_GHOST_FREE_COLUMN Column) eqn:G; [split; assumption|].
  destruct (is_corner raw tr tc Row Column) eqn:K; [|split; assumption].
  assert (Hcorner : corner_at raw tr tc Row Column) by (repeat split; assumption).
  split; cbn [fst snd].
  - intros i Hi H. apply mark_rows_inv in H. destruct H as [H|H]; [exact (Hrow i Hi H)|].
    exists Row, Column. split; assumption.
  - intros j Hj H. apply mark_columns_inv in H.
    destruct H as [H|[Hgf H]]; [exact (Hcol j Hj H)|].
    split; [exact Hgf|]. exists Row, Column. split; assumption.
Qed.

Lemma ghost_flags_caused raw tr tc : flags_caused raw tr tc (ghost_flags raw tr tc).
Proof.
  unfold ghost_flags.
  apply (foldl_seq_inv (fun (_ : nat) g => flags_caused raw tr tc g)).
  - split; intros i Hi H; exfalso; revert H; apply flag_clear_replicate; exact Hi.
  - intros Row g HRow Hg. unfold ghost_row.
    apply (foldl_seq_inv (fun (_ : nat) g => flags_caused raw tr tc g)); [exact Hg|].
    intros Column g' HColumn Hg'. apply ghost_cell_caused; assumption.
Qed.

Lemma ghost_flags_binary raw tr tc i j :
  (i < MATRIX_ROWS)%nat -> (j < MATRIX_COLUMNS)%nat ->
  (fst (ghost_flags raw tr tc) !!! i = 0 \/ fst (ghost_flags raw tr tc) !!! i = 1)
  /\ (snd (ghost_flags raw tr tc) !!! j = 0 \/ snd (ghost_flags raw tr tc) !!! j = 1).
Proof.
  intros Hi Hj. unfold ghost_flags.
  assert (Hins : forall (l : list Z) k n,
             (l !!! n = 0 \/ l !!! n = 1) -> <[k := 1]> l !!! n = 0 \/ <[k := 1]> l !!! n = 1).
  { intros l k n H. rewrite list_lookup_total_insert. destruct (decide _); auto. }
  apply (foldl_preserves
           (fun g => (fst g !!! i = 0 \/ fst g !!! i = 1)
                     /\ (snd g !!! j = 0 \/ snd g !!! j = 1))).
  - cbn [fst snd]. rewrite !lookup_total_replicate_2 by assumption. auto.
  - intros g Row Hg. unfold ghost_row. apply foldl_preserves; [exact Hg|].
    clear g Hg. intros g Column [H1 H2]. unfold ghost_cell.
    destruct (IS_GHOST_FREE_COLUMN Column); [auto|].
    destruct (is_corner raw tr tc Row Column); [|auto]. cbn [fst snd]. split.
    + unfold mark_rows. apply foldl_preserves; [exact H1|].
      intros a k Ha. destruct (truthy _); [apply Hins|]; exact Ha.
    + unfold mark_columns. apply foldl_preserves; [exact H2|].
      intros a k Ha. destruct (IS_GHOST_FREE_COLUMN k); [exact Ha|].
      destruct (truthy _); [apply Hins|]; exact Ha.
Qed.

Lemma is_corner_true raw tr tc Row Column :
  is_corner raw tr tc Row Column = true ->
  cell raw Row Column <> 0 /\ 2 <= tr !!! Row /\ 2 <= tc !!! Column.
Proof.
  unfold is_corner. rewrite !andb_true_iff, truthy_ne, !Z.leb_le. tauto.
Qed.

Lemma ghost_flags_iff raw tr tc i j :
  (i < MATRIX_ROWS)%nat -> (j < MATRIX_COLUMNS)%nat ->
  (flag_set (fst (ghost_flags raw tr tc)) i <-> row_cause raw tr tc i)
  /\ (flag_set (snd (ghost_flags raw tr tc)) j <-> column_cause raw tr tc j).
Proof.
  intros Hi Hj. destruct (ghost_flags_caused raw tr tc) as [Hrow Hcol]. split.
  - split; [intros H; exact (Hrow i Hi H)|].
    intros (Row & Column & (HR & HC & G & K) & Hp).
    apply is_corner_true in K. destruct K as (Hpc & Htr & Htc).
    apply (ghost_flags_corner raw tr tc Row i Column Column); assumption.
  - split; [intros H; exact (Hcol j Hj H)|].
    intros (Gj & Row & Column & (HR & HC & G & K) & Hp).
    apply is_corner_true in K. destruct K as (Hpc & Htr & Htc).
    apply (ghost_flags_corner raw tr tc Row Row j Column); assumption.
Qed.

(** X18.  What [CheckForGhosts] computes.  Row [i] is flagged exactly when
    it has a press in the column of some corner: a pressed cell outside the
    ghost-free columns whose row count and column count are both at least
    2.  Column [j] is flagged exactly when it is not ghost-free and has a
    press in the row of some corner.  So a ghost-free column is never
    flagged, nothing is flagged without a press, and every flag is 0 or 1. *)
Theorem ghost_flags_spec (st : matrix_state) (i j : nat) :
  (i < MATRIX_ROWS)%nat -> (j < MATRIX_COLUMNS)%nat ->
  let raw := RawSwitchPressed st in
  let tr := TotalInRow st in
  let tc := TotalInColumn st in
  let st' := CheckForGhosts st in
  (RowHasGhost st' !!! i <> 0 <-> row_cause raw tr tc i)
  /\ (ColumnHasGhost st' !!! j <> 0 <-> column_cause raw tr tc j)
  /\ (RowHasGhost st' !!! i = 0 \/ RowHasGhost st' !!! i = 1)
  /\ (ColumnHasGhost st' !!! j = 0 \/ ColumnHasGhost st' !!! j = 1).
Proof.
  intros Hi Hj. cbv zeta. unfold CheckForGhosts. state_simpl.
  destruct (ghost_flags_iff (RawSwitchPressed st) (TotalInRow st) (TotalInColumn st)
              i j Hi Hj) as [Hrow Hcol].
  split; [exact Hrow|]. split; [exact Hcol|].
  apply ghost_flags_binary; assumption.
Qed.

Lemma ghost_flags_spec_witness :
  RowHasGhost (CheckForGhosts (three_presses 0 2)) !!! 1%nat <> 0.
Proof.
  pose proof (ghost_flags_spec (three_presses 0 2) 1 0
                ltac:(unfold MATRIX_ROWS; lia) ltac:(unfold MATRIX_COLUMNS; lia)) as H.
  cbv zeta in H. destruct H as [[_ H] _]. apply H.
  exists 0%nat, 2%nat. vm_compute. repeat split; try lia; congruence.
Defined.

(** ** No phantom keys *)

Lemma update_cooked_KeyPressed sp c st :
  KeyPressed (fst (update_cooked sp c st)) = KeyPressed st
  \/ KeyPressed (fst (update_cooked sp c st))
     = <[Z.to_nat (cell KeyboardMatrix (CurrentRow st) c) := sp]> (KeyPressed st).
Proof.
  unfold update_cooked. destruct (negb (truthy sp) || _); [right | left]; reflexivity.
Qed.

Lemma scan_cell_KeyPressed pin ScanCode c st :
  KeyPressed (fst (scan_cell pin ScanCode c st)) = KeyPressed st
  \/ KeyPressed (fst (scan_cell pin ScanCode c st))
     = <[Z.to_nat (cell KeyboardMatrix (CurrentRow st) c) := pin_bit pin]> (KeyPressed st).
Proof.
  unfold scan_cell, scan_cell_body. rewrite switch_pressed_pin. fold (pin_bit pin).
  pose proof (update_raw_KeyPressed (pin_bit pin) c st) as Hk.
  pose proof (update_raw_CurrentRow (pin_bit pin) c st) as Hr.
  destruct (update_raw (pin_bit pin) c st) as [st1 ch]. cbn [fst] in Hk, Hr.
  set (st2 := if truthy ch then CheckForGhosts st1 else st1).
  assert (Hk2 : KeyPressed st2 = KeyPressed st)
    by (unfold st2; destruct (truthy ch); exact Hk).
  assert (Hr2 : CurrentRow st2 = CurrentRow st)
    by (unfold st2; destruct (truthy ch); exact Hr).
  clearbody st2. rewrite <- Hk2, <- Hr2. apply update_cooked_KeyPressed.
Qed.

Lemma pin_bit_level sw r c : pin_bit (level sw r c) = if sw r c then 1 else 0.
Proof. unfold pin_bit, level. destruct (sw r c); reflexivity. Qed.

Lemma next_row_KeyPressed st : KeyPressed (next_row st) = KeyPressed st.
Proof. reflexivity. Qed.

Section Phantom.

Variable sw : nat -> nat -> bool.

Lemma scan_cell_phantom st ScanCode C :
  matrix_wf st -> (C < MATRIX_COLUMNS)%nat ->
  phantom_free sw (KeyPressed st) ->
  phantom_free sw (KeyPressed (fst (scan_cell (level sw (CurrentRow st) C) ScanCode C st))).
Proof.
  intros Hwf HC Hp. pose proof (wf_current _ Hwf) as HR.
  destruct (scan_cell_KeyPressed (level sw (CurrentRow st) C) ScanCode C st) as [E|E];
    rewrite E; [exact Hp|].
  rewrite pin_bit_level. intros k Hk.
  rewrite list_lookup_total_insert.
  destruct (decide _) as [[<- _]|_]; [|apply Hp, Hk].
  destruct (sw (CurrentRow st) C) eqn:Hsw; [|intros F; contradiction].
  intros _. exists (CurrentRow st), C. repeat split; assumption.
Qed.

Lemma scan_row_phantom s R pins :
  matrix_wf (fst s) -> CurrentRow (fst s) = R ->
  (forall c, (c < MATRIX_COLUMNS)%nat -> pins c = level sw R c) ->
  phantom_free sw (KeyPressed (fst s)) ->
  phantom_free sw (KeyPressed (fst (scan_row pins s))).
Proof.
  intros Hwf HR Hpins Hp. unfold scan_row. cbn [fst].
  rewrite next_row_KeyPressed.
  cut (matrix_wf (fst (scan_columns pins (seq 0 MATRIX_COLUMNS) s))
       /\ CurrentRow (fst (scan_columns pins (seq 0 MATRIX_COLUMNS) s)) = R
       /\ phantom_free sw (KeyPressed (fst (scan_columns pins (seq 0 MATRIX_COLUMNS) s)))).
  { intros (_ & _ & H). exact H. }
  unfold scan_columns.
  apply (foldl_seq_inv
           (fun (_ : nat) a => matrix_wf (fst a) /\ CurrentRow (fst a) = R
                               /\ phantom_free sw (KeyPressed (fst a)))).
  - exact (conj Hwf (conj HR Hp)).
  - intros C a HC (Wa & Ra & Pa).
    split; [apply scan_cell_body_wf, Wa|].
    split; [rewrite scan_cell_CurrentRow; exact Ra|].
    rewrite (Hpins C HC), <- Ra. apply scan_cell_phantom; assumption.
Qed.

Lemma KeyboardScanMatrix_phantom st ScanCode0 :
  matrix_wf st -> phantom_free sw (KeyPressed st) ->
  phantom_free sw (KeyPressed (KeyboardScanMatrix ScanCode0 (pins_of sw st) st)).
Proof.
  intros Hwf Hp. unfold KeyboardScanMatrix, ROWS_PER_REPORT. cbn [seq foldl].
  pose proof (wf_current _ Hwf) as Hcur.
  assert (P1 : phantom_free sw
                 (KeyPressed (fst (scan_row (pins_of sw st 0) (st, ScanCode0))))).
  { apply (scan_row_phantom _ (CurrentRow st)); try assumption; [reflexivity|].
    intros c _. unfold pins_of. rewrite Nat.add_0_r, Nat.mod_small by exact Hcur.
    reflexivity. }
  destruct (scan_row_raw (pins_of sw st 0) (st, ScanCode0) Hwf) as (W1 & R1 & _).
  apply (scan_row_phantom _ ((CurrentRow st + 1) mod MATRIX_ROWS)%nat); try assumption.
  intros c _. reflexivity.
Qed.

Lemma tasks_holding_phantom junk n :
  let fs := fst (tasks_holding sw junk n firmware_reset) in
  KeyboardSuppressPolling fs = 0 /\ matrix_wf (matrix fs)
  /\ phantom_free sw (KeyPressed (matrix fs)).
Proof.
  cbv zeta. induction n as [|n (Hs & Hwf & Hp)]; cbn [tasks_holding].
  - split; [reflexivity|]. split; [apply matrix_reset_wf|].
    intros k Hk H. exfalso. apply H. cbn [firmware_reset fst matrix].
    unfold matrix_reset. state_simpl. apply lookup_total_replicate_2. exact Hk.
  - destruct (task_holding_polling sw (junk n) _ Hs) as (Hm & Hs' & _). cbv zeta in Hm.
    rewrite Hm. split; [exact Hs'|].
    split; [apply KeyboardScanMatrix_wf, Hwf | apply KeyboardScanMatrix_phantom; assumption].
Qed.

End Phantom.

(** *** The report shows nothing the key table does not hold *)

Lemma In_insert {A : Type} (l : list A) n x k : In k (<[n := x]> l) -> k = x \/ In k l.
Proof.
  revert n. induction l as [|y l IH]; intros n H; [destruct H|].
  destruct n as [|n]; cbn in H.
  - destruct H as [<-|H]; [left; reflexivity | right; right; exact H].
  - destruct H as [<-|H]; [right; left; reflexivity|].
    destruct (IH n H) as [E|E]; [left; exact E | right; right; exact E].
Qed.

Lemma modifier_mask_Some c m :
  modifier_mask c = Some m -> 224 <= c <= 231 /\ m = 2 ^ (c - 224).
Proof.
  unfold modifier_mask.
  repeat match goal with
         | |- context [?a =? ?b] =>
             destruct (Z.eqb_spec a b) as [->|?];
             [intros [= <-]; vm_compute; split; [split; discriminate | reflexivity]|]
         end.
  discriminate.
Qed.

Lemma fill_rollover_In kc k :
  In k (fill_rollover kc) -> k = HID_KEYBOARD_SC_ERROR_ROLLOVER \/ In k kc.
Proof.
  unfold fill_rollover.
  apply (foldl_preserves
           (fun l => In k l -> k = HID_KEYBOARD_SC_ERROR_ROLLOVER \/ In k kc)); [auto|].
  intros a i Ha H. apply In_insert in H. destruct H as [H|H]; [left; exact H | exact (Ha H)].
Qed.

Lemma report_loop_sound kp codes rep used :
  (forall c, In c codes -> 1 <= c < 256) ->
  report_sound kp rep -> report_sound kp (fst (report_loop kp codes (rep, used))).
Proof.
  revert rep used. induction codes as [|c codes IH]; intros rep used Hc Hs; [exact Hs|].
  assert (Hc0 : 1 <= c < 256) by (apply Hc; left; reflexivity).
  assert (Hc' : forall c', In c' codes -> 1 <= c' < 256)
    by (intros c' H; apply Hc; right; exact H).
  cbn [report_loop]. unfold report_step.
  destruct (truthy (kp !!! Z.to_nat c)) eqn:Ep; [|apply IH; assumption].
  apply truthy_ne in Ep. destruct Hs as [Hk Hm].
  destruct (modifier_mask c) as [m|] eqn:Em.
  - apply IH; [exact Hc'|]. split; cbn [KeyCode Modifier]; [exact Hk|].
    apply modifier_mask_Some in Em. destruct Em as [Hr ->].
    intros i Hi. rewrite u8_testbit by exact Hi.
    rewrite Z.lor_spec, Z.pow2_bits_eqb by lia.
    destruct (Z.eqb_spec (c - 224) (Z.of_nat i)) as [E|_].
    + intros _. replace (224 + i)%nat with (Z.to_nat c) by lia. exact Ep.
    + rewrite orb_false_r. apply Hm, Hi.
  - destruct (used <? MAX_KEYS_PRESSED).
    + apply IH; [exact Hc'|]. split; cbn [KeyCode Modifier]; [|exact Hm].
      intros k H. apply In_insert in H. destruct H as [->|H]; [|exact (Hk k H)].
      rewrite u8_small by lia. right. right. split; [lia | exact Ep].
    + cbn [fst]. split; cbn [KeyCode Modifier]; [|exact Hm].
      intros k H. apply fill_rollover_In in H.
      destruct H as [->|H]; [right; left; reflexivity | exact (Hk k H)].
Qed.

Lemma build_keyboard_report_sound kp : report_sound kp (build_keyboard_report kp).
Proof.
  unfold build_keyboard_report. apply report_loop_sound.
  - intros c H. unfold scan_codes in H. apply in_map_iff in H.
    destruct H as (n & <- & Hn). apply in_seq in Hn. lia.
  - split; cbn [keyboard_report_zero KeyCode Modifier].
    + intros k H. left. apply list_elem_of_In in H. apply elem_of_replicate in H.
      apply H.
    + intros i _ H. rewrite Z.bits_0 in H. discriminate H.
Qed.

Lemma phantom_held sw kp k :
  phantom_free sw kp -> 0 <= k < 256 -> kp !!! Z.to_nat k <> 0 -> held_code sw k.
Proof.
  intros Hp Hk Hne. destruct (Hp (Z.to_nat k) ltac:(lia) Hne) as (r & c & Hr & Hc & Hsw & E).
  exists r, c. repeat split; try assumption.
  pose proof (KeyboardMatrix_range r c Hr Hc). apply Z2Nat.inj; lia.
Qed.

(** X19.  No phantom keys.  With the keyboard held in any position, ghost
    closures included, every report that [Keyboard_HID_Task] writes after
    reset shows only what is closed: each key code slot is empty, holds the
    rollover code, or holds the scan code of a cell that reads closed, and
    each modifier bit that is set belongs to a modifier cell that reads
    closed. *)
Theorem no_phantom_keys (sw : nat -> nat -> bool) (junk : nat -> Z) (n : nat)
    (rep : USB_KeyboardReport_Data_t) :
  snd (tasks_holding sw junk n firmware_reset) = Some rep ->
  (forall k, In k (KeyCode rep) ->
     k = 0 \/ k = HID_KEYBOARD_SC_ERROR_ROLLOVER \/ held_code sw k)
  /\ (forall i, (i < 8)%nat -> Z.testbit (Modifier rep) (Z.of_nat i) = true ->
        held_code sw (HID_KEYBOARD_SC_LEFT_CONTROL + Z.of_nat i)).
Proof.
  destruct n as [|n]; cbn [tasks_holding]; [discriminate|].
  destruct (tasks_holding_phantom sw junk n) as (Hs & Hwf & Hp). cbv zeta in *.
  destruct (task_holding_polling sw (junk n) _ Hs) as (_ & _ & Hrep). cbv zeta in Hrep.
  rewrite Hrep.
  assert (Hp' : phantom_free sw
                  (KeyPressed (KeyboardScanMatrix (junk n)
                     (pins_of sw (matrix (fst (tasks_holding sw junk n firmware_reset))))
                     (matrix (fst (tasks_holding sw junk n firmware_reset))))))
    by (apply KeyboardScanMatrix_phantom; assumption).
  revert Hp'. generalize (KeyPressed (KeyboardScanMatrix (junk n)
                     (pins_of sw (matrix (fst (tasks_holding sw junk n firmware_reset))))
                     (matrix (fst (tasks_holding sw junk n firmware_reset))))) as kp.
  intros kp Hp' E. apply (inj Some) in E. subst rep.
  destruct (build_keyboard_report_sound kp) as [Hk Hm]. split.
  - intros k H. destruct (Hk k H) as [E|[E|[Hr Hne]]]; [auto | auto |].
    right. right. apply (phantom_held sw kp); [exact Hp' | lia | exact Hne].
  - intros i Hi H. apply (phantom_held sw kp); [exact Hp' | |].
    + unfold HID_KEYBOARD_SC_LEFT_CONTROL. lia.
    + replace (Z.to_nat (HID_KEYBOARD_SC_LEFT_CONTROL + Z.of_nat i)) with (224 + i)%nat
        by (unfold HID_KEYBOARD_SC_LEFT_CONTROL; lia).
      apply Hm; assumption.
Qed.

Lemma no_phantom_keys_witness :
  HID_KEYBOARD_SC_U = 0 \/ HID_KEYBOARD_SC_U = HID_KEYBOARD_SC_ERROR_ROLLOVER
  \/ held_code (fun r c => (r =? 1)%nat && (c =? 0)%nat) HID_KEYBOARD_SC_U.
Proof.
  destruct (no_phantom_keys (fun r c => (r =? 1)%nat && (c =? 0)%nat) (fun _ => 0) 1
              (build_keyboard_report
                 (KeyPressed (KeyboardScanMatrix 0
                    (pins_of (fun r c => (r =? 1)%nat && (c =? 0)%nat) matrix_reset)
                    matrix_reset)))
              eq_refl) as [H _].
  apply H. vm_compute. left. reflexivity.
Defined.

(** *** Held keys are registered *)

(** X20.  With the keyboard held in a position in which no two closed
    switches share a column outside the ghost-free ones, every report from
    the fourth task invocation after reset on, that is once all eight rows
    have been scanned, is built from a key table that is exact on every
    cell whose scan code occurs once in [KeyboardMatrix]: 1 if the switch
    is closed, 0 if it is open. *)
Theorem held_keys_registered (sw : nat -> nat -> bool) (junk : nat -> Z) (n : nat) :
  (forall r r' c, (r < MATRIX_ROWS)%nat -> (r' < MATRIX_ROWS)%nat ->
                  (c < MATRIX_COLUMNS)%nat -> IS_GHOST_FREE_COLUMN c = false ->
                  sw r c = true -> sw r' c = true -> r = r') ->
  (4 <= n)%nat ->
  exists kp,
    snd (tasks_holding sw junk n firmware_reset) = Some (build_keyboard_report kp)
    /\ length kp = 256%nat
    /\ forall r c, (r < MATRIX_ROWS)%nat -> (c < MATRIX_COLUMNS)%nat -> unique_code r c ->
         kp !!! Z.to_nat (cell KeyboardMatrix r c) = if sw r c then 1 else 0.
Proof.
  intros Hcols Hn. destruct n as [|n]; [lia|].
  pose proof (tasks_holding_inv sw Hcols junk (S n) firmware_reset (firmware_reset_inv sw))
    as Hinv.
  pose proof (tasks_holding_phantom sw junk (S n)) as Hph. cbv zeta in Hph.
  cbn [tasks_holding] in *.
  destruct (task_holding_inv sw Hcols (junk n) n _
              (tasks_holding_inv sw Hcols junk n firmware_reset (firmware_reset_inv sw)))
    as [_ Hrep].
  eexists. split; [exact Hrep|].
  destruct Hph as (_ & Hwf & Hp).
  split; [apply (wf_key _ Hwf)|].
  destruct Hinv as (_ & _ & [(Hlt & _)|(_ & _ & Hreg)]); [lia|].
  intros r c Hr Hc Hu. destruct (sw r c) eqn:Hsw.
  - apply Hreg; try assumption. exact Logic.I.
  - pose proof (KeyboardMatrix_range r c Hr Hc) as Hrange.
    match goal with |- ?x = 0 => destruct (Z.eq_dec x 0) as [E|E]; [exact E|] end.
    exfalso.
    destruct (Hp (Z.to_nat (cell KeyboardMatrix r c)) ltac:(lia) E)
      as (r' & c' & Hr' & Hc' & Hsw' & Ecode).
    pose proof (KeyboardMatrix_range r' c' Hr' Hc') as Hrange'.
    apply Z2Nat.inj in Ecode; [|lia..].
    destruct (Hu r' c' Hr' Hc' Ecode) as [-> ->]. congruence.
Qed.

Lemma held_keys_registered_witness :
  exists kp,
    snd (tasks_holding (fun r c => (r =? 1)%nat && (c =? 0)%nat) (fun _ => 0) 4
           firmware_reset)
    = Some (build_keyboard_report kp)
    /\ length kp = 256%nat
    /\ forall r c, (r < MATRIX_ROWS)%nat -> (c < MATRIX_COLUMNS)%nat -> unique_code r c ->
         kp !!! Z.to_nat (cell KeyboardMatrix r c)
         = if (fun r c => (r =? 1)%nat && (c =? 0)%nat) r c then 1 else 0.
Proof.
  apply (held_keys_registered (fun r c => (r =? 1)%nat && (c =? 0)%nat) (fun _ => 0) 4).
  - intros r r' c _ _ _ _ H H'.
    apply andb_true_iff in H, H'. destruct H as [H _], H' as [H' _].
    apply Nat.eqb_eq in H, H'. congruence.
  - lia.
Defined.

(** ** When a press registers *)

Lemma update_cooked_flags sp c st :
  RowHasGhost (fst (update_cooked sp c st)) = RowHasGhost st
  /\ ColumnHasGhost (fst (update_cooked sp c st)) = ColumnHasGhost st
  /\ TotalInRow (fst (update_cooked sp c st)) = TotalInRow st
  /\ TotalInColumn (fst (update_cooked sp c st)) = TotalInColumn st.
Proof.
  unfold update_cooked. destruct (negb (truthy sp) || _); repeat split; reflexivity.
Qed.

(** The press path of one iteration of the column loop, in terms of the
    state the iteration leaves. *)
Lemma scan_cell_press ScanCode c st :
  let after := fst (scan_cell 0 ScanCode c st) in
  (ghosted after (CurrentRow st) c -> KeyPressed after = KeyPressed st)
  /\ (~ ghosted after (CurrentRow st) c ->
      KeyPressed after
      = <[Z.to_nat (cell KeyboardMatrix (CurrentRow st) c) := 1]> (KeyPressed st)).
Proof.
  cbv zeta. unfold scan_cell, scan_cell_body. rewrite switch_pressed_pin.
  change (0 =? 0) with true. cbv iota.
  pose proof (update_raw_KeyPressed 1 c st) as Hk.
  pose proof (update_raw_CurrentRow 1 c st) as Hr.
  destruct (update_raw 1 c st) as [st1 ch]. cbn [fst] in Hk, Hr.
  set (st2 := if truthy ch then CheckForGhosts st1 else st1).
  assert (Hk2 : KeyPressed st2 = KeyPressed st)
    by (unfold st2; destruct (truthy ch); exact Hk).
  assert (Hr2 : CurrentRow st2 = CurrentRow st)
    by (unfold st2; destruct (truthy ch); exact Hr).
  clearbody st2.
  destruct (update_cooked_flags 1 c st2) as (Frow & Fcol & _).
  unfold ghosted. rewrite Frow, Fcol. rewrite <- Hr2, <- Hk2.
  unfold update_cooked. change (truthy 1) with true. cbn [negb orb].
  unfold truthy.
  destruct (Z.eqb_spec (RowHasGhost st2 !!! CurrentRow st2) 0) as [E1|E1];
    destruct (Z.eqb_spec (ColumnHasGhost st2 !!! c) 0) as [E2|E2];
    cbn [negb andb fst]; state_simpl; split; intros H; try reflexivity;
    solve [ destruct H; contradiction | exfalso; apply H; auto ].
Qed.

(** X27.  When a press registers.  In the iteration of the column loop
    that samples a cell whose pin reads low, the raw cell becomes 1 and the
    key is marked in [KeyPressed] unless, with this press counted, the row
    has a press in the column of some corner or the column, not being
    ghost-free, has a press in the row of some corner; in that case
    [KeyPressed] is left exactly as it was, so a key already marked stays
    marked and one not yet marked is ignored. *)
Theorem press_rule (ScanCode : Z) (c : nat) (st : matrix_state) :
  matrix_wf st -> (c < MATRIX_COLUMNS)%nat -> raw_binary st -> ghosts_current st ->
  let after := fst (scan_cell 0 ScanCode c st) in
  let R := CurrentRow st in
  let suppressed :=
    row_cause (RawSwitchPressed after) (TotalInRow after) (TotalInColumn after) R
    \/ column_cause (RawSwitchPressed after) (TotalInRow after) (TotalInColumn after) c in
  cell (RawSwitchPressed after) R c = 1
  /\ (suppressed -> KeyPressed after = KeyPressed st)
  /\ (~ suppressed ->
      KeyPressed after = <[Z.to_nat (cell KeyboardMatrix R c) := 1]> (KeyPressed st)).
Proof.
  intros Hwf Hc Hbin Hcur. cbv zeta. pose proof (wf_current _ Hwf) as HR.
  destruct (scan_cell_current 0 ScanCode c st Hwf Hc Hbin Hcur) as [_ Gafter].
  destruct (scan_cell_press ScanCode c st) as [Hsup Hreg]. cbv zeta in *.
  apply ghosts_current_iff in Gafter. destruct Gafter as [Grow Gcol].
  set (after := fst (scan_cell 0 ScanCode c st)) in *.
  destruct (ghost_flags_iff (RawSwitchPressed after) (TotalInRow after)
              (TotalInColumn after) (CurrentRow st) c HR Hc) as [Irow Icol].
  rewrite <- Grow in Irow. rewrite <- Gcol in Icol.
  assert (Hiff : ghosted after (CurrentRow st) c
                 <-> row_cause (RawSwitchPressed after) (TotalInRow after)
                       (TotalInColumn after) (CurrentRow st)
                     \/ column_cause (RawSwitchPressed after) (TotalInRow after)
                          (TotalInColumn after) c).
  { unfold ghosted. unfold flag_set in Irow, Icol. rewrite Irow, Icol. reflexivity. }
  split; [|split].
  - unfold after. rewrite scan_cell_raw.
    rewrite cell_set_cell
      by (rewrite ?(wf_raw_rows _ Hwf), ?(wf_row_length st _ Hwf HR); assumption).
    destruct (decide _) as [_|N]; [reflexivity | exfalso; apply N; auto].
  - intros H. apply Hsup, Hiff, H.
  - intros H. apply Hreg. intros G. apply H, Hiff, G.
Qed.

Lemma press_rule_witness :
  cell (RawSwitchPressed (fst (scan_cell 0 0 3 matrix_reset))) (CurrentRow matrix_reset) 3
  = 1.
Proof.
  apply (press_rule 0 3 matrix_reset matrix_reset_wf
           ltac:(unfold MATRIX_COLUMNS; lia)
           (proj1 matrix_reset_current) (proj2 matrix_reset_current)).
Defined.

(** ** A sweep of the matrix *)

Lemma scans_holding_rows sw junk st k :
  matrix_wf st ->
  let st' := scans_holding sw junk k st in
  matrix_wf st'
  /\ CurrentRow st' = ((CurrentRow st + 2 * k) mod MATRIX_ROWS)%nat
  /\ forall m r c, (m < 2 * k)%nat -> r = ((CurrentRow st + m) mod MATRIX_ROWS)%nat ->
       (c < MATRIX_COLUMNS)%nat ->
       cell (RawSwitchPressed st') r c = if sw r c then 1 else 0.
Proof.
  intros Hwf. cbv zeta. pose proof (wf_current _ Hwf) as Hcur.
  induction k as [|k (Wk & Rk & Ck)]; cbn [scans_holding].
  - split; [exact Hwf|]. split.
    + rewrite Nat.mul_0_r, Nat.add_0_r, Nat.mod_small by exact Hcur. reflexivity.
    + intros m r c Hm. lia.
  - set (stk := scans_holding sw junk k st) in *.
    unfold KeyboardScanMatrix, ROWS_PER_REPORT. cbn [seq foldl].
    destruct (scan_row_raw (pins_of sw stk 0) (stk, junk k) Wk) as (W1 & R1 & C1).
    set (s1 := scan_row (pins_of sw stk 0) (stk, junk k)) in *.
    destruct (scan_row_raw (pins_of sw stk 1) s1 W1) as (W2 & R2 & C2).
    cbn [fst] in *.
    assert (HR0 : ((CurrentRow stk + 0) mod MATRIX_ROWS)%nat = CurrentRow stk)
      by (rewrite Nat.add_0_r; apply Nat.mod_small, (wf_current _ Wk)).
    split; [exact W2|]. split.
    + rewrite R2, R1, Rk. rewrite Nat.Div0.add_mod_idemp_l, <- Nat.add_assoc.
      rewrite Nat.Div0.add_mod_idemp_l. f_equal. lia.
    + intros m r c Hm Hr Hc.
      assert (Hrlt : (r < MATRIX_ROWS)%nat)
        by (rewrite Hr; apply Nat.mod_upper_bound; unfold MATRIX_ROWS; lia).
      rewrite (C2 r c Hrlt Hc), R1.
      destruct (decide (r = ((CurrentRow stk + 1) mod MATRIX_ROWS)%nat)) as [E1|N1].
      * unfold pins_of. rewrite <- E1. apply pin_bit_level.
      * rewrite (C1 r c Hrlt Hc).
        destruct (decide (r = CurrentRow stk)) as [E0|N0].
        -- unfold pins_of. rewrite HR0, <- E0. apply pin_bit_level.
        -- apply (Ck m r c); [|exact Hr | exact Hc].
           destruct (Nat.eq_dec m (2 * k)%nat) as [->|Hm0].
           { exfalso. apply N0. rewrite Hr, Rk. reflexivity. }
           destruct (Nat.eq_dec m (2 * k + 1)%nat) as [->|Hm1]; [|lia].
           exfalso. apply N1. rewrite Hr, Rk, Nat.Div0.add_mod_idemp_l. f_equal. lia.
Qed.

(** X28.  Four calls of [KeyboardScanMatrix] sweep the matrix: with the
    keyboard held in one position, after four calls in a row, from any
    state and any starting row, every cell of the raw state is 1 if its
    switch reads closed and 0 if not, and [CurrentRow] is back where it
    was. *)
Theorem sweep_reads_every_switch (sw : nat -> nat -> bool) (junk : nat -> Z)
    (st : matrix_state) :
  matrix_wf st ->
  let st4 := scans_holding sw junk 4 st in
  CurrentRow st4 = CurrentRow st
  /\ forall r c, (r < MATRIX_ROWS)%nat -> (c < MATRIX_COLUMNS)%nat ->
       cell (RawSwitchPressed st4) r c = if sw r c then 1 else 0.
Proof.
  intros Hwf. cbv zeta. pose proof (wf_current _ Hwf) as Hcur.
  destruct (scans_holding_rows sw junk st 4 Hwf) as (_ & R4 & C4). cbv zeta in *.
  unfold MATRIX_ROWS in *. split.
  - rewrite R4. change (2 * 4)%nat with (1 * 8)%nat.
    rewrite Nat.Div0.mod_add. apply Nat.mod_small, Hcur.
  - intros r c Hr Hc.
    destruct (le_lt_dec (CurrentRow st) r) as [Hle|Hgt].
    + apply (C4 (r - CurrentRow st)%nat r c); [lia | | exact Hc].
      replace (CurrentRow st + (r - CurrentRow st))%nat with r by lia.
      symmetry. apply Nat.mod_small, Hr.
    + apply (C4 (r + 8 - CurrentRow st)%nat r c); [lia | | exact Hc].
      replace (CurrentRow st + (r + 8 - CurrentRow st))%nat with (r + 1 * 8)%nat by lia.
      rewrite Nat.Div0.mod_add. symmetry. apply Nat.mod_small, Hr.
Qed.

Lemma sweep_reads_every_switch_witness :
  cell (RawSwitchPressed
          (scans_holding (fun r c => (r =? 5)%nat && (c =? 2)%nat) (fun _ => 0) 4
             (three_presses 0 2))) 5 2 = 1
  /\ cell (RawSwitchPressed
             (scans_holding (fun r c => (r =? 5)%nat && (c =? 2)%nat) (fun _ => 0) 4
                (three_presses 0 2))) 0 0 = 0.
Proof.
  assert (Hwf : matrix_wf (three_presses 0 2)).
  { unfold three_presses. apply KeyboardScanMatrix_wf, matrix_reset_wf. }
  destruct (sweep_reads_every_switch (fun r c => (r =? 5)%nat && (c =? 2)%nat)
              (fun _ => 0) (three_presses 0 2) Hwf) as [_ H].
  split.
  - apply (H 5%nat 2%nat); unfold MATRIX_ROWS, MATRIX_COLUMNS; lia.
  - apply (H 0%nat 0%nat); unfold MATRIX_ROWS, MATRIX_COLUMNS; lia.
Defined.

(** ** The keyboard report *)

Lemma modifier_mask_None c : modifier_mask c = None -> c < 224 \/ 231 < c.
Proof.
  unfold modifier_mask.
  repeat match goal with
         | |- context [?a =? ?b] => destruct (Z.eqb_spec a b) as [?|?]; [discriminate|]
         end.
  intros _.
  unfold HID_KEYBOARD_SC_LEFT_CONTROL, HID_KEYBOARD_SC_LEFT_SHIFT, HID_KEYBOARD_SC_LEFT_ALT,
    HID_KEYBOARD_SC_LEFT_GUI, HID_KEYBOARD_SC_RIGHT_CONTROL, HID_KEYBOARD_SC_RIGHT_SHIFT,
    HID_KEYBOARD_SC_RIGHT_ALT, HID_KEYBOARD_SC_RIGHT_GUI in *.
  lia.
Qed.

(** The loop as long as it does not run out of slots. *)
Lemma report_loop_keys kp codes rep used (n : nat) :
  (forall c, In c codes -> 1 <= c < 256) ->
  used = Z.of_nat n -> length (KeyCode rep) = 6%nat ->
  (n + length (List.filter (fun c => truthy (kp !!! Z.to_nat c) && negb (is_modifier c))
                 codes) <= 6)%nat ->
  let keys := List.filter (fun c => truthy (kp !!! Z.to_nat c) && negb (is_modifier c))
                codes in
  let res := fst (report_loop kp codes (rep, used)) in
  KeyCode res = take n (KeyCode rep) ++ keys ++ drop (n + length keys) (KeyCode rep)
  /\ Reserved res = Reserved rep
  /\ (forall i, (i < 8)%nat ->
        Z.testbit (Modifier res) (Z.of_nat i)
        = Z.testbit (Modifier rep) (Z.of_nat i)
          || existsb (fun c => (c =? 224 + Z.of_nat i) && truthy (kp !!! Z.to_nat c)) codes)
  /\ (0 <= Modifier rep < 256 -> 0 <= Modifier res < 256).
Proof.
  cbv zeta. revert rep used n.
  induction codes as [|c codes IH]; intros rep used n Hc Hu Hlen Hfit.
  - cbn [report_loop List.filter fst existsb length app]. rewrite Nat.add_0_r, take_drop.
    split; [reflexivity|]. split; [reflexivity|]. split; [|auto].
    intros i _. rewrite orb_false_r. reflexivity.
  - assert (Hc0 : 1 <= c < 256) by (apply Hc; left; reflexivity).
    assert (Hc' : forall c', In c' codes -> 1 <= c' < 256)
      by (intros c' H; apply Hc; right; exact H).
    cbn [report_loop List.filter existsb] in *. unfold report_step, is_modifier in *.
    destruct (truthy (kp !!! Z.to_nat c)) eqn:Ep; cbn [andb] in *.
    + destruct (modifier_mask c) as [m|] eqn:Em; cbn [negb] in *.
      * (* a modifier *)
        destruct (IH {| Modifier := u8 (Z.lor (Modifier rep) m);
                        Reserved := Reserved rep; KeyCode := KeyCode rep |}
                    used n Hc' Hu Hlen Hfit) as (K & R & M & B).
        cbn [KeyCode Reserved Modifier] in *.
        split; [exact K|]. split; [exact R|]. split.
        -- intros i Hi. rewrite (M i Hi). rewrite u8_testbit by exact Hi.
           apply modifier_mask_Some in Em. destruct Em as [Hr ->].
           rewrite Z.lor_spec, Z.pow2_bits_eqb by lia.
           rewrite andb_true_r, <- orb_assoc. f_equal. f_equal.
           destruct (Z.eqb_spec (c - 224) (Z.of_nat i)), (Z.eqb_spec c (224 + Z.of_nat i));
             try reflexivity; lia.
        -- intros _. apply B. apply u8_byte.
      * (* a key *)
        cbn [length] in Hfit. unfold MAX_KEYS_PRESSED.
        destruct (Z.ltb_spec used 6) as [Hlt|Hge]; [|lia].
        assert (Hused : u8 (used + 1) = Z.of_nat (S n)) by (rewrite u8_small; lia).
        assert (Hn : Z.to_nat used = n) by lia. rewrite Hn.
        destruct (IH {| Modifier := Modifier rep; Reserved := Reserved rep;
                        KeyCode := <[n := u8 c]> (KeyCode rep) |}
                    (u8 (used + 1)) (S n) Hc' Hused
                    ltac:(cbn [KeyCode]; rewrite length_insert; exact Hlen)
                    ltac:(lia)) as (K & R & M & B).
        cbn [KeyCode Reserved Modifier] in *.
        split; [|split; [exact R|split; [|exact B]]].
        -- rewrite K. rewrite u8_small by lia.
           rewrite (take_S_r _ n c) by (apply list_lookup_insert_eq; lia).
           rewrite take_insert_ge by lia. rewrite drop_insert_lt by lia.
           cbn [length]. rewrite <- !app_assoc. cbn [app].
           replace (S n + _)%nat with (n + S (length (List.filter
             (fun c0 => truthy (kp !!! Z.to_nat c0)
                        && negb match modifier_mask c0 with Some _ => true | None => false end)
             codes)))%nat by lia.
           reflexivity.
        -- intros i Hi. rewrite (M i Hi). f_equal.
           apply modifier_mask_None in Em.
           destruct (Z.eqb_spec c (224 + Z.of_nat i)); [lia | reflexivity].
    + destruct (IH rep used n Hc' Hu Hlen Hfit) as (K & R & M & B).
      split; [exact K|]. split; [exact R|]. split; [|exact B].
      intros i Hi. rewrite (M i Hi). rewrite andb_false_r. reflexivity.
Qed.

Lemma scan_codes_range c : In c scan_codes -> 1 <= c < 256.
Proof.
  unfold scan_codes. intros H. apply in_map_iff in H.
  destruct H as (n & <- & Hn). apply in_seq in Hn. lia.
Qed.

Lemma modifier_code_scanned (kp : list Z) (i : nat) :
  (i < 8)%nat ->
  existsb (fun c => (c =? 224 + Z.of_nat i) && truthy (kp !!! Z.to_nat c)) scan_codes
  = truthy (kp !!! (224 + i)%nat).
Proof.
  intros Hi.
  destruct (existsb _ scan_codes) eqn:E.
  - apply existsb_exists in E. destruct E as (c & _ & H).
    apply andb_true_iff in H. destruct H as [H1 H2]. apply Z.eqb_eq in H1. subst c.
    rewrite <- H2. f_equal. f_equal. lia.
  - destruct (truthy (kp !!! (224 + i)%nat)) eqn:T; [|reflexivity].
    rewrite <- E. apply existsb_exists. exists (224 + Z.of_nat i). split.
    + unfold scan_codes. apply in_map_iff. exists (224 + i)%nat.
      split; [lia | apply in_seq; lia].
    + rewrite Z.eqb_refl. cbn [andb]. rewrite <- T. f_equal. f_equal. lia.
Qed.

Lemma report_keys_from_zero kp codes :
  (forall c, In c codes -> 1 <= c < 256) ->
  (length (List.filter (fun c => truthy (kp !!! Z.to_nat c) && negb (is_modifier c))
             codes) <= 6)%nat ->
  let keys := List.filter (fun c => truthy (kp !!! Z.to_nat c) && negb (is_modifier c))
                codes in
  let res := fst (report_loop kp codes (keyboard_report_zero, 0)) in
  KeyCode res = keys ++ replicate (6 - length keys) 0
  /\ Reserved res = 0
  /\ 0 <= Modifier res < 256
  /\ (forall i, (i < 8)%nat ->
        Z.testbit (Modifier res) (Z.of_nat i)
        = existsb (fun c => (c =? 224 + Z.of_nat i) && truthy (kp !!! Z.to_nat c)) codes).
Proof.
  intros Hc Hfit. cbv zeta.
  assert (Hfit' : (0 + length (List.filter
                                 (fun c => truthy (kp !!! Z.to_nat c) && negb (is_modifier c))
                                 codes) <= 6)%nat)
    by (rewrite Nat.add_0_l; exact Hfit).
  destruct (report_loop_keys kp codes keyboard_report_zero 0 0 Hc eq_refl eq_refl Hfit')
    as (K & R & M & B).
  rewrite Nat.add_0_l in K.
  split; [|split; [exact R|split; [apply B; cbn [keyboard_report_zero Modifier]; lia|]]].
  - rewrite K. cbn [keyboard_report_zero KeyCode].
    rewrite take_0, app_nil_l, drop_replicate. reflexivity.
  - intros i Hi. rewrite (M i Hi). cbn [keyboard_report_zero Modifier].
    rewrite Z.bits_0. reflexivity.
Qed.

(** X21.  The report for at most six keys.  When no more than six scan
    codes that are not modifiers are set in [KeyPressed], the key code
    slots hold those codes in increasing order, the remaining slots are 0,
    no rollover code is used, the reserved byte is 0, and bit [i] of the
    modifier byte is set exactly when the scan code [0xE0 + i] is set. *)
Theorem report_lists_keys (kp : list Z) :
  (length (pressed_keys kp) <= 6)%nat ->
  let rep := build_keyboard_report kp in
  KeyCode rep = pressed_keys kp ++ replicate (6 - length (pressed_keys kp)) 0
  /\ Reserved rep = 0
  /\ 0 <= Modifier rep < 256
  /\ (forall i, (i < 8)%nat ->
        Z.testbit (Modifier rep) (Z.of_nat i) = truthy (kp !!! (224 + i)%nat)).
Proof.
  unfold pressed_keys, build_keyboard_report. intros Hfit. cbv zeta.
  destruct (report_keys_from_zero kp scan_codes scan_codes_range Hfit) as (K & R & B & M).
  split; [exact K|]. split; [exact R|]. split; [exact B|].
  intros i Hi. rewrite (M i Hi). apply modifier_code_scanned, Hi.
Qed.

Lemma report_lists_keys_witness :
  KeyCode (build_keyboard_report (<[4%nat := 1]> (<[225%nat := 1]> (replicate 256 0))))
  = pressed_keys (<[4%nat := 1]> (<[225%nat := 1]> (replicate 256 0)))
    ++ replicate (6 - length (pressed_keys (<[4%nat := 1]> (<[225%nat := 1]>
                                                              (replicate 256 0))))) 0.
Proof.
  apply (report_lists_keys (<[4%nat := 1]> (<[225%nat := 1]> (replicate 256 0)))).
  vm_compute. lia.
Defined.

Lemma report_loop_Reserved kp codes rep used :
  Reserved (fst (report_loop kp codes (rep, used))) = Reserved rep.
Proof.
  revert rep used. induction codes as [|c codes IH]; intros rep used; [reflexivity|].
  cbn [report_loop]. unfold report_step.
  destruct (truthy _); [|apply IH].
  destruct (modifier_mask c); [rewrite IH; reflexivity|].
  destruct (used <? MAX_KEYS_PRESSED); [rewrite IH; reflexivity | reflexivity].
Qed.

(** X22.  Rollover loses the modifiers.  The report loop leaves at the
    seventh key, and the modifier codes, [0xE0] and up, come last: when
    [Keyboard_HID_Task] scans and finds more than six scan codes below
    [0xE0] set, the report it writes has every slot at the rollover code
    and a modifier byte of 0, whichever modifier keys are down. *)
Theorem rollover_loses_modifiers (ScanCode0 : Z) (pins : nat -> nat -> Z)
    (fs : firmware_state) :
  KeyboardSuppressPolling fs = 0 ->
  6 < count_keys (KeyPressed (KeyboardScanMatrix ScanCode0 pins (matrix fs))) low_codes ->
  snd (Keyboard_HID_Task true ScanCode0 pins true fs)
  = Some {| Modifier := 0; Reserved := 0;
            KeyCode := replicate 6 HID_KEYBOARD_SC_ERROR_ROLLOVER |}.
Proof.
  intros Hs Hc. unfold Keyboard_HID_Task. rewrite Hs. change (0 =? 0) with true.
  cbn [negb fst snd KeyboardReportData matrix]. f_equal.
  revert Hc. generalize (KeyPressed (KeyboardScanMatrix ScanCode0 pins (matrix fs))) as kp.
  intros kp Hc. destruct (rollover_drops_modifiers kp Hc) as [Hm Hk].
  pose proof (report_loop_Reserved kp scan_codes keyboard_report_zero 0) as Hr.
  fold (build_keyboard_report kp) in Hr. cbn [keyboard_report_zero Reserved] in Hr.
  destruct (build_keyboard_report kp) as [m r k]. cbn [Modifier Reserved KeyCode] in *.
  subst. reflexivity.
Qed.

Lemma rollover_loses_modifiers_witness :
  snd (Keyboard_HID_Task true 0 (fun i c => if (i =? 1)%nat then 0 else 1) true
         firmware_reset)
  = Some {| Modifier := 0; Reserved := 0;
            KeyCode := replicate 6 HID_KEYBOARD_SC_ERROR_ROLLOVER |}.
Proof.
  apply (rollover_loses_modifiers 0 (fun i c => if (i =? 1)%nat then 0 else 1)
           firmware_reset eq_refl).
  vm_compute. reflexivity.
Defined.

(** ** The tasks and the host *)

(** X23.  One scan per report.  A call of [Keyboard_HID_Task] that finds the
    IN endpoint busy leaves the polling flag set; as long as it is set,
    further calls that find the endpoint busy change nothing and scan
    nothing, and the call that finds it ready writes the report built at
    that one scan, whatever the pins read by then, and clears the flag
    without scanning. *)
Theorem one_scan_per_report (ScanCode0 : Z) (pins : nat -> nat -> Z) (fs : firmware_state) :
  let fs1 := fst (Keyboard_HID_Task true ScanCode0 pins false fs) in
  KeyboardSuppressPolling fs1 <> 0
  /\ snd (Keyboard_HID_Task true ScanCode0 pins false fs) = None
  /\ (KeyboardSuppressPolling fs = 0 ->
      matrix fs1 = KeyboardScanMatrix ScanCode0 pins (matrix fs)
      /\ KeyboardReportData fs1 = build_keyboard_report (KeyPressed (matrix fs1)))
  /\ (forall ScanCode0' pins',
        Keyboard_HID_Task true ScanCode0' pins' false fs1 = (fs1, None))
  /\ (forall ScanCode0' pins',
        let r := Keyboard_HID_Task true ScanCode0' pins' true fs1 in
        snd r = Some (KeyboardReportData fs1)
        /\ matrix (fst r) = matrix fs1
        /\ KeyboardSuppressPolling (fst r) = 0).
Proof.
  cbv zeta. unfold Keyboard_HID_Task. cbn [negb].
  destruct (Z.eqb_spec (KeyboardSuppressPolling fs) 0) as [E|E];
    cbn [fst snd KeyboardSuppressPolling matrix KeyboardReportData].
  - split; [discriminate|]. split; [reflexivity|]. split; [auto|].
    change (1 =? 0) with false. cbv iota. cbn [fst snd KeyboardSuppressPolling matrix
      KeyboardReportData]. split; [reflexivity|]. intros _ _. auto.
  - split; [exact E|]. split; [reflexivity|]. split; [intros F; contradiction|].
    destruct (Z.eqb_spec (KeyboardSuppressPolling fs) 0) as [F|_]; [contradiction|].
    cbn [fst snd KeyboardSuppressPolling matrix KeyboardReportData].
    split; [reflexivity|]. intros _ _. auto.
Qed.

(** X24.  A [GetReport] for the keyboard interface that arrives while a
    report waits for the IN endpoint, the polling flag being set, takes
    that report: it is sent on the control endpoint and the buffer is
    zeroed, and since the flag stays set the next [Keyboard_HID_Task] that
    finds the endpoint ready writes the zeroed buffer, an empty report,
    without scanning, whichever keys are down. *)
Theorem get_report_blanks_pending_report (L : lufa_requests)
    (req : USB_Request_Header_t) (received unattached : nat -> bool) (fuel : nat)
    (fs : firmware_state) (ScanCode0 : Z) (pins : nat -> nat -> Z) :
  bRequest req = HID_REQ_GetReport L ->
  bmRequestType req
  = Z.lor (Z.lor (REQDIR_DEVICETOHOST L) (REQTYPE_CLASS L)) (REQREC_INTERFACE L) ->
  wIndex req = 0 ->
  KeyboardSuppressPolling fs <> 0 ->
  exists fs1,
    EVENT_USB_Device_ControlRequest L req received unattached fuel fs
    = Some (fs1, Some (KeyboardData (KeyboardReportData fs)))
    /\ matrix fs1 = matrix fs /\ mouse fs1 = mouse fs
    /\ MouseReportData fs1 = MouseReportData fs
    /\ snd (Keyboard_HID_Task true ScanCode0 pins true fs1) = Some keyboard_report_zero
    /\ matrix (fst (Keyboard_HID_Task true ScanCode0 pins true fs1)) = matrix fs.
Proof.
  intros Hb Ht Hi Hs. exists (set_KeyboardReportData keyboard_report_zero fs).
  unfold EVENT_USB_Device_ControlRequest. rewrite Hb, Ht, Hi, !Z.eqb_refl.
  change (negb (truthy 0)) with true. cbv iota.
  split; [reflexivity|]. split; [reflexivity|]. split; [reflexivity|].
  split; [reflexivity|].
  unfold Keyboard_HID_Task, set_KeyboardReportData.
  cbn [negb KeyboardSuppressPolling].
  destruct (Z.eqb_spec (KeyboardSuppressPolling fs) 0) as [F|_]; [contradiction|].
  split; reflexivity.
Qed.

Lemma get_report_blanks_pending_report_witness :
  let held := fun (i c : nat) => if (i =? 1)%nat && (c =? 0)%nat then 0 else 1 in
  let fs := fst (Keyboard_HID_Task true 0 held false firmware_reset) in
  KeyCode (KeyboardReportData fs) = [HID_KEYBOARD_SC_U; 0; 0; 0; 0; 0]
  /\ exists fs1,
       EVENT_USB_Device_ControlRequest lufa_values
         {| bmRequestType := 0xA1; bRequest := 0x01; wIndex := 0 |}
         (fun _ => false) (fun _ => false) 0 fs
       = Some (fs1, Some (KeyboardData (KeyboardReportData fs)))
       /\ snd (Keyboard_HID_Task true 0 held true fs1) = Some keyboard_report_zero.
Proof.
  cbv zeta. split; [vm_compute; reflexivity|].
  destruct (get_report_blanks_pending_report lufa_values
              {| bmRequestType := 0xA1; bRequest := 0x01; wIndex := 0 |}
              (fun _ => false) (fun _ => false) 0
              (fst (Keyboard_HID_Task true 0
                      (fun (i c : nat) => if (i =? 1)%nat && (c =? 0)%nat then 0 else 1)
                      false firmware_reset))
              0 (fun (i c : nat) => if (i =? 1)%nat && (c =? 0)%nat then 0 else 1)
              eq_refl eq_refl eq_refl ltac:(vm_compute; discriminate))
    as (fs1 & H1 & _ & _ & _ & H2 & _).
  exists fs1. split; [exact H1 | exact H2].
Defined.

(** *** The main loop *)

Lemma fill_rollover_length kc : length (fill_rollover kc) = length kc.
Proof.
  unfold fill_rollover.
  apply (foldl_preserves (fun l => length l = length kc)); [reflexivity|].
  intros a i Ha. rewrite length_insert. exact Ha.
Qed.

Lemma report_loop_length kp codes rep used :
  length (KeyCode (fst (report_loop kp codes (rep, used)))) = length (KeyCode rep).
Proof.
  revert rep used. induction codes as [|c codes IH]; intros rep used; [reflexivity|].
  cbn [report_loop]. unfold report_step.
  destruct (truthy _); [|apply IH].
  destruct (modifier_mask c); [rewrite IH; reflexivity|].
  destruct (used <? MAX_KEYS_PRESSED).
  - rewrite IH. cbn [KeyCode]. apply length_insert.
  - cbn [fst KeyCode]. apply fill_rollover_length.
Qed.

Lemma build_keyboard_report_length kp : length (KeyCode (build_keyboard_report kp)) = 6%nat.
Proof. unfold build_keyboard_report. rewrite report_loop_length. reflexivity. Qed.

Lemma KeyboardScanMatrix_ok ScanCode0 pins st :
  matrix_wf st -> counts_exact st -> raw_binary st -> ghosts_current st ->
  matrix_wf (KeyboardScanMatrix ScanCode0 pins st)
  /\ counts_exact (KeyboardScanMatrix ScanCode0 pins st)
  /\ raw_binary (KeyboardScanMatrix ScanCode0 pins st)
  /\ ghosts_current (KeyboardScanMatrix ScanCode0 pins st).
Proof.
  intros Hwf Hex Hbin Hcur. unfold KeyboardScanMatrix.
  apply (foldl_preserves
           (fun a => matrix_wf (fst a) /\ counts_exact (fst a)
                     /\ raw_binary (fst a) /\ ghosts_current (fst a))).
  - exact (conj Hwf (conj Hex (conj Hbin Hcur))).
  - intros a i (Wa & Ea & Ba & Ga).
    destruct (scan_row_counts (pins i) a Wa Ea) as [W' E'].
    destruct (scan_row_current (pins i) a Wa Ba Ga) as [B' G'].
    exact (conj W' (conj E' (conj B' G'))).
Qed.

Lemma Keyboard_HID_Task_ok configured ScanCode0 pins in_ready fs :
  firmware_ok fs ->
  firmware_ok (fst (Keyboard_HID_Task configured ScanCode0 pins in_ready fs)).
Proof.
  intros [Hwf Hex Hbin Hcur Hm Hp Hr]. unfold Keyboard_HID_Task.
  destruct configured; cbn [negb fst]; [|constructor; assumption].
  destruct (KeyboardScanMatrix_ok ScanCode0 pins (matrix fs) Hwf Hex Hbin Hcur)
    as (W & E & B & G).
  destruct (KeyboardSuppressPolling fs =? 0), in_ready;
    cbn [fst matrix mouse KeyboardReportData MouseReportData KeyboardSuppressPolling];
    constructor;
    cbn [matrix mouse KeyboardReportData MouseReportData KeyboardSuppressPolling];
    try assumption; try (left; reflexivity); try (right; reflexivity);
    apply build_keyboard_report_length.
Qed.

Lemma Mouse_HID_Task_ok configured wait in_ready fs :
  firmware_ok fs -> firmware_ok (fst (Mouse_HID_Task configured wait in_ready fs)).
Proof.
  intros [Hwf Hex Hbin Hcur Hm Hp Hr]. unfold Mouse_HID_Task.
  destruct configured; cbn [negb fst]; [|constructor; assumption].
  pose proof (poll_range wait _ Hm) as Hm'.
  destruct in_ready;
    cbn [fst matrix mouse KeyboardReportData MouseReportData KeyboardSuppressPolling];
    constructor;
    cbn [matrix mouse KeyboardReportData MouseReportData KeyboardSuppressPolling];
    try assumption.
  unfold accumulators_in_range, reset_accumulators, ACCUMULATED_MIN, ACCUMULATED_MAX.
  cbn [AccumulatedX AccumulatedY]. lia.
Qed.

Lemma ControlRequest_ok L req received unattached fuel fs r :
  firmware_ok fs ->
  EVENT_USB_Device_ControlRequest L req received unattached fuel fs = Some r ->
  firmware_ok (fst r).
Proof.
  intros Hok. pose proof Hok as [Hwf Hex Hbin Hcur Hm Hp Hr].
  unfold EVENT_USB_Device_ControlRequest.
  repeat match goal with
         | |- context [if ?b then _ else _] => destruct b
         | |- context [match wait_led_report ?a ?b ?c ?d with _ => _ end] =>
             destruct (wait_led_report a b c d)
         end;
    intros E; try discriminate E; injection E as <-; cbn [fst]; try exact Hok;
    constructor;
    cbn [set_KeyboardReportData set_MouseReportData matrix mouse KeyboardReportData
         MouseReportData KeyboardSuppressPolling]; try assumption; reflexivity.
Qed.

Lemma handle_requests_ok L fuel rqs fs fs' :
  firmware_ok fs -> handle_requests L fuel rqs fs = Some fs' -> firmware_ok fs'.
Proof.
  unfold handle_requests. intros Hok. revert fs'.
  induction rqs as [|rq rqs IH] using rev_ind; intros fs'.
  - cbn [foldl]. intros [= <-]. exact Hok.
  - rewrite foldl_snoc.
    destruct (foldl _ (Some fs) rqs) as [fs1|] eqn:E; [|discriminate].
    specialize (IH fs1 eq_refl).
    destruct (EVENT_USB_Device_ControlRequest L _ _ _ fuel fs1) as [r|] eqn:Er;
      [|discriminate].
    intros [= <-]. exact (ControlRequest_ok _ _ _ _ _ _ _ IH Er).
Qed.

Lemma firmware_reset_ok : firmware_ok firmware_reset.
Proof.
  constructor; cbn [firmware_reset matrix mouse KeyboardReportData KeyboardSuppressPolling].
  - apply matrix_reset_wf.
  - apply matrix_reset_counts.
  - apply matrix_reset_current.
  - apply matrix_reset_current.
  - unfold accumulators_in_range, ACCUMULATED_MIN, ACCUMULATED_MAX. cbn. lia.
  - left. reflexivity.
  - reflexivity.
Qed.

(** X25.  The loop of [main] keeps the firmware's variables in order.  From
    reset, whatever the pins, the ADB line, the endpoints and the host do,
    and however the two tasks and the control requests follow one another,
    after any number of turns: every array of the scanner has its declared
    size and [CurrentRow] is below 8, the counts are the population counts
    of the raw state, the raw cells hold 0 or 1, the ghost tables are up to
    date, the accumulators lie in [[-127, 127]], the polling flag is 0 or
    1, and the keyboard report has its six slots. *)
Theorem main_loop_invariant (L : lufa_requests) (fuel : nat) (turns : list turn)
    (fs : firmware_state) :
  main_loop L fuel turns firmware_reset = Some fs -> firmware_ok fs.
Proof.
  unfold main_loop. revert fs.
  induction turns as [|t turns IH] using rev_ind; intros fs.
  - cbn [foldl]. intros [= <-]. apply firmware_reset_ok.
  - rewrite foldl_snoc.
    destruct (foldl _ (Some firmware_reset) turns) as [fs0|]; [|discriminate].
    specialize (IH fs0 eq_refl). unfold main_turn.
    apply handle_requests_ok, Mouse_HID_Task_ok, Keyboard_HID_Task_ok, IH.
Qed.

Lemma main_loop_invariant_witness :
  exists fs,
    main_loop lufa_values 4
      [ {| t_keyboard_configured := true; t_junk := 0;
           t_pins := fun i c => if (c =? 3)%nat then 0 else 1;
           t_keyboard_ready := false;
           t_mouse_configured := true; t_line := line_sending 0x807E;
           t_mouse_ready := true;
           t_requests := [({| bmRequestType := 0xA1; bRequest := 0x01; wIndex := 0 |},
                           fun _ => false, fun _ => false)] |} ]
      firmware_reset = Some fs
    /\ firmware_ok fs.
Proof.
  eexists. split; [vm_compute; reflexivity|].
  apply (main_loop_invariant lufa_values 4
           [ {| t_keyboard_configured := true; t_junk := 0;
                t_pins := fun i c => if (c =? 3)%nat then 0 else 1;
                t_keyboard_ready := false;
                t_mouse_configured := true; t_line := line_sending 0x807E;
                t_mouse_ready := true;
                t_requests := [({| bmRequestType := 0xA1; bRequest := 0x01; wIndex := 0 |},
                                fun _ => false, fun _ => false)] |} ]).
  vm_compute. reflexivity.
Defined.

(** *** SetupHardware *)

Lemma run_ops_MCUCR ops g : MCUCR (run_ops ops g) = MCUCR g.
Proof.
  unfold run_ops. apply (foldl_preserves (fun g' => MCUCR g' = MCUCR g)); [reflexivity|].
  intros a o Ha. rewrite <- Ha. destruct o as [Val|IsOutput|us]; cbn [run_op].
  - unfold WritePortPin. destruct (_ <? _)%nat; [|reflexivity].
    destruct (truthy Val); reflexivity.
  - unfold SetPortPinDirection. destruct (_ <? _)%nat; [|reflexivity].
    destruct (truthy IsOutput); reflexivity.
  - reflexivity.
Qed.

(** X26.  The pin setup of [SetupHardware]: after [KeyboardInit] and
    [ADBMouseInit], in that order, every row and column pin of the matrix is
    an input on its pull-up with the pull-ups enabled, and the ADB pin is
    an output at high level; the ADB pin is none of the matrix pins, so
    neither initialisation undoes the other, and no other pin is touched. *)
Theorem SetupHardware_pins (g : gpio) :
  gpio_wf g ->
  let g' := SetupHardware_gpio g in
  gpio_wf g'
  /\ (forall p, In p (RowPins ++ ColumnPins) -> pin_pulled_up g' (fst p) (snd p))
  /\ pin_driven g' ADB_PORT ADB_PIN true
  /\ Z.testbit (MCUCR g') 4 = false
  /\ (forall q i, (q < 6)%nat -> (i < 8)%nat ->
        ~ In (q, i) ((ADB_PORT, ADB_PIN) :: RowPins ++ ColumnPins) ->
        reg_bit (DDR g') q i = reg_bit (DDR g) q i
        /\ reg_bit (PORT g') q i = reg_bit (PORT g) q i).
Proof.
  intros Hwf. cbv zeta. unfold SetupHardware_gpio.
  destruct (KeyboardInit_bits g Hwf) as (W1 & HM & Hb). cbv zeta in *.
  destruct (init_line (KeyboardInit g) W1) as (W2 & Hadb & _ & Hkeep). cbv zeta in *.
  split; [exact W2|]. split; [|split; [exact Hadb|split]].
  - intros [q i] Hin. destruct (matrix_pin_valid _ Hin) as [Hq Hi]. cbn [fst snd] in *.
    assert (Hne : ~ (q = ADB_PORT /\ i = ADB_PIN)).
    { intros [-> ->]. revert Hin. vm_compute. intuition congruence. }
    destruct (Hkeep q i Hq Hi Hne) as [E1 E2]. unfold pin_pulled_up. rewrite E1, E2.
    exact (proj1 (Hb q i Hq Hi) Hin).
  - rewrite run_ops_MCUCR, HM. rewrite (u8_testbit _ 4) by lia.
    rewrite Z.land_spec. apply andb_false_r.
  - intros q i Hq Hi Hno.
    assert (Hne : ~ (q = ADB_PORT /\ i = ADB_PIN)).
    { intros [-> ->]. apply Hno. left. reflexivity. }
    assert (Hno' : ~ In (q, i) (RowPins ++ ColumnPins))
      by (intros H; apply Hno; right; exact H).
    destruct (Hkeep q i Hq Hi Hne) as [E1 E2].
    destruct (proj2 (Hb q i Hq Hi) Hno') as [F1 F2].
    split; congruence.
Qed.

Lemma SetupHardware_pins_witness :
  pin_driven (SetupHardware_gpio gpio_reset) ADB_PORT ADB_PIN true
  /\ pin_pulled_up (SetupHardware_gpio gpio_reset) 5 7.
Proof.
  destruct (SetupHardware_pins gpio_reset gpio_reset_wf) as (_ & Hup & Hadb & _).
  split; [exact Hadb|]. apply (Hup (5, 7)%nat). cbn. tauto.
Defined.
